(** * Blue-carbon estimation pipeline: a shallow embedding and its properties

    The development follows the Python sources

    - [models/vegetation_indices.py]      (modules [Indices], [Bands] and
                                           [Binary64Indices]),
    - [models/carbon_estimation_model.py] (modules [Model] and [Lifecycle]),
    - [services/model_service.py]         (modules [Service] and [Lifecycle]),
    - [api/routes/carbon_estimation.py]   (module [Routes]),
    - [api/routes/model_management.py]    (module [Validation]).

    Numbers.  Python and numpy floats are read in two ways.  [float64] is
    the reading in exact arithmetic: the finite values are exact rationals
    (no rounding, no overflow, one zero), the special values of IEEE 754
    (the two infinities and NaN) are kept, with the IEEE rules for
    arithmetic and comparison on them.  It serves for what does not
    depend on rounding or overflow: which fields are read, what is
    passed on, which exception is raised, the shapes.  What does depend
    on them is stated on IEEE 754 binary64 itself, where every operation
    rounds to nearest and overflows to an infinity: the range of the
    confidence and the levels of the quality score (module [Binary64]),
    the vegetation indices (module [Binary64Indices]) and the thresholds
    of the analysis (module [Binary64Levels]).  The integers the code
    counts with are in [Z].

    Dictionaries are finite maps with string keys; a key that is absent is
    [None] under lookup, which is what [dict.get(key, default)] and
    [key in dict] observe.

    Exceptions are values of [exn]; a function that can raise returns a
    [result]. *)

From Stdlib Require Import QArith Qabs Lqa Bool Ascii Floats.SpecFloat.
From stdpp Require Import gmap strings list fin_maps.

Open Scope Q_scope.

(** ** Exceptions and results *)

Inductive exn : Type :=
| ValueError (msg : string)
| TypeError (msg : string)
| OSError (msg : string)
| FileNotFoundError (path : string).

Inductive result (A : Type) : Type :=
| Ok (a : A)
| Err (e : exn).
Arguments Ok {A} a.
Arguments Err {A} e.

Definition bind {A B : Type} (r : result A) (k : A → result B) : result B :=
  match r with
  | Ok a => k a
  | Err e => Err e
  end.

Notation "'let*' x ':=' r 'in' k" := (bind r (fun x => k))
  (at level 10, x name, r at level 100, k at level 200, only parsing).

Definition raises {A : Type} (r : result A) : Prop := ∃ e, r = Err e.

(** ** Floating-point values *)

Inductive float64 : Type :=
| Fin (q : Q)
| Inf (negative : bool)
| NaN.

Definition Qltb (x y : Q) : bool := negb (Qle_bool y x).

Module F.

(** A number: neither an infinity nor NaN. *)
Definition finite (x : float64) : Prop := ∃ q, x = Fin q.

(** A number other than zero. *)
Definition nonzero (x : float64) : Prop := ∃ q, x = Fin q ∧ ¬ q == 0.

Definition neg (x : float64) : float64 :=
  match x with
  | Fin q => Fin (- q)
  | Inf s => Inf (negb s)
  | NaN => NaN
  end.

Definition abs (x : float64) : float64 :=
  match x with
  | Fin q => Fin (Qabs q)
  | Inf _ => Inf false
  | NaN => NaN
  end.

(** The sum and the product of two numbers are exact: they do not round
    and do not overflow.  Where the code can overflow, in the vegetation
    indices, it is modelled in binary64 ([Binary64Indices]). *)
Definition add (x y : float64) : float64 :=
  match x, y with
  | NaN, _ | _, NaN => NaN
  | Fin a, Fin b => Fin (a + b)
  | Inf s, Fin _ | Fin _, Inf s => Inf s
  | Inf s, Inf t => if Bool.eqb s t then Inf s else NaN
  end.

Definition sub (x y : float64) : float64 := add x (neg y).

Definition mul (x y : float64) : float64 :=
  match x, y with
  | NaN, _ | _, NaN => NaN
  | Fin a, Fin b => Fin (a * b)
  | Inf s, Fin q | Fin q, Inf s =>
      if Qeq_bool q 0 then NaN else Inf (xorb s (Qltb q 0))
  | Inf s, Inf t => Inf (xorb s t)
  end.

(** Division never raises on numpy values: a zero divisor gives an
    infinity, or NaN for 0/0 (the zero is taken as positive). *)
Definition div (x y : float64) : float64 :=
  match x, y with
  | NaN, _ | _, NaN => NaN
  | Fin a, Fin b =>
      if Qeq_bool b 0
      then (if Qeq_bool a 0 then NaN else Inf (Qltb a 0))
      else Fin (a / b)
  | Fin _, Inf _ => Fin 0
  | Inf s, Fin b => Inf (xorb s (Qltb b 0))
  | Inf _, Inf _ => NaN
  end.

(** [x < y]; false as soon as one side is NaN. *)
Definition ltb (x y : float64) : bool :=
  match x, y with
  | NaN, _ | _, NaN => false
  | Fin a, Fin b => Qltb a b
  | Fin _, Inf s => negb s
  | Inf s, Fin _ => s
  | Inf s, Inf t => s && negb t
  end.

Definition gtb (x y : float64) : bool := ltb y x.

(** [x == y]; false as soon as one side is NaN. *)
Definition eqb (x y : float64) : bool :=
  match x, y with
  | Fin a, Fin b => Qeq_bool a b
  | Inf s, Inf t => Bool.eqb s t
  | _, _ => false
  end.

(** Python's built-in [max(a, b)] and [min(a, b)]: the first argument is
    kept unless the second one compares strictly beyond it. *)
Definition py_max (a b : float64) : float64 := if gtb b a then b else a.
Definition py_min (a b : float64) : float64 := if ltb b a then b else a.

(** [np.maximum] and [np.minimum] propagate NaN. *)
Definition np_maximum (a b : float64) : float64 :=
  match a, b with
  | NaN, _ | _, NaN => NaN
  | _, _ => if ltb a b then b else a
  end.

Definition np_minimum (a b : float64) : float64 :=
  match a, b with
  | NaN, _ | _, NaN => NaN
  | _, _ => if ltb b a then b else a
  end.

(** The value lies in the closed interval [[lo, hi]]: it is a finite
    number between the bounds. *)
Definition within (lo hi : Q) (x : float64) : Prop :=
  ∃ q, x = Fin q ∧ lo <= q <= hi.

End F.

(** ** IndexEngine in exact arithmetic: [models/vegetation_indices.py] *)

Module Indices.

(** A numpy array is its buffer of pixels; its shape is the length. *)
Definition ndarray : Type := list float64.

(** Elementwise binary operation of two arrays.  Arrays of one shape
    combine pixel by pixel.  numpy's broadcasting of different shapes is
    not modelled: different lengths are reported as the [ValueError]
    that numpy raises for shapes it cannot broadcast. *)
Definition elementwise (f : float64 → float64 → float64)
    (a b : ndarray) : result ndarray :=
  if decide (length a = length b)
  then Ok (zip_with f a b)
  else Err (ValueError "operands could not be broadcast together").

(** Operations with a scalar operand. *)
Definition scalar_l (f : float64 → float64 → float64) (c : Q)
    (a : ndarray) : ndarray := (f (Fin c)) <$> a.
Definition scalar_r (f : float64 → float64 → float64) (a : ndarray)
    (c : Q) : ndarray := (λ x, f x (Fin c)) <$> a.

(** [np.where(a == 0, c, a)] *)
Definition where_zero_px (c : Q) (x : float64) : float64 :=
  if F.eqb x (Fin 0) then Fin c else x.
Definition where_zero (c : Q) (a : ndarray) : ndarray :=
  where_zero_px c <$> a.

(** [np.clip(a, lo, hi)], which is [minimum(maximum(a, lo), hi)]. *)
Definition clip_px (lo hi : Q) (x : float64) : float64 :=
  F.np_minimum (F.np_maximum x (Fin lo)) (Fin hi).
Definition np_clip (a : ndarray) (lo hi : Q) : ndarray :=
  clip_px lo hi <$> a.

Definition calculate_ndvi (red nir : ndarray) : result ndarray :=
  let* denominator := elementwise F.add nir red in
  let denominator := where_zero 1e-10 denominator in
  let* diff := elementwise F.sub nir red in
  let* ndvi := elementwise F.div diff denominator in
  Ok (np_clip ndvi (-1) 1).

Definition calculate_evi (nir red blue : ndarray) : result ndarray :=
  let* s1 := elementwise F.add nir (scalar_l F.mul 6 red) in
  let* s2 := elementwise F.sub s1 (scalar_l F.mul 7.5 blue) in
  let denominator := scalar_r F.add s2 1 in
  let denominator := where_zero 1e-10 denominator in
  let* diff := elementwise F.sub nir red in
  let* evi := elementwise F.div (scalar_l F.mul 2.5 diff) denominator in
  Ok (np_clip evi (-1) 1).

Definition calculate_savi (nir red : ndarray) (l : Q) : result ndarray :=
  let* s := elementwise F.add nir red in
  let denominator := scalar_r F.add s l in
  let denominator := where_zero 1e-10 denominator in
  let* diff := elementwise F.sub nir red in
  let* q := elementwise F.div diff denominator in
  let savi := scalar_r F.mul q (1 + l) in
  Ok (np_clip savi (-1) 1).

Definition calculate_ndwi (nir swir : ndarray) : result ndarray :=
  let* denominator := elementwise F.add nir swir in
  let denominator := where_zero 1e-10 denominator in
  let* diff := elementwise F.sub nir swir in
  let* ndwi := elementwise F.div diff denominator in
  Ok (np_clip ndwi (-1) 1).

Definition calculate_gci (nir green : ndarray) : result ndarray :=
  let green := where_zero 1e-10 green in
  let* q := elementwise F.div nir green in
  let gci := scalar_r F.sub q 1 in
  Ok (np_clip gci (-1) 10).

(** The default soil factor of [calculate_savi]. *)
Definition savi_default_l : Q := 0.5.

(** A grid of numbers as an array: every pixel is finite. *)
Definition of_numbers (g : list Q) : ndarray := Fin <$> g.

(** Every pixel of the array lies in [[lo, hi]]. *)
Definition all_within (lo hi : Q) (a : ndarray) : Prop :=
  Forall (F.within lo hi) a.

(** The call returns an array of [n] pixels, all of them in [[lo, hi]]. *)
Definition returns_within (lo hi : Q) (n : nat) (r : result ndarray) : Prop :=
  ∃ o, r = Ok o ∧ length o = n ∧ all_within lo hi o.

End Indices.

(** ** Python values and dictionaries *)

(** The values the request dictionaries hold: numbers, strings and [None]. *)
Inductive pyval : Type :=
| VFloat (x : float64)
| VStr (s : string)
| VNone.

Abbreviation pydict := (gmap string pyval).

(** [d.get(key, dflt)] *)
Definition dict_get {V : Type} (d : gmap string V) (key : string) (dflt : V) : V :=
  default dflt (d !! key).

(** [key in d] *)
Definition has_key {V : Type} (key : string) (d : gmap string V) : bool :=
  match d !! key with Some _ => true | None => false end.

(** The truth value of a dictionary: it is not empty. *)
Definition truthy {V : Type} (d : gmap string V) : bool :=
  negb (Nat.eqb (size d) 0).

(** [v == s] for a string literal [s]. *)
Definition eq_str (v : pyval) (s : string) : bool :=
  match v with
  | VStr t => String.eqb t s
  | _ => false
  end.

(** The dictionary [data] of [prepare_features] and [input_data] of the
    service: of its keys only the four groups are read; [None] is a key
    that is not there. *)
Record input_data : Type := InputData {
  satellite_data : option pydict;
  sensor_data : option pydict;
  field_measurements : option pydict;
  project_data : option pydict
}.

(** The dictionary without any of the four groups. *)
Definition no_data : input_data :=
  {| satellite_data := None; sensor_data := None;
     field_measurements := None; project_data := None |}.

(** ** Paths and the persistent store *)

Module Path.

Definition slash : ascii := "/"%char.

Fixpoint ends_with_slash (s : string) : bool :=
  match s with
  | EmptyString => false
  | String c EmptyString => Ascii.eqb c slash
  | String _ r => ends_with_slash r
  end.

(** [os.path.join(a, b)] for a relative [b]. *)
Definition join (a b : string) : string :=
  match a with
  | EmptyString => b
  | _ => if ends_with_slash a then a +:+ b else a +:+ "/" +:+ b
  end.

Fixpoint contains_slash (s : string) : bool :=
  match s with
  | EmptyString => false
  | String c r => Ascii.eqb c slash || contains_slash r
  end.

(** [p[:p.rfind('/') + 1]] *)
Fixpoint head (p : string) : string :=
  match p with
  | EmptyString => EmptyString
  | String c r =>
      if contains_slash r then String c (head r)
      else if Ascii.eqb c slash then String c EmptyString
      else EmptyString
  end.

(** [s.rstrip('/')] *)
Fixpoint rstrip (s : string) : string :=
  match s with
  | EmptyString => EmptyString
  | String c r =>
      match rstrip r with
      | EmptyString => if Ascii.eqb c slash then EmptyString else String c EmptyString
      | r' => String c r'
      end
  end.

(** [os.path.dirname(p)] *)
Definition dirname (p : string) : string :=
  let h := head p in
  match rstrip h with
  | EmptyString => h
  | h' => h'
  end.

(** [os.makedirs(d, exist_ok=True)] on a store whose directories are
    implicit: it only fails on the empty name. *)
Definition makedirs (d : string) : result unit :=
  match d with
  | EmptyString => Err (FileNotFoundError "")
  | _ => Ok tt
  end.

End Path.

(** ** EstimationModel: [models/carbon_estimation_model.py] *)

Module Model.

(** [metadata.json].  A key of the document may be missing. *)
Record metadata : Type := Metadata {
  md_feature_columns : option (list string);
  md_ecosystem_types : option (gmap string Z);
  md_model_version : option string;
  md_created_at : option string
}.

(** The dictionary returned by [predict]. *)
Record prediction : Type := Prediction {
  carbon_estimate_tonnes_co2_per_hectare_per_year : float64;
  confidence : float64;
  timestamp : string;
  model_version : string
}.

Definition default_feature_columns : list string :=
  [ "ndvi"; "evi"; "savi"; "ndwi";
    "temperature"; "humidity"; "soil_moisture";
    "salinity"; "ph"; "organic_matter";
    "biomass_density"; "canopy_height";
    "area_hectares"; "ecosystem_type_encoded" ]%string.

Definition default_ecosystem_types : gmap string Z :=
  <["mangrove" := 0%Z]> (<["saltmarsh" := 1%Z]>
    (<["seagrass" := 2%Z]> (<["tidal_marsh" := 3%Z]> ∅))).

(** [self.ecosystem_types.get(ecosystem_type, 0)]: a value that is not a
    key of the table, string or not, gives the default. *)
Definition encode (table : gmap string Z) (ecosystem_type : pyval) : Z :=
  match ecosystem_type with
  | VStr s => dict_get table s 0%Z
  | _ => 0%Z
  end.

Section Estimator.

(** The regression network (keras) and the feature scaler (sklearn)
    are external: their values are opaque and their operations may
    raise. *)
Context {Net Scaler : Type}.
Context (scaler_transform : Scaler → list pyval → result (list float64)).
Context (net_predict : Net → list float64 → result float64).

(** The attributes of a [CarbonEstimationModel] object. *)
Record t : Type := Self {
  model_path : option string;
  model : option Net;
  scaler : option Scaler;
  feature_columns : list string;
  ecosystem_types : gmap string Z
}.

(** [__init__] *)
Definition init (model_path : option string) : t :=
  {| model_path := model_path;
     model := None;
     scaler := None;
     feature_columns := default_feature_columns;
     ecosystem_types := default_ecosystem_types |}.

(** The two states of the model. *)
Definition trained (self : t) : Prop :=
  is_Some (model self) ∧ is_Some (scaler self).
Definition uninitialized (self : t) : Prop :=
  model self = None ∨ scaler self = None.

Definition prepare_features (self : t) (data : input_data) : list pyval :=
  let satellite_data := default ∅ (satellite_data data) in
  let ndvi := dict_get satellite_data "ndvi" (VFloat (Fin 0.0)) in
  let evi := dict_get satellite_data "evi" (VFloat (Fin 0.0)) in
  let savi := dict_get satellite_data "savi" (VFloat (Fin 0.0)) in
  let ndwi := dict_get satellite_data "ndwi" (VFloat (Fin 0.0)) in
  let sensor_data := default ∅ (sensor_data data) in
  let temperature := dict_get sensor_data "temperature" (VFloat (Fin 25.0)) in
  let humidity := dict_get sensor_data "humidity" (VFloat (Fin 70.0)) in
  let soil_moisture := dict_get sensor_data "soil_moisture" (VFloat (Fin 0.5)) in
  let salinity := dict_get sensor_data "salinity" (VFloat (Fin 35.0)) in
  let ph := dict_get sensor_data "ph" (VFloat (Fin 7.0)) in
  let organic_matter := dict_get sensor_data "organic_matter" (VFloat (Fin 2.0)) in
  let field_measurements := default ∅ (field_measurements data) in
  let biomass_density := dict_get field_measurements "biomass_density" (VFloat (Fin 10.0)) in
  let canopy_height := dict_get field_measurements "canopy_height" (VFloat (Fin 5.0)) in
  let project_data := default ∅ (project_data data) in
  let area_hectares := dict_get project_data "area_hectares" (VFloat (Fin 1.0)) in
  let ecosystem_type := dict_get project_data "ecosystem_type" (VStr "mangrove") in
  let ecosystem_type_encoded := encode (ecosystem_types self) ecosystem_type in
  [ ndvi; evi; savi; ndwi;
    temperature; humidity; soil_moisture;
    salinity; ph; organic_matter;
    biomass_density; canopy_height;
    area_hectares; VFloat (Fin (inject_Z ecosystem_type_encoded)) ].

(** [min(0.95, max(0.5, 1.0 - abs(carbon_estimate) * 0.01))] *)
Definition confidence_of (carbon_estimate : float64) : float64 :=
  F.py_min (Fin 0.95)
    (F.py_max (Fin 0.5)
       (F.sub (Fin 1.0) (F.mul (F.abs carbon_estimate) (Fin 0.01)))).

(** [predict]; [now] is [datetime.utcnow().isoformat()]. *)
Definition predict (self : t) (data : input_data) (now : string)
    : result prediction :=
  match model self, scaler self with
  | Some m, Some s =>
      let features := prepare_features self data in
      let* features_scaled := scaler_transform s features in
      let* carbon_estimate := net_predict m features_scaled in
      let confidence := confidence_of carbon_estimate in
      Ok {| carbon_estimate_tonnes_co2_per_hectare_per_year := carbon_estimate;
            confidence := confidence;
            timestamp := now;
            model_version := "1.0.0" |}
  | _, _ => Err (ValueError "Model not trained or loaded")
  end.

(** The files of an artifact directory.  keras and joblib are taken to
    read back the object they have written: a file holds the object. *)
Inductive file : Type :=
| H5File (m : Net)
| PklFile (s : Scaler)
| JsonFile (md : metadata).

Definition model_file : string := "carbon_estimation_model.h5".
Definition scaler_file : string := "scaler.pkl".
Definition metadata_file : string := "metadata.json".

(** [save_model]: the store after the call, or the exception. *)
Definition save_model (self : t) (fs : gmap string file) (path : string)
    (now : string) : result (gmap string file) :=
  match model self, scaler self with
  | Some m, Some s =>
      let* _ := Path.makedirs (Path.dirname path) in
      let fs := <[Path.join path model_file := H5File m]> fs in
      let fs := <[Path.join path scaler_file := PklFile s]> fs in
      let metadata :=
        {| md_feature_columns := Some (feature_columns self);
           md_ecosystem_types := Some (ecosystem_types self);
           md_model_version := Some "1.0.0"%string;
           md_created_at := Some now |} in
      Ok (<[Path.join path metadata_file := JsonFile metadata]> fs)
  | _, _ => Err (ValueError "No model to save")
  end.

(** [load_model]: the object after the call and how the call ended.
    The attributes are assigned one after the other, so an exception
    leaves the earlier assignments in place. *)
Definition load_model (self : t) (fs : gmap string file) (path : string)
    : t * result unit :=
  match fs !! Path.join path model_file with
  | Some (H5File m) =>
      let self := {| model_path := model_path self; model := Some m;
                     scaler := scaler self;
                     feature_columns := feature_columns self;
                     ecosystem_types := ecosystem_types self |} in
      match fs !! Path.join path scaler_file with
      | Some (PklFile s) =>
          let self := {| model_path := model_path self; model := model self;
                         scaler := Some s;
                         feature_columns := feature_columns self;
                         ecosystem_types := ecosystem_types self |} in
          match fs !! Path.join path metadata_file with
          | Some (JsonFile md) =>
              ({| model_path := model_path self; model := model self;
                  scaler := scaler self;
                  feature_columns :=
                    default (feature_columns self) (md_feature_columns md);
                  ecosystem_types :=
                    default (ecosystem_types self) (md_ecosystem_types md) |},
               Ok tt)
          | Some _ => (self, Err (ValueError "metadata.json is not a JSON document"))
          | None => (self, Err (FileNotFoundError (Path.join path metadata_file)))
          end
      | Some _ => (self, Err (ValueError "scaler.pkl is not a pickle"))
      | None => (self, Err (FileNotFoundError (Path.join path scaler_file)))
      end
  | Some _ => (self, Err (OSError "carbon_estimation_model.h5 is not a model file"))
  | None => (self, Err (OSError "No file or directory found"))
  end.

End Estimator.

Arguments t : clear implicits.
Arguments file : clear implicits.

End Model.

(** ** QualityScorer and EstimationService: [services/model_service.py] *)

Module Service.

(** The dictionary returned by [_assess_data_quality]. *)
Record quality : Type := Quality {
  score : Q;
  level : string;
  issues : list string
}.

(** The dictionary returned by [_analyze_prediction]. *)
Record analysis : Type := Analysis {
  confidence_level : string;
  data_quality : quality;
  recommendations : list string
}.

Definition no_satellite : string := "No satellite data provided".
Definition no_sensor : string := "No sensor data provided".
Definition no_field : string := "No field measurements provided".

Definition rec_more_data : string :=
  "Consider collecting more comprehensive data to improve prediction accuracy".
Definition rec_low_confidence : string :=
  "Prediction confidence is low. Consider additional field measurements".
Definition rec_mangrove : string :=
  "Mangrove ecosystems typically have high carbon sequestration potential".
Definition rec_seagrass : string :=
  "Seagrass meadows are important carbon sinks but require careful monitoring".
Definition rec_small_area : string :=
  "Small project areas may have higher uncertainty in carbon estimates".

(** One point for a key that is present. *)
Definition point (key : string) (d : pydict) : Z :=
  if has_key key d then 1%Z else 0%Z.

Definition _assess_data_quality (input_data : input_data) : quality :=
  let quality_score := 0%Z in
  let max_score := 0%Z in
  let issues : list string := [] in
  (* Check satellite data *)
  let satellite_data := default ∅ (satellite_data input_data) in
  let '(quality_score, max_score, issues) :=
    if truthy satellite_data then
      ((quality_score + point "ndvi" satellite_data + point "evi" satellite_data
        + point "savi" satellite_data + point "ndwi" satellite_data)%Z,
       (max_score + 4)%Z, issues)
    else (quality_score, max_score, issues ++ [no_satellite]) in
  (* Check sensor data *)
  let sensor_data := default ∅ (sensor_data input_data) in
  let '(quality_score, max_score, issues) :=
    if truthy sensor_data then
      ((quality_score + point "temperature" sensor_data
        + point "soil_moisture" sensor_data + point "salinity" sensor_data)%Z,
       (max_score + 3)%Z, issues)
    else (quality_score, max_score, issues ++ [no_sensor]) in
  (* Check field measurements *)
  let field_measurements := default ∅ (field_measurements input_data) in
  let '(quality_score, max_score, issues) :=
    if truthy field_measurements then
      ((quality_score + point "biomass_density" field_measurements
        + point "canopy_height" field_measurements)%Z,
       (max_score + 2)%Z, issues)
    else (quality_score, max_score, issues ++ [no_field]) in
  (* Calculate quality percentage *)
  let quality_percentage :=
    if (0 <? max_score)%Z
    then inject_Z quality_score / inject_Z max_score * 100
    else 0 in
  {| score := quality_percentage;
     level := if Qltb 80 quality_percentage then "high"
              else if Qltb 60 quality_percentage then "medium"
              else "low";
     issues := issues |}.

(** [_generate_recommendations].  The comparison [area_hectares < 1]
    raises [TypeError] on a value that is not a number. *)
Definition _generate_recommendations (input_data : input_data)
    (prediction : Model.prediction) : result (list string) :=
  let recommendations : list string := [] in
  (* Check data quality *)
  let data_quality := _assess_data_quality input_data in
  let recommendations :=
    if Qltb (score data_quality) 60
    then recommendations ++ [rec_more_data] else recommendations in
  (* Check confidence level *)
  let recommendations :=
    if F.ltb (Model.confidence prediction) (Fin 0.7)
    then recommendations ++ [rec_low_confidence] else recommendations in
  (* Check ecosystem type *)
  let ecosystem_type :=
    dict_get (default ∅ (project_data input_data)) "ecosystem_type" (VStr "") in
  let recommendations :=
    if eq_str ecosystem_type "mangrove" then recommendations ++ [rec_mangrove]
    else if eq_str ecosystem_type "seagrass" then recommendations ++ [rec_seagrass]
    else recommendations in
  (* Check area size *)
  let area_hectares :=
    dict_get (default ∅ (project_data input_data)) "area_hectares" (VFloat (Fin 0)) in
  match area_hectares with
  | VFloat a =>
      Ok (if F.ltb a (Fin 1)
          then recommendations ++ [rec_small_area] else recommendations)
  | VStr _ =>
      Err (TypeError "'<' not supported between instances of 'str' and 'int'")
  | VNone =>
      Err (TypeError "'<' not supported between instances of 'NoneType' and 'int'")
  end.

Definition _analyze_prediction (input_data : input_data)
    (prediction : Model.prediction) : result analysis :=
  let confidence_level :=
    if F.gtb (Model.confidence prediction) (Fin 0.8) then "high"
    else if F.gtb (Model.confidence prediction) (Fin 0.6) then "medium"
    else "low" in
  let data_quality := _assess_data_quality input_data in
  let* recommendations := _generate_recommendations input_data prediction in
  Ok {| confidence_level := confidence_level;
        data_quality := data_quality;
        recommendations := recommendations |}.

Section Estimator.

Context {Net Scaler : Type}.
Context (scaler_transform : Scaler → list pyval → result (list float64)).
Context (net_predict : Net → list float64 → result float64).

(** The attributes of a [ModelService] object. *)
Record t : Type := Self {
  carbon_model : option (Model.t Net Scaler);
  model_loaded : bool;
  model_path : string;
  last_update : option string
}.

(** [predict_carbon_sequestration]: the prediction with its [analysis]
    entry. *)
Definition predict_carbon_sequestration (self : t)
    (satellite_data sensor_data field_measurements project_data : pydict)
    (now : string) : result (Model.prediction * analysis) :=
  match model_loaded self, carbon_model self with
  | true, Some carbon_model =>
      let input_data :=
        {| satellite_data := Some satellite_data;
           sensor_data := Some sensor_data;
           field_measurements := Some field_measurements;
           project_data := Some project_data |} in
      let* prediction :=
        Model.predict scaler_transform net_predict carbon_model input_data now in
      let* analysis := _analyze_prediction input_data prediction in
      Ok (prediction, analysis)
  | _, _ => Err (ValueError "Model not loaded")
  end.

End Estimator.

Arguments t : clear implicits.

End Service.

(** ** IndexEngine: the dispatcher, the validation and the statistics *)

Module Bands.

(** [calculate_all_indices]: every index whose bands are there, in a
    dictionary.  An exception of an index is raised again. *)
Definition calculate_all_indices (bands : gmap string Indices.ndarray)
    : result (gmap string Indices.ndarray) :=
  let indices : gmap string Indices.ndarray := ∅ in
  let* indices :=
    match bands !! "red", bands !! "nir" with
    | Some red, Some nir =>
        let* ndvi := Indices.calculate_ndvi red nir in Ok (<["ndvi" := ndvi]> indices)
    | _, _ => Ok indices
    end in
  let* indices :=
    match bands !! "nir", bands !! "red", bands !! "blue" with
    | Some nir, Some red, Some blue =>
        let* evi := Indices.calculate_evi nir red blue in Ok (<["evi" := evi]> indices)
    | _, _, _ => Ok indices
    end in
  let* indices :=
    match bands !! "nir", bands !! "red" with
    | Some nir, Some red =>
        let* savi := Indices.calculate_savi nir red Indices.savi_default_l in
        Ok (<["savi" := savi]> indices)
    | _, _ => Ok indices
    end in
  let* indices :=
    match bands !! "nir", bands !! "swir" with
    | Some nir, Some swir =>
        let* ndwi := Indices.calculate_ndwi nir swir in Ok (<["ndwi" := ndwi]> indices)
    | _, _ => Ok indices
    end in
  let* indices :=
    match bands !! "nir", bands !! "green" with
    | Some nir, Some green =>
        let* gci := Indices.calculate_gci nir green in Ok (<["gci" := gci]> indices)
    | _, _ => Ok indices
    end in
  Ok indices.

(** [validate_bands]: red and nir are required, and the bands have one
    shape.  The values are looked at for a warning only. *)
Definition validate_bands (bands : gmap string Indices.ndarray) : bool :=
  if negb (has_key "red" bands) then false
  else if negb (has_key "nir" bands) then false
  else
    let shapes := (λ kv : string * Indices.ndarray, length kv.2) <$> map_to_list bands in
    if (1 <? size (list_to_set shapes : gset nat))%nat then false
    else true.

(** [index_data[np.isfinite(index_data)]] *)
Definition finite_values (a : Indices.ndarray) : list Q :=
  omap (λ x, match x with Fin q => Some q | _ => None end) a.

(** The statistics of one index. *)
Record statistics : Type := Statistics {
  st_mean : float64;
  st_std : float64;
  st_min : float64;
  st_max : float64;
  st_median : float64;
  st_percentile_25 : float64;
  st_percentile_75 : float64;
  valid_pixels : nat;
  total_pixels : nat
}.

Section Statistics.

(** The reductions of numpy are external. *)
Context (np_mean np_std np_min np_max np_median : list Q → float64).
Context (np_percentile : list Q → Q → float64).

Definition index_statistics (index_data : Indices.ndarray) : statistics :=
  let valid_data := finite_values index_data in
  if (0 <? length valid_data)%nat then
    {| st_mean := np_mean valid_data;
       st_std := np_std valid_data;
       st_min := np_min valid_data;
       st_max := np_max valid_data;
       st_median := np_median valid_data;
       st_percentile_25 := np_percentile valid_data 25;
       st_percentile_75 := np_percentile valid_data 75;
       valid_pixels := length valid_data;
       total_pixels := length index_data |}
  else
    {| st_mean := Fin 0.0; st_std := Fin 0.0; st_min := Fin 0.0;
       st_max := Fin 0.0; st_median := Fin 0.0;
       st_percentile_25 := Fin 0.0; st_percentile_75 := Fin 0.0;
       valid_pixels := 0;
       total_pixels := length index_data |}.

Definition get_index_statistics (indices : gmap string Indices.ndarray)
    : gmap string statistics :=
  index_statistics <$> indices.

End Statistics.

End Bands.

(** ** The estimation route: [api/routes/carbon_estimation.py]

    Of [estimate_carbon_sequestration], the dictionaries it builds for
    the service from the sensor block and the field block of a request.
    A block that is given is an object, which is true; a reading that is
    left out is [None]. *)

Module Routes.

Record SensorDataRequest : Type := {
  temperature : option float64;
  humidity : option float64;
  soil_moisture : option float64;
  salinity : option float64;
  ph : option float64;
  organic_matter : option float64
}.

Record FieldMeasurementsRequest : Type := {
  biomass_density : option float64;
  canopy_height : option float64;
  stem_density : option float64;
  leaf_area_index : option float64
}.

(** The value of an [Optional[float]] attribute. *)
Definition optional (x : option float64) : pyval :=
  match x with Some v => VFloat v | None => VNone end.

Definition sensor_data_of (request : option SensorDataRequest) : pydict :=
  match request with
  | Some r =>
      <["temperature" := optional (temperature r)]>
        (<["humidity" := optional (humidity r)]>
           (<["soil_moisture" := optional (soil_moisture r)]>
              (<["salinity" := optional (salinity r)]>
                 (<["ph" := optional (ph r)]>
                    (<["organic_matter" := optional (organic_matter r)]> ∅)))))
  | None => ∅
  end.

Definition field_measurements_of (request : option FieldMeasurementsRequest)
    : pydict :=
  match request with
  | Some r =>
      <["biomass_density" := optional (biomass_density r)]>
        (<["canopy_height" := optional (canopy_height r)]>
           (<["stem_density" := optional (stem_density r)]>
              (<["leaf_area_index" := optional (leaf_area_index r)]> ∅)))
  | None => ∅
  end.

(** The input of the service for a request, given the satellite indices
    and the project dictionary. *)
Definition input_of (satellite : pydict) (sensor : option SensorDataRequest)
    (field : option FieldMeasurementsRequest) (project : pydict) : input_data :=
  {| satellite_data := Some satellite;
     sensor_data := Some (sensor_data_of sensor);
     field_measurements := Some (field_measurements_of field);
     project_data := Some project |}.

End Routes.

(** ** Training and the life cycle of the service

    [CarbonEstimationModel.train] and, of [ModelService], [load_models],
    [_create_sample_model], [_generate_synthetic_training_data] and
    [retrain_model]. *)

Module Lifecycle.

(** A training sample: the four groups and the measured value. *)
Record sample : Type := Sample {
  sample_input : input_data;
  carbon_estimate : option pyval
}.

(** [X.shape[1]], the number of columns. *)
Definition columns (rows : list (list float64)) : nat :=
  match rows with
  | row :: _ => length row
  | [] => 0
  end.

Section Training.

(** sklearn and keras are external.  Their objects are changed in place
    by [fit_transform] and [fit], so these return the object after the
    call together with the outcome of the call.  keras draws the
    initial weights, the dropout masks and the order of the samples at
    random, and the code sets no seed: the state of the random generator
    of keras is an argument of [build_model] and of [fit], which return
    the state they leave. *)
Context {Net Scaler History Seed : Type}.
Context (StandardScaler : Scaler).
Context (fit_transform :
  Scaler → list (list pyval) → Scaler * result (list (list float64))).
Context (transform : Scaler → list (list pyval) → result (list (list float64))).
Context (build_model : Seed → nat → Net * Seed).
Context (fit :
  Seed → Net → list (list float64) → list pyval →
  option (list (list float64) * list pyval) → Net * result History * Seed).

Definition with_scaler (self : Model.t Net Scaler) (s : Scaler) : Model.t Net Scaler :=
  {| Model.model_path := Model.model_path self;
     Model.model := Model.model self;
     Model.scaler := Some s;
     Model.feature_columns := Model.feature_columns self;
     Model.ecosystem_types := Model.ecosystem_types self |}.

Definition with_model (self : Model.t Net Scaler) (m : Net) : Model.t Net Scaler :=
  {| Model.model_path := Model.model_path self;
     Model.model := Some m;
     Model.scaler := Model.scaler self;
     Model.feature_columns := Model.feature_columns self;
     Model.ecosystem_types := Model.ecosystem_types self |}.

(** The feature rows and the targets of a list of samples. *)
Definition features_of (self : Model.t Net Scaler) (data : list sample)
    : list (list pyval) :=
  (λ s, Model.prepare_features self (sample_input s)) <$> data.
Definition targets_of (data : list sample) : list pyval :=
  (λ s, default (VFloat (Fin 0.0)) (carbon_estimate s)) <$> data.

(** [train]: the object after the call, the history or the exception,
    and the random state after the call.  No validation data is the
    empty list. *)
Definition train (self : Model.t Net Scaler) (training_data validation_data : list sample)
    (seed : Seed) : Model.t Net Scaler * result History * Seed :=
  let X_train := features_of self training_data in
  let y_train := targets_of training_data in
  let '(scaler, X_train_scaled) := fit_transform StandardScaler X_train in
  let self := with_scaler self scaler in
  match X_train_scaled with
  | Err e => (self, Err e, seed)
  | Ok X_train_scaled =>
      let '(model, seed) := build_model seed (columns X_train_scaled) in
      let self := with_model self model in
      let validation :=
        match validation_data with
        | [] => Ok None
        | _ =>
            let X_val := features_of self validation_data in
            let y_val := targets_of validation_data in
            let* X_val_scaled := transform scaler X_val in
            Ok (Some (X_val_scaled, y_val))
        end in
      match validation with
      | Err e => (self, Err e, seed)
      | Ok validation =>
          let '(model, history, seed) :=
            fit seed model X_train_scaled y_train validation in
          (with_model self model, history, seed)
      end
  end.

End Training.

Section Synthetic.

(** The random generator of numpy is external: a draw returns a value
    and the generator after the draw. *)
Context {Rng : Type}.
Context (normal : Rng → Q → Q → float64 * Rng).
Context (uniform : Rng → Q → Q → float64 * Rng).

Definition ecosystem_names : list string :=
  ["mangrove"; "saltmarsh"; "seagrass"; "tidal_marsh"]%string.

Definition base_carbon (ecosystem : string) : Q :=
  if String.eqb ecosystem "mangrove" then 12.0
  else if String.eqb ecosystem "saltmarsh" then 8.0
  else if String.eqb ecosystem "seagrass" then 6.0
  else 7.0.

(** One sample of the inner loop. *)
Definition synthetic_sample (ecosystem : string) (g : Rng) : sample * Rng :=
  let '(ndvi, g) := normal g 0.6 0.2 in
  let '(evi, g) := normal g 0.4 0.15 in
  let '(savi, g) := normal g 0.5 0.18 in
  let '(ndwi, g) := normal g 0.3 0.2 in
  let satellite_data : pydict :=
    <["ndvi" := VFloat ndvi]> (<["evi" := VFloat evi]>
      (<["savi" := VFloat savi]> (<["ndwi" := VFloat ndwi]> ∅))) in
  let '(temperature, g) := normal g 25 5 in
  let '(humidity, g) := normal g 75 10 in
  let '(soil_moisture, g) := normal g 0.6 0.2 in
  let '(salinity, g) := normal g 35 5 in
  let '(ph, g) := normal g 7.5 0.5 in
  let '(organic_matter, g) := normal g 3 1 in
  let sensor_data : pydict :=
    <["temperature" := VFloat temperature]> (<["humidity" := VFloat humidity]>
      (<["soil_moisture" := VFloat soil_moisture]>
         (<["salinity" := VFloat salinity]> (<["ph" := VFloat ph]>
            (<["organic_matter" := VFloat organic_matter]> ∅))))) in
  let '(biomass_density, g) := normal g 15 5 in
  let '(canopy_height, g) := normal g 8 3 in
  let field_measurements : pydict :=
    <["biomass_density" := VFloat biomass_density]>
      (<["canopy_height" := VFloat canopy_height]> ∅) in
  let '(area_hectares, g) := uniform g 1 100 in
  let project_data : pydict :=
    <["area_hectares" := VFloat area_hectares]>
      (<["ecosystem_type" := VStr ecosystem]> ∅) in
  let '(noise, g) := normal g 0 2 in
  let carbon_estimate := F.add (Fin (base_carbon ecosystem)) noise in
  let carbon_estimate := F.py_max (Fin 0) carbon_estimate in
  ({| sample_input :=
        {| satellite_data := Some satellite_data;
           sensor_data := Some sensor_data;
           field_measurements := Some field_measurements;
           project_data := Some project_data |};
      carbon_estimate := Some (VFloat carbon_estimate) |}, g).

(** [for _ in range(n)] *)
Fixpoint samples_of (n : nat) (ecosystem : string) (g : Rng) : list sample * Rng :=
  match n with
  | O => ([], g)
  | S n =>
      let '(s, g) := synthetic_sample ecosystem g in
      let '(rest, g) := samples_of n ecosystem g in
      (s :: rest, g)
  end.

(** [for ecosystem in ecosystem_types] *)
Fixpoint for_ecosystems (names : list string) (g : Rng) : list sample * Rng :=
  match names with
  | [] => ([], g)
  | ecosystem :: names =>
      let '(block, g) := samples_of 250 ecosystem g in
      let '(rest, g) := for_ecosystems names g in
      (block ++ rest, g)
  end.

Definition _generate_synthetic_training_data (g : Rng) : list sample * Rng :=
  for_ecosystems ecosystem_names g.

End Synthetic.

(** What [retrain_model] returns. *)
Record retrained (Metrics : Type) : Type := Retrained {
  status : string;
  samples_used : nat;
  performance_metrics : Metrics;
  last_update : string
}.

Arguments Retrained {Metrics}.
Arguments status {Metrics}.
Arguments samples_used {Metrics}.
Arguments performance_metrics {Metrics}.
Arguments last_update {Metrics}.

Section Service.

Context {Net Scaler History Metrics Rng Seed : Type}.
Context (StandardScaler : Scaler).
Context (fit_transform :
  Scaler → list (list pyval) → Scaler * result (list (list float64))).
Context (transform : Scaler → list (list pyval) → result (list (list float64))).
Context (build_model : Seed → nat → Net * Seed).
Context (fit :
  Seed → Net → list (list float64) → list pyval →
  option (list (list float64) * list pyval) → Net * result History * Seed).
Context (normal : Rng → Q → Q → float64 * Rng).
Context (uniform : Rng → Q → Q → float64 * Rng).

(** [_calculate_performance_metrics] reads the history object of keras. *)
Context (_calculate_performance_metrics : History → result Metrics).

Definition with_carbon_model (self : Service.t Net Scaler)
    (carbon_model : Model.t Net Scaler) : Service.t Net Scaler :=
  {| Service.carbon_model := Some carbon_model;
     Service.model_loaded := Service.model_loaded self;
     Service.model_path := Service.model_path self;
     Service.last_update := Service.last_update self |}.

Definition with_model_loaded (self : Service.t Net Scaler) : Service.t Net Scaler :=
  {| Service.carbon_model := Service.carbon_model self;
     Service.model_loaded := true;
     Service.model_path := Service.model_path self;
     Service.last_update := Service.last_update self |}.

Definition with_last_update (self : Service.t Net Scaler) (now : string)
    : Service.t Net Scaler :=
  {| Service.carbon_model := Service.carbon_model self;
     Service.model_loaded := Service.model_loaded self;
     Service.model_path := Service.model_path self;
     Service.last_update := Some now |}.

(** [os.path.exists] *)
Definition path_exists (fs : gmap string (Model.file Net Scaler)) (p : string) : bool :=
  bool_decide (is_Some (fs !! p)).

(** [_create_sample_model]: the service, the store, the generator of
    numpy and the random state of keras after the call, and how the
    call ended. *)
Definition _create_sample_model (self : Service.t Net Scaler)
    (fs : gmap string (Model.file Net Scaler)) (g : Rng) (seed : Seed)
    (now : string)
    : Service.t Net Scaler * gmap string (Model.file Net Scaler) * Rng * Seed
      * result unit :=
  let '(training_data, g) := _generate_synthetic_training_data normal uniform g in
  let '(carbon_model, history, seed) :=
    train StandardScaler fit_transform transform build_model fit
      (Model.init None) training_data [] seed in
  let self := with_carbon_model self carbon_model in
  match history with
  | Err e => (self, fs, g, seed, Err e)
  | Ok _ =>
      match Model.save_model carbon_model fs (Service.model_path self) now with
      | Err e => (self, fs, g, seed, Err e)
      | Ok fs => (with_model_loaded self, fs, g, seed, Ok tt)
      end
  end.

(** [load_models] *)
Definition load_models (self : Service.t Net Scaler)
    (fs : gmap string (Model.file Net Scaler)) (g : Rng) (seed : Seed)
    (now : string)
    : Service.t Net Scaler * gmap string (Model.file Net Scaler) * Rng * Seed
      * result unit :=
  match Path.makedirs (Service.model_path self) with
  | Err e => (self, fs, g, seed, Err e)
  | Ok _ =>
      let model_file := Path.join (Service.model_path self) Model.model_file in
      let scaler_file := Path.join (Service.model_path self) Model.scaler_file in
      if path_exists fs model_file && path_exists fs scaler_file then
        let '(carbon_model, loaded) :=
          Model.load_model (Model.init None) fs (Service.model_path self) in
        let self := with_carbon_model self carbon_model in
        match loaded with
        | Err e => (self, fs, g, seed, Err e)
        | Ok _ => (with_model_loaded self, fs, g, seed, Ok tt)
        end
      else _create_sample_model self fs g seed now
  end.

(** [retrain_model]; [saved_at] and [updated_at] are the two readings of
    the clock, in [save_model] and for [last_update]. *)
Definition retrain_model (self : Service.t Net Scaler)
    (fs : gmap string (Model.file Net Scaler)) (seed : Seed)
    (new_data : list sample) (saved_at updated_at : string)
    : Service.t Net Scaler * gmap string (Model.file Net Scaler) * Seed
      * result (retrained Metrics) :=
  match Service.model_loaded self, Service.carbon_model self with
  | true, Some carbon_model =>
      let training_data := new_data in
      let '(carbon_model, history, seed) :=
        train StandardScaler fit_transform transform build_model fit
          carbon_model training_data [] seed in
      let self := with_carbon_model self carbon_model in
      match history with
      | Err e => (self, fs, seed, Err e)
      | Ok history =>
          match Model.save_model carbon_model fs (Service.model_path self) saved_at with
          | Err e => (self, fs, seed, Err e)
          | Ok fs =>
              let self := with_last_update self updated_at in
              match _calculate_performance_metrics history with
              | Err e => (self, fs, seed, Err e)
              | Ok performance_metrics =>
                  (self, fs, seed,
                   Ok {| status := "success";
                         samples_used := length training_data;
                         performance_metrics := performance_metrics;
                         last_update := updated_at |})
              end
          end
      end
  | _, _ => (self, fs, seed, Err (ValueError "Model not loaded"))
  end.

End Service.

End Lifecycle.

(** ** Validation of the model on test data

    [validate_model_performance] of the model management routes. *)

Module Validation.

(** A test sample: a dictionary that may lack any of its five keys.
    The target, when it is there, is a float, as the request model of
    the route declares it. *)
Record test_sample : Type := TestSample {
  sample_input : input_data;
  carbon_estimate : option float64
}.

(** The dictionary of metrics. *)
Record report : Type := Report {
  total_samples : nat;
  valid_predictions : nat;
  mae : float64;
  mse : float64;
  rmse : float64;
  mape : float64;
  r_squared : float64;
  validation_timestamp : string
}.

(** What the function returns: [{'error': 'No valid predictions made'}]
    or the metrics. *)
Inductive outcome : Type :=
| NoValidPredictions
| Validated (r : report).

(** An operation on two one-dimensional arrays, with the broadcasting
    of numpy: equal lengths, or one of the two of length one. *)
Definition broadcast (f : float64 → float64 → float64) (a b : list float64)
    : result (list float64) :=
  if (length a =? length b)%nat then Ok (zip_with f a b)
  else
    match a, b with
    | [x], _ => Ok (f x <$> b)
    | _, [y] => Ok ((λ x, f x y) <$> a)
    | _, _ => Err (ValueError "operands could not be broadcast together")
    end.

Definition np_sum (a : list float64) : float64 := foldr F.add (Fin 0) a.

(** The mean of no value is NaN. *)
Definition np_mean (a : list float64) : float64 :=
  F.div (np_sum a) (Fin (inject_Z (Z.of_nat (length a)))).

(** [x ** 2] *)
Definition square (x : float64) : float64 := F.mul x x.

Section Validate.

Context {Net Scaler : Type}.
Context (scaler_transform : Scaler → list pyval → result (list float64)).
Context (net_predict : Net → list float64 → result float64).
Context (np_sqrt : float64 → float64).

(** The body of the loop: an exception of the body, the [KeyError] of a
    missing key included, is logged and the loop goes on.  The
    prediction is appended before the target is looked up. *)
Definition step (self : Service.t Net Scaler) (now : string)
    (lists : list float64 * list float64) (sample : test_sample)
    : list float64 * list float64 :=
  let '(predictions, actual_values) := lists in
  match satellite_data (sample_input sample), sensor_data (sample_input sample),
        field_measurements (sample_input sample),
        project_data (sample_input sample) with
  | Some satellite_data, Some sensor_data, Some field_measurements,
    Some project_data =>
      match Service.predict_carbon_sequestration scaler_transform net_predict
              self satellite_data sensor_data field_measurements project_data
              now with
      | Ok (prediction, _) =>
          let predictions :=
            predictions
            ++ [Model.carbon_estimate_tonnes_co2_per_hectare_per_year prediction] in
          match carbon_estimate sample with
          | Some actual => (predictions, actual_values ++ [actual])
          | None => (predictions, actual_values)
          end
      | Err _ => (predictions, actual_values)
      end
  | _, _, _, _ => (predictions, actual_values)
  end.

Definition validate_model_performance (self : Service.t Net Scaler)
    (test_data : list test_sample) (now validated_at : string) : result outcome :=
  let '(predictions, actual_values) := foldl (step self now) ([], []) test_data in
  match predictions with
  | [] => Ok NoValidPredictions
  | _ =>
      let* errors := broadcast F.sub predictions actual_values in
      let mae := np_mean (F.abs <$> errors) in
      let mse := np_mean (square <$> errors) in
      let rmse := np_sqrt mse in
      let* residuals := broadcast F.sub actual_values predictions in
      let* relative := broadcast F.div residuals actual_values in
      let mape := F.mul (np_mean (F.abs <$> relative)) (Fin 100) in
      let ss_res := np_sum (square <$> residuals) in
      let centred := (λ a, F.sub a (np_mean actual_values)) <$> actual_values in
      let ss_tot := np_sum (square <$> centred) in
      let r_squared :=
        if F.gtb ss_tot (Fin 0) then F.sub (Fin 1) (F.div ss_res ss_tot)
        else Fin 0 in
      Ok (Validated
            {| total_samples := length test_data;
               valid_predictions := length predictions;
               mae := mae;
               mse := mse;
               rmse := rmse;
               mape := mape;
               r_squared := r_squared;
               validation_timestamp := validated_at |})
  end.

End Validate.

End Validation.

(** ** The comparisons of the code in IEEE 754 binary64

    [float64] computes with exact rationals.  The properties that rest on
    comparisons only are also checked on the binary64 format itself, with
    its rounding, as the standard library specifies it ([SpecFloat]). *)

Module Binary64.

Definition prec : Z := 53.
Definition emax : Z := 1024.

Definition is_nan (x : spec_float) : bool :=
  match x with S754_nan => true | _ => false end.

Definition of_int (n : Z) : spec_float := binary_normalize prec emax n 0 false.

(** The literals of the code: 0.95 is 0x1.e666666666666p-1, 0.5 is
    0x1p-1, 1.0 is 0x1p+0, 0.01 is 0x1.47ae147ae147bp-7. *)
Definition lit_0_95 : spec_float := S754_finite false 8556839292003942 (-53).
Definition lit_0_5 : spec_float := S754_finite false 4503599627370496 (-53).
Definition lit_1_0 : spec_float := S754_finite false 4503599627370496 (-52).
Definition lit_0_01 : spec_float := S754_finite false 5764607523034235 (-59).

(** Python's [max(a, b)] and [min(a, b)]. *)
Definition py_max (a b : spec_float) : spec_float := if SFltb a b then b else a.
Definition py_min (a b : spec_float) : spec_float := if SFltb b a then b else a.

(** [min(0.95, max(0.5, 1.0 - abs(carbon_estimate) * 0.01))] *)
Definition confidence_of (carbon_estimate : spec_float) : spec_float :=
  py_min lit_0_95
    (py_max lit_0_5
       (SFsub prec emax lit_1_0
          (SFmul prec emax (SFabs carbon_estimate) lit_0_01))).

(** [np.maximum], [np.minimum] and [np.clip] on one pixel. *)
Definition np_maximum (a b : spec_float) : spec_float :=
  if is_nan a || is_nan b then S754_nan else if SFltb a b then b else a.
Definition np_minimum (a b : spec_float) : spec_float :=
  if is_nan a || is_nan b then S754_nan else if SFltb b a then b else a.
Definition clip_px (lo hi x : spec_float) : spec_float :=
  np_minimum (np_maximum x lo) hi.

(** [quality_score / max_score * 100] and the level of the score. *)
Definition quality_percentage (quality_score max_score : Z) : spec_float :=
  if (0 <? max_score)%Z
  then SFmul prec emax (SFdiv prec emax (of_int quality_score) (of_int max_score))
         (of_int 100)
  else of_int 0.

Definition level_of (quality_percentage : spec_float) : string :=
  if SFltb (of_int 80) quality_percentage then "high"
  else if SFltb (of_int 60) quality_percentage then "medium"
  else "low".

(** The scores that can occur: the weights of the present groups and the
    points earned within them. *)
Definition reachable_scores : list (Z * Z) :=
  max_score ← [0; 2; 3; 4; 5; 6; 7; 9]%Z;
  (λ quality_score, (quality_score, max_score)) <$> seqZ 0 (max_score + 1).

End Binary64.

(** ** IndexEngine in IEEE 754 binary64

    [models/vegetation_indices.py] once more, on arrays of float64 (the
    default type of numpy): every operation rounds to the nearest value,
    ties to even, and overflows to an infinity.  This is the model of
    the index functions; [Indices] is their reading in exact
    arithmetic. *)

Module Binary64Indices.

Import Binary64.

Definition ndarray : Type := list spec_float.

Definition add : spec_float → spec_float → spec_float := SFadd prec emax.
Definition sub : spec_float → spec_float → spec_float := SFsub prec emax.
Definition mul : spec_float → spec_float → spec_float := SFmul prec emax.
Definition div : spec_float → spec_float → spec_float := SFdiv prec emax.

(** The literals of the code: 1e-10 is 0x1.b7cdfd9d7bdbbp-34, 6 is
    0x1.8p+2, 7.5 is 0x1.ep+2, 2.5 is 0x1.4p+1, 10 is 0x1.4p+3. *)
Definition zero : spec_float := S754_zero false.
Definition lit_1e_10 : spec_float := S754_finite false 7737125245533627 (-86).
Definition lit_6 : spec_float := S754_finite false 6755399441055744 (-50).
Definition lit_7_5 : spec_float := S754_finite false 8444249301319680 (-50).
Definition lit_2_5 : spec_float := S754_finite false 5629499534213120 (-51).
Definition lit_10 : spec_float := S754_finite false 5629499534213120 (-49).
Definition lit_minus_1 : spec_float := S754_finite true 4503599627370496 (-52).

(** A value that is a number: neither NaN nor an infinity. *)
Definition is_number (x : spec_float) : bool :=
  match x with
  | S754_zero _ | S754_finite _ _ _ => true
  | _ => false
  end.

(** Elementwise operation of two arrays of one shape; other shapes are
    reported as the [ValueError] of numpy. *)
Definition elementwise (f : spec_float → spec_float → spec_float)
    (a b : ndarray) : result ndarray :=
  if decide (length a = length b)
  then Ok (zip_with f a b)
  else Err (ValueError "operands could not be broadcast together").

(** [np.where(a == 0, 1e-10, a)]; the two zeros are equal to 0, NaN is
    not. *)
Definition where_zero_px (x : spec_float) : spec_float :=
  if SFeqb x zero then lit_1e_10 else x.
Definition where_zero (a : ndarray) : ndarray := where_zero_px <$> a.

(** [np.clip(a, lo, hi)] *)
Definition np_clip (a : ndarray) (lo hi : spec_float) : ndarray :=
  clip_px lo hi <$> a.

Definition calculate_ndvi (red nir : ndarray) : result ndarray :=
  let* denominator := elementwise add nir red in
  let denominator := where_zero denominator in
  let* diff := elementwise sub nir red in
  let* ndvi := elementwise div diff denominator in
  Ok (np_clip ndvi lit_minus_1 lit_1_0).

Definition calculate_evi (nir red blue : ndarray) : result ndarray :=
  let* s1 := elementwise add nir (mul lit_6 <$> red) in
  let* s2 := elementwise sub s1 (mul lit_7_5 <$> blue) in
  let denominator := (λ x, add x lit_1_0) <$> s2 in
  let denominator := where_zero denominator in
  let* diff := elementwise sub nir red in
  let* evi := elementwise div (mul lit_2_5 <$> diff) denominator in
  Ok (np_clip evi lit_minus_1 lit_1_0).

Definition calculate_savi (nir red : ndarray) (l : spec_float) : result ndarray :=
  let* s := elementwise add nir red in
  let denominator := (λ x, add x l) <$> s in
  let denominator := where_zero denominator in
  let* diff := elementwise sub nir red in
  let* q := elementwise div diff denominator in
  let savi := (λ x, mul x (add lit_1_0 l)) <$> q in
  Ok (np_clip savi lit_minus_1 lit_1_0).

Definition calculate_ndwi (nir swir : ndarray) : result ndarray :=
  let* denominator := elementwise add nir swir in
  let denominator := where_zero denominator in
  let* diff := elementwise sub nir swir in
  let* ndwi := elementwise div diff denominator in
  Ok (np_clip ndwi lit_minus_1 lit_1_0).

Definition calculate_gci (nir green : ndarray) : result ndarray :=
  let green := where_zero green in
  let* q := elementwise div nir green in
  let gci := (λ x, sub x lit_1_0) <$> q in
  Ok (np_clip gci lit_minus_1 lit_10).

(** The default soil factor of [calculate_savi], 0.5. *)
Definition savi_default_l : spec_float := lit_0_5.

(** The value of an index at one pixel, before the clip. *)
Definition ndvi_px (red nir : spec_float) : spec_float :=
  div (sub nir red) (where_zero_px (add nir red)).
Definition savi_px (l nir red : spec_float) : spec_float :=
  mul (div (sub nir red) (where_zero_px (add (add nir red) l))) (add lit_1_0 l).

Fixpoint zip_with3 {A B C D : Type} (f : A → B → C → D)
    (a : list A) (b : list B) (c : list C) : list D :=
  match a, b, c with
  | x :: a, y :: b, z :: c => f x y z :: zip_with3 f a b c
  | _, _, _ => []
  end.

(** The value lies in [[lo, hi]]: it is then neither NaN nor an
    infinity, the bounds being numbers. *)
Definition within (lo hi x : spec_float) : Prop :=
  SFleb lo x = true ∧ SFleb x hi = true.



End Binary64Indices.

(** ** The thresholds of the analysis in binary64

    [_analyze_prediction] compares the confidence with 0.8 and 0.6,
    [_generate_recommendations] with 0.7: 0x1.999999999999ap-1,
    0x1.3333333333333p-1 and 0x1.6666666666666p-1. *)

Module Binary64Levels.

Definition lit_0_8 : spec_float := S754_finite false 7205759403792794 (-53).
Definition lit_0_6 : spec_float := S754_finite false 5404319552844595 (-53).
Definition lit_0_7 : spec_float := S754_finite false 6305039478318694 (-53).

(** ['high' if confidence > 0.8 else 'medium' if confidence > 0.6 else 'low'] *)
Definition confidence_level (confidence : spec_float) : string :=
  if SFltb lit_0_8 confidence then "high"
  else if SFltb lit_0_6 confidence then "medium"
  else "low".

(** [confidence < 0.7] *)
Definition low_confidence (confidence : spec_float) : bool :=
  SFltb confidence lit_0_7.

End Binary64Levels.

(** ** A linear regressor and a standard scaler

    One instance of the two external components, for the examples: the
    output layer of the network is linear, the scaler centres and scales
    each column. *)

Module Linear.

Record net : Type := Net { weights : list Q; bias : Q }.

Record scaler : Type := Scaler { mean_ : list Q; scale_ : list Q }.

(** The conversion of an array entry to [float64]; [None] becomes NaN. *)
Definition as_float (v : pyval) : result float64 :=
  match v with
  | VFloat x => Ok x
  | VNone => Ok NaN
  | VStr _ => Err (ValueError "could not convert string to float")
  end.

Fixpoint as_floats (vs : list pyval) : result (list float64) :=
  match vs with
  | [] => Ok []
  | v :: vs =>
      let* x := as_float v in
      let* xs := as_floats vs in
      Ok (x :: xs)
  end.

Definition standardize (x : float64) (ms : Q * Q) : float64 :=
  F.div (F.sub x (Fin ms.1)) (Fin ms.2).

Definition scaler_transform (s : scaler) (features : list pyval)
    : result (list float64) :=
  let* xs := as_floats features in
  Ok (zip_with standardize xs (zip (mean_ s) (scale_ s))).

Definition net_predict (m : net) (x : list float64) : result float64 :=
  Ok (foldr F.add (Fin (bias m))
        (zip_with (λ w xi, F.mul (Fin w) xi) (weights m) x)).

(** Unit scaling, and a regressor that ignores its input. *)
Definition unit_scaler : scaler :=
  {| mean_ := replicate 14 0; scale_ := replicate 14 1 |}.
Definition constant_net (b : Q) : net :=
  {| weights := replicate 14 0; bias := b |}.

Definition predict := Model.predict scaler_transform net_predict.

(** A trained model whose regression output is [b] on every input. *)
Definition constant_model (b : Q) : Model.t net scaler :=
  {| Model.model_path := None;
     Model.model := Some (constant_net b);
     Model.scaler := Some unit_scaler;
     Model.feature_columns := Model.default_feature_columns;
     Model.ecosystem_types := Model.default_ecosystem_types |}.

(** An artifact directory whose metadata lists the feature columns in
    the reverse order. *)
Definition reversed_artifact : gmap string (Model.file net scaler) :=
  <["models/m/carbon_estimation_model.h5" := Model.H5File (constant_net 12)]>
    (<["models/m/scaler.pkl" := Model.PklFile unit_scaler]>
       (<["models/m/metadata.json" :=
            Model.JsonFile
              {| Model.md_feature_columns := Some (reverse Model.default_feature_columns);
                 Model.md_ecosystem_types := Some Model.default_ecosystem_types;
                 Model.md_model_version := Some "1.0.0"%string;
                 Model.md_created_at := Some "2024-01-01T00:00:00"%string |}]> ∅)).

End Linear.

(** ** Bands and reductions for the examples *)

Module Example.

(** Two pixels of red, nir and green; the second pixel has no green. *)
Definition bands : gmap string Indices.ndarray :=
  <["red" := Indices.of_numbers [0.1; 0.1]]>
    (<["nir" := Indices.of_numbers [0.5; 0.5]]>
       (<["green" := Indices.of_numbers [0.25; 0]]> ∅)).

(** The mean, the minimum and the maximum of numbers; the other
    reductions are left as NaN. *)
Definition mean (l : list Q) : float64 :=
  F.div (Fin (foldr Qplus 0 l)) (Fin (inject_Z (Z.of_nat (length l)))).
Definition minimum (l : list Q) : float64 :=
  match l with
  | [] => NaN
  | x :: l => Fin (foldr (λ y m, if Qltb y m then y else m) x l)
  end.
Definition maximum (l : list Q) : float64 :=
  match l with
  | [] => NaN
  | x :: l => Fin (foldr (λ y m, if Qltb m y then y else m) x l)
  end.
Definition unknown (l : list Q) : float64 := NaN.

Definition get_index_statistics :=
  Bands.get_index_statistics mean unknown minimum maximum unknown (λ l _, unknown l).

(** A directory with the model file alone. *)
Definition half_artifact : gmap string (Model.file Linear.net Linear.scaler) :=
  {[ "models/m/carbon_estimation_model.h5"%string
     := Model.H5File (Linear.constant_net 7) ]}.

(** The metadata of an artifact with the given columns and table. *)
Definition metadata_with (columns : list string) (table : gmap string Z)
    : Model.metadata :=
  {| Model.md_feature_columns := Some columns;
     Model.md_ecosystem_types := Some table;
     Model.md_model_version := Some "1.0.0"%string;
     Model.md_created_at := Some "2024-01-01T00:00:00"%string |}.

Definition artifact_with (md : Model.metadata)
    : gmap string (Model.file Linear.net Linear.scaler) :=
  <["models/m/carbon_estimation_model.h5" := Model.H5File (Linear.constant_net 12)]>
    (<["models/m/scaler.pkl" := Model.PklFile Linear.unit_scaler]>
       (<["models/m/metadata.json" := Model.JsonFile md]> ∅)).

(** A table in which mangrove has the code 4. *)
Definition shifted_table : gmap string Z :=
  <["mangrove" := 4%Z]> (<["saltmarsh" := 1%Z]> ∅).

(** A trainer for the linear instance.  Fitting the scaler gives the
    unit scaler and fails on a value that is not a number; a new network
    has the random state as its weights; fitting the network makes its
    bias the first target; the history is the number of rows; a draw
    returns the centre of its distribution. *)
Definition unfitted : Linear.scaler := {| Linear.mean_ := []; Linear.scale_ := [] |}.

Fixpoint rows_as_floats (rows : list (list pyval)) : result (list (list float64)) :=
  match rows with
  | [] => Ok []
  | row :: rows =>
      let* xs := Linear.as_floats row in
      let* rest := rows_as_floats rows in
      Ok (xs :: rest)
  end.

Definition fit_transform (s : Linear.scaler) (rows : list (list pyval))
    : Linear.scaler * result (list (list float64)) :=
  (Linear.unit_scaler, rows_as_floats rows).

Definition transform (s : Linear.scaler) (rows : list (list pyval))
    : result (list (list float64)) :=
  rows_as_floats rows.

Definition build_model (seed : N) (n : nat) : Linear.net * N :=
  ({| Linear.weights := replicate n (inject_Z (Z.of_N seed)); Linear.bias := 0 |},
   N.succ seed).

Definition first_target (y : list pyval) : Q :=
  match y with
  | VFloat (Fin q) :: _ => q
  | _ => 0
  end.

Definition fit (seed : N) (m : Linear.net) (X : list (list float64)) (y : list pyval)
    (validation : option (list (list float64) * list pyval))
    : Linear.net * result nat * N :=
  ({| Linear.weights := Linear.weights m; Linear.bias := first_target y |},
   Ok (length X), N.succ seed).

Definition metrics (history : nat) : result nat := Ok history.

Definition normal (g : N) (mu sigma : Q) : float64 * N := (Fin mu, N.succ g).
Definition uniform (g : N) (lo hi : Q) : float64 * N := (Fin lo, N.succ g).

Definition train :=
  Lifecycle.train unfitted fit_transform transform build_model fit.
Definition load_models :=
  Lifecycle.load_models unfitted fit_transform transform build_model fit
    normal uniform.
Definition retrain_model :=
  Lifecycle.retrain_model unfitted fit_transform transform build_model fit metrics.

(** A fresh service. *)
Definition service : Service.t Linear.net Linear.scaler :=
  {| Service.carbon_model := None;
     Service.model_loaded := false;
     Service.model_path := "models/carbon_estimation";
     Service.last_update := None |}.

(** A service that holds the constant model. *)
Definition loaded_service : Service.t Linear.net Linear.scaler :=
  {| Service.carbon_model := Some (Linear.constant_model 12);
     Service.model_loaded := true;
     Service.model_path := "models/carbon_estimation";
     Service.last_update := None |}.

(** The directory of the service with the model and the scaler, without
    the metadata. *)
Definition headless_artifact : gmap string (Model.file Linear.net Linear.scaler) :=
  <["models/carbon_estimation/carbon_estimation_model.h5"
    := Model.H5File (Linear.constant_net 12)]>
    (<["models/carbon_estimation/scaler.pkl" := Model.PklFile Linear.unit_scaler]> ∅).

(** A test sample with empty groups and the given target, and one
    without sensor data. *)
Definition tested (target : option float64) : Validation.test_sample :=
  {| Validation.sample_input :=
       {| satellite_data := Some ∅; sensor_data := Some ∅;
          field_measurements := Some ∅; project_data := Some ∅ |};
     Validation.carbon_estimate := target |}.
Definition untested : Validation.test_sample :=
  {| Validation.sample_input :=
       {| satellite_data := Some ∅; sensor_data := None;
          field_measurements := Some ∅; project_data := Some ∅ |};
     Validation.carbon_estimate := Some (Fin 9.5) |}.

(** The square root, known at zero only. *)
Definition np_sqrt (x : float64) : float64 :=
  match x with
  | Fin q => if Qeq_bool q 0 then Fin 0 else NaN
  | _ => NaN
  end.

Definition validate_model_performance :=
  Validation.validate_model_performance Linear.scaler_transform Linear.net_predict
    np_sqrt.

(** A sample with a measured value of 9.5, and one whose area is text. *)
Definition measured : Lifecycle.sample :=
  {| Lifecycle.sample_input := no_data;
     Lifecycle.carbon_estimate := Some (VFloat (Fin 9.5)) |}.
Definition mistyped : Lifecycle.sample :=
  {| Lifecycle.sample_input :=
       {| satellite_data := None; sensor_data := None; field_measurements := None;
          project_data := Some {[ "area_hectares"%string := VStr "ten" ]} |};
     Lifecycle.carbon_estimate := Some (VFloat (Fin 9.5)) |}.

End Example.

(** ** The index formulas of the specification

    The second definitions of this section follow the wording of the
    specification; the properties below compare them with the code. *)

Module Spec.

(** [clamp(x, lo, hi)] *)
Definition clamp (lo hi x : Q) : Q :=
  if Qltb x lo then lo else if Qltb hi x then hi else x.

(** The degenerate-input policy: a zero denominator is replaced by
    the epsilon 1e-10. *)
Definition epsilon : Q := 1e-10.
Definition guard (d : Q) : Q := if Qeq_bool d 0 then epsilon else d.

(** ndvi = (nir - red) / (nir + red) *)
Definition ndvi (red nir : Q) : Q :=
  clamp (-1) 1 ((nir - red) / guard (nir + red)).

(** evi = 2.5 * (nir - red) / (nir + 6 * red - 7.5 * blue + 1) *)
Definition evi (nir red blue : Q) : Q :=
  clamp (-1) 1 (2.5 * (nir - red) / guard (nir + 6 * red - 7.5 * blue + 1)).

(** savi = (nir - red) / (nir + red + L) * (1 + L) *)
Definition savi (l nir red : Q) : Q :=
  clamp (-1) 1 ((nir - red) / guard (nir + red + l) * (1 + l)).

(** ndwi = (nir - swir) / (nir + swir) *)
Definition ndwi (nir swir : Q) : Q :=
  clamp (-1) 1 ((nir - swir) / guard (nir + swir)).

(** gci = (nir / green) - 1 *)
Definition gci (nir green : Q) : Q :=
  clamp (-1) 10 (nir / guard green - 1).

Fixpoint zip_with3 {A B C D : Type} (f : A → B → C → D)
    (a : list A) (b : list B) (c : list C) : list D :=
  match a, b, c with
  | x :: a, y :: b, z :: c => f x y z :: zip_with3 f a b c
  | _, _, _ => []
  end.

(** The confidence heuristic: clamp(1 - 0.01 * |estimate|, 0.5, 0.95). *)
Definition confidence (estimate : Q) : Q :=
  clamp 0.5 0.95 (1 - 0.01 * Qabs estimate).

(** A reported value that is not negative. *)
Definition non_negative (x : float64) : Prop := ∃ q, x = Fin q ∧ 0 <= q.

(** The four input groups. *)
Inductive group : Type := Satellite | Sensor | FieldMeasurements | Project.

Definition group_of (g : group) (data : input_data) : option pydict :=
  match g with
  | Satellite => satellite_data data
  | Sensor => sensor_data data
  | FieldMeasurements => field_measurements data
  | Project => project_data data
  end.

(** The documented defaults, in the order of the feature vector. *)
Definition documented_defaults : list (group * string * Q) :=
  [ (Satellite, "ndvi", 0.0); (Satellite, "evi", 0.0);
    (Satellite, "savi", 0.0); (Satellite, "ndwi", 0.0);
    (Sensor, "temperature", 25.0); (Sensor, "humidity", 70.0);
    (Sensor, "soil_moisture", 0.5); (Sensor, "salinity", 35.0);
    (Sensor, "ph", 7.0); (Sensor, "organic_matter", 2.0);
    (FieldMeasurements, "biomass_density", 10.0);
    (FieldMeasurements, "canopy_height", 5.0);
    (Project, "area_hectares", 1.0) ]%string.

(** A field is its value when it is there, and its default when the
    field or its whole group is absent. *)
Definition field_or_default (data : input_data)
    (f : group * string * Q) : pyval :=
  match group_of f.1.1 data with
  | Some d =>
      match d !! f.1.2 with
      | Some v => v
      | None => VFloat (Fin f.2)
      end
  | None => VFloat (Fin f.2)
  end.

(** The stable encoding of the ecosystem types; anything else has the
    code of mangrove. *)
Definition ecosystem_code (s : string) : Z :=
  if decide (s = "mangrove") then 0
  else if decide (s = "saltmarsh") then 1
  else if decide (s = "seagrass") then 2
  else if decide (s = "tidal_marsh") then 3
  else 0.

Definition ecosystem_type_encoded (data : input_data) : Z :=
  match project_data data with
  | Some d =>
      match d !! "ecosystem_type" with
      | Some (VStr s) => ecosystem_code s
      | _ => 0
      end
  | None => 0
  end.

Definition assemble (data : input_data) : list pyval :=
  (field_or_default data <$> documented_defaults)
  ++ [VFloat (Fin (inject_Z (ecosystem_type_encoded data)))].

(** A group is present when it is there and holds at least one field. *)
Definition present (g : option pydict) : bool := truthy (default ∅ g).

(** The weight of a group counts only when the group is present. *)
Definition weight (w : Z) (g : option pydict) : Z :=
  if present g then w else 0.

(** One point for each of the scored fields that a present group holds. *)
Definition points (keys : list string) (g : option pydict) : Z :=
  if present g
  then foldr Z.add 0%Z ((λ k, Service.point k (default ∅ g)) <$> keys)
  else 0.

Definition satellite_fields : list string := ["ndvi"; "evi"; "savi"; "ndwi"]%string.
Definition sensor_fields : list string :=
  ["temperature"; "soil_moisture"; "salinity"]%string.
Definition field_fields : list string := ["biomass_density"; "canopy_height"]%string.

(** The points earned, as a percentage of the weights [total]. *)
Definition percentage (earned total : Z) : Q :=
  if (0 <? total)%Z then inject_Z earned / inject_Z total * 100 else 0.

(** > 80 is high, > 60 is medium, anything else is low. *)
Definition level_of (score : Q) : string :=
  if Qltb 80 score then "high" else if Qltb 60 score then "medium" else "low".

(** The recommendations, in their order of precedence. *)
Definition precedence : list string :=
  [ Service.rec_more_data; Service.rec_low_confidence; Service.rec_mangrove;
    Service.rec_seagrass; Service.rec_small_area ].

(** The recommendations that four tests select. *)
Definition ecosystem_note (ecosystem_type : pyval) : list string :=
  if eq_str ecosystem_type "mangrove" then [Service.rec_mangrove]
  else if eq_str ecosystem_type "seagrass" then [Service.rec_seagrass]
  else [].

Definition selected (incomplete unsure : bool) (ecosystem_type : pyval)
    (small : bool) : list string :=
  (if incomplete then [Service.rec_more_data] else [])
  ++ (if unsure then [Service.rec_low_confidence] else [])
  ++ ecosystem_note ecosystem_type
  ++ (if small then [Service.rec_small_area] else []).

(** The issue of a group that is absent. *)
Definition issue_of (g : option pydict) (issue : string) : list string :=
  if present g then [] else [issue].

(** The keys of a group. *)
Definition keys_of (g : option pydict) : gset string := dom (default ∅ g).

(** The bands an index needs: it is computed when all of them are there. *)
Definition computed (bands : gmap string Indices.ndarray) (name : string) : bool :=
  if decide (name = "ndvi") then has_key "red" bands && has_key "nir" bands
  else if decide (name = "evi") then
    has_key "nir" bands && has_key "red" bands && has_key "blue" bands
  else if decide (name = "savi") then has_key "nir" bands && has_key "red" bands
  else if decide (name = "ndwi") then has_key "nir" bands && has_key "swir" bands
  else if decide (name = "gci") then has_key "nir" bands && has_key "green" bands
  else false.

(** The ecosystem type of a training sample. *)
Definition ecosystem_of (s : Lifecycle.sample) : option pyval :=
  default ∅ (project_data (Lifecycle.sample_input s)) !! "ecosystem_type"%string.

(** A float, as opposed to text or [None]. *)
Definition is_float (v : pyval) : Prop := ∃ x, v = VFloat x.

(** Neither NaN nor below zero. *)
Definition never_negative (x : float64) : Prop :=
  x ≠ NaN ∧ F.ltb x (Fin 0) = false.

(** A sample that lacks nothing: its target is a float that is not
    negative, no group is absent, every scored key is there, and every
    feature is a float. *)
Definition complete_sample (s : Lifecycle.sample) : Prop :=
  (∃ c, Lifecycle.carbon_estimate s = Some (VFloat c) ∧ never_negative c)
  ∧ Service.issues (Service._assess_data_quality (Lifecycle.sample_input s)) = []
  ∧ Service.score (Service._assess_data_quality (Lifecycle.sample_input s)) == 100
  ∧ ∀ table : gmap string Z,
      Forall is_float
        (Model.prepare_features
           {| Model.model_path := None; Model.model := @None unit;
              Model.scaler := @None unit;
              Model.feature_columns := Model.default_feature_columns;
              Model.ecosystem_types := table |}
           (Lifecycle.sample_input s)).

(** The estimate of a test sample: none when a key is missing or the
    service raises. *)
Definition estimate_of {Net Scaler : Type}
    (scaler_transform : Scaler → list pyval → result (list float64))
    (net_predict : Net → list float64 → result float64)
    (svc : Service.t Net Scaler) (now : string) (s : Validation.test_sample)
    : option float64 :=
  match satellite_data (Validation.sample_input s),
        sensor_data (Validation.sample_input s),
        field_measurements (Validation.sample_input s),
        project_data (Validation.sample_input s) with
  | Some satellite, Some sensor, Some field, Some project =>
      match Service.predict_carbon_sequestration scaler_transform net_predict
              svc satellite sensor field project now with
      | Ok (prediction, _) =>
          Some (Model.carbon_estimate_tonnes_co2_per_hectare_per_year prediction)
      | Err _ => None
      end
  | _, _, _, _ => None
  end.

(** The target of a test sample that has an estimate. *)
Definition target_of {Net Scaler : Type}
    (scaler_transform : Scaler → list pyval → result (list float64))
    (net_predict : Net → list float64 → result float64)
    (svc : Service.t Net Scaler) (now : string) (s : Validation.test_sample)
    : option float64 :=
  match estimate_of scaler_transform net_predict svc now s with
  | Some _ => Validation.carbon_estimate s
  | None => None
  end.

(** The service is loaded and answers with the network, the scaler and
    the encoding table of [m]. *)
Definition serves {Net Scaler : Type} (svc : Service.t Net Scaler)
    (m : Model.t Net Scaler) : Prop :=
  Service.model_loaded svc = true
  ∧ ∃ m', Service.carbon_model svc = Some m'
          ∧ Model.model m' = Model.model m
          ∧ Model.scaler m' = Model.scaler m
          ∧ Model.ecosystem_types m' = Model.ecosystem_types m.

End Spec.

(** * Properties *)

(** ** Arithmetic of [float64] *)

Lemma Qltb_lt (x y : Q) : Qltb x y = true ↔ x < y.
Proof.
  unfold Qltb. rewrite negb_true_iff, <- not_true_iff_false, Qle_bool_iff.
  split; [apply Qnot_le_lt | apply Qlt_not_le].
Qed.

Lemma Qltb_ge (x y : Q) : Qltb x y = false ↔ y <= x.
Proof. unfold Qltb. rewrite negb_false_iff. apply Qle_bool_iff. Qed.

Lemma Qeq_bool_false (x y : Q) : Qeq_bool x y = false ↔ ¬ x == y.
Proof. rewrite <- not_true_iff_false, Qeq_bool_iff. reflexivity. Qed.

Import F (finite, nonzero).

Create HintDb fin.

Lemma finite_div x y : finite x → nonzero y → finite (F.div x y).
Proof.
  intros [a ->] (b & -> & Hb). exists (a / b). simpl.
  apply Qeq_bool_false in Hb. rewrite Hb. reflexivity.
Qed.

Lemma finite_Fin q : finite (Fin q).
Proof. eexists. reflexivity. Qed.

#[local] Hint Resolve finite_div finite_Fin : fin.

(** ** IndexEngine *)

Section IndexFacts.

Import Indices.

Lemma elementwise_ok f (a b : ndarray) :
  length a = length b → elementwise f a b = Ok (zip_with f a b).
Proof. intros H. unfold elementwise. rewrite decide_True; done. Qed.

End IndexFacts.

Lemma epsilon_nonzero : ¬ 1e-10 == 0.
Proof. intros H. discriminate H. Qed.

Ltac lengths :=
  unfold Indices.of_numbers, Indices.scalar_l, Indices.scalar_r,
    Indices.where_zero, Indices.np_clip;
  repeat (rewrite length_fmap || rewrite length_zip_with); lia.

Ltac run_array_ops :=
  repeat (rewrite elementwise_ok by lengths; cbn [bind]).


(** ** The guarded division, pixel by pixel *)

Section IndexClosedForm.

Import Indices.

Lemma guard_nonzero d : ¬ Spec.guard d == 0.
Proof.
  unfold Spec.guard. destruct (Qeq_bool d 0) eqn:E.
  - apply epsilon_nonzero.
  - by apply Qeq_bool_false.
Qed.

Lemma guard_zero d : d == 0 → Spec.guard d = Spec.epsilon.
Proof. intros H. unfold Spec.guard. apply Qeq_bool_iff in H. by rewrite H. Qed.

Lemma clamp_within lo hi x : lo <= hi → lo <= Spec.clamp lo hi x <= hi.
Proof.
  intros H. unfold Spec.clamp.
  destruct (Qltb x lo) eqn:E1; [lra|]. apply Qltb_ge in E1.
  destruct (Qltb hi x) eqn:E2; [lra|]. apply Qltb_ge in E2. lra.
Qed.

Lemma where_zero_px_guard d : where_zero_px 1e-10 (Fin d) = Fin (Spec.guard d).
Proof. unfold where_zero_px, Spec.guard. simpl. by destruct (Qeq_bool d 0). Qed.

Lemma div_guard a d : F.div (Fin a) (Fin (Spec.guard d)) = Fin (a / Spec.guard d).
Proof.
  simpl. pose proof (guard_nonzero d) as H.
  apply Qeq_bool_false in H. by rewrite H.
Qed.

Lemma clip_px_clamp lo hi x :
  lo <= hi → clip_px lo hi (Fin x) = Fin (Spec.clamp lo hi x).
Proof.
  intros H. unfold clip_px, Spec.clamp. simpl.
  destruct (Qltb x lo) eqn:E1; simpl.
  - destruct (Qltb hi lo) eqn:E2; [|done]. apply Qltb_lt in E2. lra.
  - by destruct (Qltb hi x).
Qed.

Lemma ndvi_px red nir :
  clip_px (-1) 1
    (F.div (F.sub (Fin nir) (Fin red))
       (where_zero_px 1e-10 (F.add (Fin nir) (Fin red))))
  = Fin (Spec.ndvi red nir).
Proof.
  cbn [F.add F.sub F.neg]. rewrite where_zero_px_guard, div_guard.
  by rewrite clip_px_clamp by lra.
Qed.

Lemma savi_px l nir red :
  clip_px (-1) 1
    (F.mul (F.div (F.sub (Fin nir) (Fin red))
              (where_zero_px 1e-10 (F.add (F.add (Fin nir) (Fin red)) (Fin l))))
       (Fin (1 + l)))
  = Fin (Spec.savi l nir red).
Proof.
  cbn [F.add F.sub F.neg]. rewrite where_zero_px_guard, div_guard.
  cbn [F.mul]. by rewrite clip_px_clamp by lra.
Qed.

(** The arrays the code builds, as one pass over the pixels. *)
Lemma ndvi_pixels (red nir : list Q) :
  np_clip
    (zip_with F.div (zip_with F.sub (of_numbers nir) (of_numbers red))
       (where_zero 1e-10 (zip_with F.add (of_numbers nir) (of_numbers red))))
    (-1) 1
  = of_numbers (zip_with Spec.ndvi red nir).
Proof.
  unfold np_clip, where_zero, of_numbers.
  revert nir. induction red as [|r red IH]; intros [|n nir]; try reflexivity.
  csimpl. f_equal; [apply ndvi_px | apply IH].
Qed.

Lemma savi_pixels l (nir red : list Q) :
  np_clip
    (scalar_r F.mul
       (zip_with F.div (zip_with F.sub (of_numbers nir) (of_numbers red))
          (where_zero 1e-10
             (scalar_r F.add (zip_with F.add (of_numbers nir) (of_numbers red)) l)))
       (1 + l))
    (-1) 1
  = of_numbers (zip_with (Spec.savi l) nir red).
Proof.
  unfold np_clip, where_zero, scalar_r, of_numbers.
  revert red. induction nir as [|n nir IH]; intros [|r red]; try reflexivity.
  csimpl. f_equal; [apply savi_px | apply IH].
Qed.

Lemma calculate_ndvi_pixels (red nir : list Q) :
  length red = length nir →
  calculate_ndvi (of_numbers red) (of_numbers nir)
  = Ok (of_numbers (zip_with Spec.ndvi red nir)).
Proof.
  intros Hl. unfold calculate_ndvi. run_array_ops. by rewrite ndvi_pixels.
Qed.

Lemma calculate_savi_pixels (nir red : list Q) (l : Q) :
  length red = length nir →
  calculate_savi (of_numbers nir) (of_numbers red) l
  = Ok (of_numbers (zip_with (Spec.savi l) nir red)).
Proof.
  intros Hl. unfold calculate_savi. run_array_ops. by rewrite savi_pixels.
Qed.

End IndexClosedForm.

(** ** The indices in exact arithmetic: examples *)

Section IndexExamples.

Import Indices.

(** The pixel with nir = red = 0 comes out as 0, the pixel with
    nir = -red as -1 (the quotient by 1e-10 is clamped). *)
Example ndvi_zero_denominator :
  calculate_ndvi (of_numbers [0; 0.3]) (of_numbers [0; -0.3])
  = Ok [Fin 0; Fin (-1)].
Proof. vm_compute. reflexivity. Qed.

(** A zero green band: nir / 1e-10 - 1 is clamped to 10. *)
Example gci_zero_green :
  calculate_gci (of_numbers [0.5; 0]) (of_numbers [0; 0])
  = Ok [Fin 10; Fin (-1)].
Proof. vm_compute. reflexivity. Qed.

(** Without the replacement the division would leave the numbers. *)
Example unguarded_division :
  F.div (Fin 0) (Fin 0) = NaN ∧ F.div (Fin 0.5) (Fin 0) = Inf false.
Proof. split; reflexivity. Qed.

(** NaN is no number: a pixel that is NaN in a band stays NaN, since
    [np.clip] passes it on. *)
Example nan_pixel_passed_on :
  calculate_gci [NaN; Fin 0.5] (of_numbers [0; 0]) = Ok [NaN; Fin 10].
Proof. vm_compute. reflexivity. Qed.

(** The scenario of the specification: 0.4 / 0.6 at every pixel. *)
Example ndvi_scenario :
  calculate_ndvi (of_numbers [0.1; 0.1; 0.1; 0.1])
    (of_numbers [0.5; 0.5; 0.5; 0.5])
  = Ok (of_numbers (replicate 4 (4000 # 6000)))
  ∧ 4000 # 6000 == 2 # 3.
Proof. split; [vm_compute; reflexivity | reflexivity]. Qed.

End IndexExamples.

(** ** EstimationModel: prediction *)

Section PredictFacts.

Context {Net Scaler : Type}.
Context (scaler_transform : Scaler → list pyval → result (list float64)).
Context (net_predict : Net → list float64 → result float64).

Abbreviation predict := (Model.predict scaler_transform net_predict).

(** What a successful [predict] has done. *)
Lemma predict_ok_inv (self : Model.t Net Scaler) data now p :
  predict self data now = Ok p →
  ∃ m s features_scaled,
    Model.model self = Some m ∧ Model.scaler self = Some s
    ∧ scaler_transform s (Model.prepare_features self data) = Ok features_scaled
    ∧ net_predict m features_scaled
      = Ok (Model.carbon_estimate_tonnes_co2_per_hectare_per_year p)
    ∧ Model.confidence p
      = Model.confidence_of (Model.carbon_estimate_tonnes_co2_per_hectare_per_year p)
    ∧ Model.timestamp p = now
    ∧ Model.model_version p = "1.0.0"%string.
Proof.
  unfold Model.predict. intros H.
  destruct (Model.model self) as [m|]; [|discriminate].
  destruct (Model.scaler self) as [s|]; [|discriminate].
  destruct (scaler_transform s _) as [fs|] eqn:Hs; [|discriminate].
  cbn [bind] in H.
  destruct (net_predict m fs) as [y|] eqn:Hy; [|discriminate].
  cbn [bind] in H. injection H as <-.
  exists m, s, fs. cbn. auto 10.
Qed.

Lemma predict_uninitialized (self : Model.t Net Scaler) data now :
  Model.uninitialized self →
  predict self data now = Err (ValueError "Model not trained or loaded").
Proof.
  unfold Model.uninitialized, Model.predict. intros [H|H]; rewrite H.
  - reflexivity.
  - by destruct (Model.model self).
Qed.

Lemma init_uninitialized mp : Model.uninitialized (Model.init (Net:=Net) (Scaler:=Scaler) mp).
Proof. by left. Qed.

End PredictFacts.

(** The confidence of a number is the clamp of the specification. *)
Lemma confidence_of_number (e : Q) :
  ∃ c, Model.confidence_of (Fin e) = Fin c ∧ c == Spec.confidence e.
Proof.
  unfold Model.confidence_of, Spec.confidence, Spec.clamp.
  cbn [F.abs F.mul F.sub F.neg F.add].
  set (y := 1.0 + - (Qabs e * 0.01)).
  assert (Hy : y == 1 - 0.01 * Qabs e) by (unfold y; lra).
  unfold F.py_max, F.py_min, F.gtb. cbn [F.ltb].
  destruct (Qltb 0.5 y) eqn:E1; cbn [F.ltb].
  - apply Qltb_lt in E1.
    destruct (Qltb y 0.95) eqn:E2.
    + apply Qltb_lt in E2. exists y. split; [done|].
      destruct (Qltb (1 - 0.01 * Qabs e) 0.5) eqn:E3;
        [apply Qltb_lt in E3; lra|].
      destruct (Qltb 0.95 (1 - 0.01 * Qabs e)) eqn:E4;
        [apply Qltb_lt in E4; lra | done].
    + apply Qltb_ge in E2. exists 0.95. split; [done|].
      destruct (Qltb (1 - 0.01 * Qabs e) 0.5) eqn:E3;
        [apply Qltb_lt in E3; lra|].
      destruct (Qltb 0.95 (1 - 0.01 * Qabs e)) eqn:E4; [done|].
      apply Qltb_ge in E4. lra.
  - apply Qltb_ge in E1.
    exists 0.5. split; [reflexivity|].
    destruct (Qltb (1 - 0.01 * Qabs e) 0.5) eqn:E3; [done|].
    apply Qltb_ge in E3.
    destruct (Qltb 0.95 (1 - 0.01 * Qabs e)) eqn:E4;
      [apply Qltb_lt in E4; lra | lra].
Qed.

(** Whatever the estimate is, NaN and the infinities included, the
    confidence is a number between 0.5 and 0.95. *)
Lemma confidence_of_within (x : float64) :
  F.within 0.5 0.95 (Model.confidence_of x).
Proof.
  destruct x as [e|s|].
  - destruct (confidence_of_number e) as (c & -> & Hc).
    exists c. split; [done|]. rewrite Hc.
    apply clamp_within. lra.
  - exists 0.5. split; [by destruct s | lra].
  - exists 0.5. split; [reflexivity | lra].
Qed.

Section PredictClaims.

Context {Net Scaler : Type}.
Context (scaler_transform : Scaler → list pyval → result (list float64)).
Context (net_predict : Net → list float64 → result float64).

Abbreviation predict := (Model.predict scaler_transform net_predict).

(** C1.  When [predict] succeeds the model is trained, the confidence of
    the result is [clamp(1 - 0.01 * |estimate|, 0.5, 0.95)] for the
    estimate that is returned, and it lies in [[0.5, 0.95]] whatever the
    estimate is, of either sign and of any size. *)
Theorem predict_confidence_is_clamped (self : Model.t Net Scaler) data now p :
  predict self data now = Ok p →
  Model.trained self
  ∧ (∀ e, Model.carbon_estimate_tonnes_co2_per_hectare_per_year p = Fin e →
          ∃ c, Model.confidence p = Fin c ∧ c == Spec.confidence e)
  ∧ F.within 0.5 0.95 (Model.confidence p).
Proof.
  intros H.
  destruct (predict_ok_inv _ _ _ _ _ _ H) as (m & s & fs & Hm & Hs & _ & _ & Hc & _).
  split; [|split].
  - unfold Model.trained. rewrite Hm, Hs. split; eexists; reflexivity.
  - intros e He. rewrite Hc, He. apply confidence_of_number.
  - rewrite Hc. apply confidence_of_within.
Qed.

(** C8, as the code has it.  When [predict] succeeds the estimate of the
    result is the output of the regression as it is: nothing is clamped,
    and a negative output is reported negative. *)
Theorem predict_reports_raw_estimate (self : Model.t Net Scaler) data now p :
  predict self data now = Ok p →
  ∃ m s features_scaled,
    Model.model self = Some m ∧ Model.scaler self = Some s
    ∧ scaler_transform s (Model.prepare_features self data) = Ok features_scaled
    ∧ net_predict m features_scaled
      = Ok (Model.carbon_estimate_tonnes_co2_per_hectare_per_year p).
Proof.
  intros H.
  destruct (predict_ok_inv _ _ _ _ _ _ H) as (m & s & fs & Hm & Hs & Ht & Hp & _).
  exists m, s, fs. auto.
Qed.

End PredictClaims.

(** A regression output of 12 has confidence 0.88. *)
Lemma predict_confidence_is_clamped_witness :
  ∃ p, Linear.predict (Linear.constant_model 12) no_data "2024-01-01T00:00:00" = Ok p
       ∧ F.within 0.5 0.95 (Model.confidence p).
Proof.
  eexists. split; [vm_compute; reflexivity|].
  eapply (predict_confidence_is_clamped Linear.scaler_transform Linear.net_predict
            (Linear.constant_model 12) no_data "2024-01-01T00:00:00").
  vm_compute. reflexivity.
Defined.

(** C8 fails: a trained model whose regression gives -3 reports an
    estimate that is negative. *)
Lemma predict_reports_negative_estimate :
  ∃ p, Linear.predict (Linear.constant_model (-3)) no_data "2024-01-01T00:00:00" = Ok p
       ∧ ¬ Spec.non_negative (Model.carbon_estimate_tonnes_co2_per_hectare_per_year p).
Proof.
  eexists. split; [vm_compute; reflexivity|].
  intros (q & Hq & Hle). cbn in Hq. injection Hq as <-.
  revert Hle. vm_compute. intros Hle. apply Hle. reflexivity.
Qed.

Lemma predict_reports_raw_estimate_witness :
  ∃ p, Linear.predict (Linear.constant_model (-3)) no_data "2024-01-01T00:00:00" = Ok p
       ∧ ∃ fs, Linear.net_predict (Linear.constant_net (-3)) fs
               = Ok (Model.carbon_estimate_tonnes_co2_per_hectare_per_year p).
Proof.
  eexists. split; [vm_compute; reflexivity|].
  destruct (predict_reports_raw_estimate Linear.scaler_transform Linear.net_predict
              (Linear.constant_model (-3)) no_data "2024-01-01T00:00:00" _
              eq_refl) as (m & s & fs & Hm & Hs & Ht & Hp).
  injection Hm as <-. exists fs. exact Hp.
Defined.

(** ** FeatureAssembler *)

Section AssembleFacts.

Context {Net Scaler : Type}.

Lemma encode_default_table (s : string) :
  Model.encode Model.default_ecosystem_types (VStr s) = Spec.ecosystem_code s.
Proof.
  unfold Model.encode, dict_get, Model.default_ecosystem_types, Spec.ecosystem_code.
  rewrite !lookup_insert, lookup_empty.
  repeat case_decide; subst; try reflexivity; congruence.
Qed.

Lemma dict_get_absent {V} (key : string) (dflt : V) :
  dict_get (∅ : gmap string V) key dflt = dflt.
Proof. unfold dict_get. by rewrite lookup_empty. Qed.

Lemma dict_get_group (g : option pydict) (key : string) (dflt : pyval) :
  dict_get (default ∅ g) key dflt
  = match g with
    | Some d => match d !! key with Some v => v | None => dflt end
    | None => dflt
    end.
Proof. destruct g as [d|]; cbn [default]; [done | apply dict_get_absent]. Qed.

Lemma prepare_features_assemble (self : Model.t Net Scaler) (data : input_data) :
  Model.ecosystem_types self = Model.default_ecosystem_types →
  Model.prepare_features self data = Spec.assemble data.
Proof.
  intros Htable.
  unfold Model.prepare_features, Spec.assemble, Spec.ecosystem_type_encoded.
  rewrite !dict_get_group, Htable.
  cbn [fmap list_fmap Spec.documented_defaults app].
  unfold Spec.field_or_default. cbn [fst snd Spec.group_of].
  repeat f_equal.
  destruct (project_data data) as [d|]; [|reflexivity].
  destruct (d !! "ecosystem_type"%string) as [[x|t|]|]; try reflexivity.
  apply encode_default_table.
Qed.

Lemma ecosystem_code_unrecognized (s : string) :
  s ∉ ["mangrove"; "saltmarsh"; "seagrass"; "tidal_marsh"]%string →
  Spec.ecosystem_code s = 0%Z.
Proof.
  intros H. unfold Spec.ecosystem_code.
  repeat case_decide; subst; try reflexivity; exfalso; apply H; set_solver.
Qed.

(** C5.  With the encoding table of [__init__] the feature vector is, in
    this order, each documented field or its default when the field or
    its group is absent, then the ecosystem code; it has 14 components;
    without any group it is the vector of the defaults; and a string
    that names no ecosystem type is encoded as mangrove is, by 0. *)
Theorem prepare_features_defaults (self : Model.t Net Scaler)
    (data : input_data) (unknown : string) :
  Model.ecosystem_types self = Model.default_ecosystem_types →
  unknown ∉ ["mangrove"; "saltmarsh"; "seagrass"; "tidal_marsh"]%string →
  Model.prepare_features self data = Spec.assemble data
  ∧ length (Model.prepare_features self data) = 14%nat
  ∧ Model.prepare_features self no_data
    = VFloat <$> (Fin <$> [0.0; 0.0; 0.0; 0.0; 25.0; 70.0; 0.5; 35.0; 7.0; 2.0;
                           10.0; 5.0; 1.0; 0])
  ∧ Model.encode (Model.ecosystem_types self) (VStr unknown) = 0%Z
  ∧ Model.encode (Model.ecosystem_types self) (VStr "mangrove") = 0%Z.
Proof.
  intros Htable Hunknown. repeat apply conj.
  - by apply prepare_features_assemble.
  - reflexivity.
  - rewrite prepare_features_assemble by done. reflexivity.
  - rewrite Htable, encode_default_table. by apply ecosystem_code_unrecognized.
  - rewrite Htable. apply encode_default_table.
Qed.

End AssembleFacts.

(** A project whose ecosystem type is not one of the four. *)
Lemma prepare_features_defaults_witness :
  let self := Linear.constant_model 12 in
  let data := {| satellite_data := Some {[ "ndvi"%string := VFloat (Fin 0.6) ]};
                 sensor_data := Some ∅;
                 field_measurements := None;
                 project_data := Some {[ "ecosystem_type"%string := VStr "kelp_forest" ]} |} in
  (Model.ecosystem_types self = Model.default_ecosystem_types
   ∧ "kelp_forest"%string ∉ ["mangrove"; "saltmarsh"; "seagrass"; "tidal_marsh"]%string)
  ∧ Model.prepare_features self data = Spec.assemble data
  ∧ Model.encode (Model.ecosystem_types self) (VStr "kelp_forest") = 0%Z.
Proof.
  intros self data.
  assert (H1 : Model.ecosystem_types self = Model.default_ecosystem_types)
    by reflexivity.
  assert (H2 : "kelp_forest"%string
               ∉ ["mangrove"; "saltmarsh"; "seagrass"; "tidal_marsh"]%string).
  { rewrite !not_elem_of_cons. repeat split; try discriminate. apply not_elem_of_nil. }
  pose proof (prepare_features_defaults self data "kelp_forest" H1 H2)
    as (Ha & _ & _ & Hu & _).
  repeat split; assumption.
Defined.

(** A key that is there with the value [None] is not absent: the value
    is taken as it is. *)
Example prepare_features_none_value :
  Model.prepare_features (Linear.constant_model 12)
    {| satellite_data := None;
       sensor_data := Some {[ "temperature"%string := VNone ]};
       field_measurements := None;
       project_data := None |} !! 4%nat
  = Some VNone.
Proof. vm_compute. reflexivity. Qed.

Example prepare_features_kelp :
  Model.prepare_features (Linear.constant_model 12)
    {| satellite_data := Some {[ "ndvi"%string := VFloat (Fin 0.6) ]};
       sensor_data := Some ∅;
       field_measurements := None;
       project_data := Some {[ "ecosystem_type"%string := VStr "kelp_forest" ]} |}
  = VFloat <$> (Fin <$> [0.6; 0.0; 0.0; 0.0; 25.0; 70.0; 0.5; 35.0; 7.0; 2.0;
                         10.0; 5.0; 1.0; 0]).
Proof. vm_compute. reflexivity. Qed.

(** ** EstimationModel: persistence *)

Lemma join_inj (p a b : string) : Path.join p a = Path.join p b → a = b.
Proof.
  unfold Path.join. destruct p as [|c p]; [done|].
  destruct (Path.ends_with_slash (String c p)); intros H.
  - by apply (String.app_inj _) in H.
  - apply (String.app_inj _) in H. by apply (String.app_inj _) in H.
Qed.

Lemma join_model_scaler p :
  Path.join p Model.model_file ≠ Path.join p Model.scaler_file.
Proof. intros H. apply join_inj in H. discriminate H. Qed.

Lemma join_model_metadata p :
  Path.join p Model.model_file ≠ Path.join p Model.metadata_file.
Proof. intros H. apply join_inj in H. discriminate H. Qed.

Lemma join_scaler_metadata p :
  Path.join p Model.scaler_file ≠ Path.join p Model.metadata_file.
Proof. intros H. apply join_inj in H. discriminate H. Qed.

Section PersistenceFacts.

Context {Net Scaler : Type}.
Context (scaler_transform : Scaler → list pyval → result (list float64)).
Context (net_predict : Net → list float64 → result float64).

Implicit Types (self : Model.t Net Scaler) (fs : gmap string (Model.file Net Scaler)).

(** What a successful [save_model] has written. *)
Lemma save_model_ok_inv self fs path now fs' :
  Model.save_model self fs path now = Ok fs' →
  ∃ m s,
    Model.model self = Some m ∧ Model.scaler self = Some s
    ∧ fs' !! Path.join path Model.model_file = Some (Model.H5File m)
    ∧ fs' !! Path.join path Model.scaler_file = Some (Model.PklFile s)
    ∧ fs' !! Path.join path Model.metadata_file
      = Some (Model.JsonFile
                {| Model.md_feature_columns := Some (Model.feature_columns self);
                   Model.md_ecosystem_types := Some (Model.ecosystem_types self);
                   Model.md_model_version := Some "1.0.0"%string;
                   Model.md_created_at := Some now |}).
Proof.
  unfold Model.save_model. intros H.
  destruct (Model.model self) as [m|]; [|discriminate].
  destruct (Model.scaler self) as [s|]; [|discriminate].
  destruct (Path.makedirs _); [|discriminate].
  cbn [bind] in H. injection H as <-.
  exists m, s. repeat apply conj; try reflexivity.
  - rewrite lookup_insert_ne by (apply not_eq_sym, join_model_metadata).
    rewrite lookup_insert_ne by (apply not_eq_sym, join_model_scaler).
    apply lookup_insert_eq.
  - rewrite lookup_insert_ne by (apply not_eq_sym, join_scaler_metadata).
    apply lookup_insert_eq.
  - apply lookup_insert_eq.
Qed.

Lemma save_model_uninitialized self fs path now :
  Model.uninitialized self →
  Model.save_model self fs path now = Err (ValueError "No model to save").
Proof.
  unfold Model.uninitialized, Model.save_model. intros [H|H]; rewrite H.
  - reflexivity.
  - by destruct (Model.model self).
Qed.

(** [load_model] on a directory that holds the three files. *)
Lemma load_model_complete self fs path m s md :
  fs !! Path.join path Model.model_file = Some (Model.H5File m) →
  fs !! Path.join path Model.scaler_file = Some (Model.PklFile s) →
  fs !! Path.join path Model.metadata_file = Some (Model.JsonFile md) →
  Model.load_model self fs path
  = ({| Model.model_path := Model.model_path self;
        Model.model := Some m;
        Model.scaler := Some s;
        Model.feature_columns :=
          default (Model.feature_columns self) (Model.md_feature_columns md);
        Model.ecosystem_types :=
          default (Model.ecosystem_types self) (Model.md_ecosystem_types md) |},
     Ok tt).
Proof. intros Hm Hs Hj. unfold Model.load_model. by rewrite Hm, Hs, Hj. Qed.

(** [load_model] on a directory that lacks one of the three files. *)
Lemma load_model_missing self fs path :
  fs !! Path.join path Model.model_file = None
  ∨ fs !! Path.join path Model.scaler_file = None
  ∨ fs !! Path.join path Model.metadata_file = None →
  raises (Model.load_model self fs path).2.
Proof.
  unfold Model.load_model, raises. intros H.
  destruct (fs !! Path.join path Model.model_file) as [[m|?|?]|] eqn:Hm;
    try (eexists; reflexivity).
  destruct (fs !! Path.join path Model.scaler_file) as [[?|s|?]|] eqn:Hs;
    try (eexists; reflexivity).
  destruct (fs !! Path.join path Model.metadata_file) as [[?|?|md]|] eqn:Hj;
    try (eexists; reflexivity).
  destruct H as [H|[H|H]]; discriminate H.
Qed.

(** Prediction reads the network, the scaler and the encoding table. *)
Lemma predict_ext self1 self2 data now :
  Model.model self1 = Model.model self2 →
  Model.scaler self1 = Model.scaler self2 →
  Model.ecosystem_types self1 = Model.ecosystem_types self2 →
  Model.predict scaler_transform net_predict self1 data now
  = Model.predict scaler_transform net_predict self2 data now.
Proof.
  intros Hm Hs He. unfold Model.predict, Model.prepare_features.
  by rewrite Hm, Hs, He.
Qed.


(** C7, as the code has it.  [save_model] on a model without a network
    or without a scaler raises [ValueError("No model to save")];
    [load_model] raises when one of the three files of the artifact is
    missing; when the three files are there it succeeds without
    comparing anything, and the feature columns of the metadata, in
    whatever order, replace those of the object. *)
Theorem persistence_failures self fs path now :
  (Model.uninitialized self →
   Model.save_model self fs path now = Err (ValueError "No model to save"))
  ∧ (fs !! Path.join path Model.model_file = None
     ∨ fs !! Path.join path Model.scaler_file = None
     ∨ fs !! Path.join path Model.metadata_file = None →
     raises (Model.load_model self fs path).2)
  ∧ (∀ m s md,
       fs !! Path.join path Model.model_file = Some (Model.H5File m) →
       fs !! Path.join path Model.scaler_file = Some (Model.PklFile s) →
       fs !! Path.join path Model.metadata_file = Some (Model.JsonFile md) →
       (Model.load_model self fs path).2 = Ok tt
       ∧ Model.feature_columns (Model.load_model self fs path).1
         = default (Model.feature_columns self) (Model.md_feature_columns md)).
Proof.
  repeat apply conj.
  - apply save_model_uninitialized.
  - apply load_model_missing.
  - intros m s md Hm Hs Hj.
    rewrite (load_model_complete _ _ _ _ _ _ Hm Hs Hj). split; reflexivity.
Qed.

End PersistenceFacts.


(** A path without a directory part cannot be saved to: [os.makedirs]
    is called on the empty name. *)
Example save_model_bare_name :
  Model.save_model (Linear.constant_model 12) ∅ "artifact" "2024-01-01T00:00:00"
  = Err (FileNotFoundError "").
Proof. reflexivity. Qed.

(** C7 fails: an artifact whose metadata lists the feature columns in the
    reverse order is loaded without an error, and the reversed list is
    adopted. *)
Lemma load_model_adopts_mismatched_columns :
  (Model.load_model (Model.init None) Linear.reversed_artifact "models/m").2 = Ok tt
  ∧ Model.feature_columns
      (Model.load_model (Model.init None) Linear.reversed_artifact "models/m").1
    = reverse Model.default_feature_columns
  ∧ reverse Model.default_feature_columns ≠ Model.default_feature_columns.
Proof.
  repeat apply conj.
  - vm_compute. reflexivity.
  - vm_compute. reflexivity.
  - vm_compute. discriminate.
Qed.

Lemma persistence_failures_witness :
  Model.save_model (Model.init None) Linear.reversed_artifact "models/m"
    "2024-01-01T00:00:00" = Err (ValueError "No model to save")
  ∧ raises (Model.load_model (Model.init (Net:=Linear.net) (Scaler:=Linear.scaler) None)
              ∅ "models/m").2
  ∧ (Model.load_model (Model.init None) Linear.reversed_artifact "models/m").2 = Ok tt.
Proof.
  destruct (persistence_failures (Model.init None) Linear.reversed_artifact
              "models/m" "2024-01-01T00:00:00") as (Hsave & _ & Hload).
  destruct (persistence_failures
              (Model.init (Net:=Linear.net) (Scaler:=Linear.scaler) None)
              ∅ "models/m" "2024-01-01T00:00:00") as (_ & Hmissing & _).
  repeat apply conj.
  - apply Hsave. by left.
  - apply Hmissing. left. apply lookup_empty.
  - eapply Hload; vm_compute; reflexivity.
Defined.

(** ** QualityScorer *)

Section QualityFacts.

Import Service.

Lemma point_bounds key d : (0 <= point key d <= 1)%Z.
Proof. unfold point. destruct (has_key key d); lia. Qed.

Lemma percentage_bounds (earned total : Z) :
  (0 <= earned <= total)%Z → 0 <= Spec.percentage earned total <= 100.
Proof.
  intros [H0 H1]. unfold Spec.percentage.
  destruct (0 <? total)%Z eqn:E; [|lra].
  apply Z.ltb_lt in E.
  assert (Ht : 0 < inject_Z total) by (unfold Qlt; simpl; lia).
  assert (He : 0 <= inject_Z earned) by (unfold Qle; simpl; lia).
  assert (Hle : inject_Z earned <= inject_Z total) by (unfold Qle; simpl; lia).
  assert (0 <= inject_Z earned / inject_Z total)
    by (apply Qle_shift_div_l; [done | lra]).
  assert (inject_Z earned / inject_Z total <= 1)
    by (apply Qle_shift_div_r; [done | lra]).
  lra.
Qed.

(** The score and the level of [_assess_data_quality], for every
    combination of groups. *)
Lemma assess_score (data : input_data) :
  let earned :=
    (Spec.points Spec.satellite_fields (satellite_data data)
     + Spec.points Spec.sensor_fields (sensor_data data)
     + Spec.points Spec.field_fields (field_measurements data))%Z in
  let total :=
    (Spec.weight 4 (satellite_data data) + Spec.weight 3 (sensor_data data)
     + Spec.weight 2 (field_measurements data))%Z in
  score (_assess_data_quality data) = Spec.percentage earned total
  ∧ level (_assess_data_quality data)
    = Spec.level_of (score (_assess_data_quality data))
  ∧ (0 <= earned <= total)%Z.
Proof.
  unfold _assess_data_quality, Spec.points, Spec.weight, Spec.present.
  destruct (truthy (default ∅ (satellite_data data)));
    destruct (truthy (default ∅ (sensor_data data)));
    destruct (truthy (default ∅ (field_measurements data)));
    cbn [score level fmap list_fmap foldr Spec.satellite_fields
           Spec.sensor_fields Spec.field_fields].
  all: repeat match goal with
         | |- context [point ?k ?d] =>
             let H := fresh in
             pose proof (point_bounds k d) as H;
             generalize dependent (point k d); intros
         end.
  all: split; [|split; [reflexivity | lia]].
  all: unfold Spec.percentage; cbn [Z.ltb Z.compare Z.add];
    try reflexivity; do 3 f_equal; lia.
Qed.

End QualityFacts.

Section QualityClaims.

Import Service.

(** C9.  [_assess_data_quality] is a total function of the input groups:
    for every combination of them it returns a score, which is the
    percentage of the points earned over the weights of the groups that
    are present (4, 3 and 2), between 0 and 100, with the level high
    above 80, medium above 60 and low otherwise.  When the sensor group
    is absent (not there, or empty) the issue "No sensor data provided"
    is recorded exactly once, and only the satellite and the field group
    count in the score. *)
Theorem assess_data_quality_total (data : input_data) :
  let q := _assess_data_quality data in
  let earned :=
    (Spec.points Spec.satellite_fields (satellite_data data)
     + Spec.points Spec.sensor_fields (sensor_data data)
     + Spec.points Spec.field_fields (field_measurements data))%Z in
  let total :=
    (Spec.weight 4 (satellite_data data) + Spec.weight 3 (sensor_data data)
     + Spec.weight 2 (field_measurements data))%Z in
  (score q = Spec.percentage earned total
   ∧ level q = Spec.level_of (score q)
   ∧ 0 <= score q <= 100)
  ∧ (Spec.present (sensor_data data) = false →
     count_occ String.string_dec (issues q) no_sensor = 1%nat
     ∧ earned = (Spec.points Spec.satellite_fields (satellite_data data)
                 + Spec.points Spec.field_fields (field_measurements data))%Z
     ∧ total = (Spec.weight 4 (satellite_data data)
                + Spec.weight 2 (field_measurements data))%Z).
Proof.
  intros q earned total.
  destruct (assess_score data) as (Hs & Hl & Hb).
  fold q earned total in Hs, Hl, Hb.
  split.
  - repeat split; try assumption; rewrite Hs; by apply percentage_bounds.
  - intros Hsensor. repeat apply conj.
    + unfold q, _assess_data_quality. unfold Spec.present in Hsensor.
      rewrite Hsensor.
      destruct (truthy (default ∅ (satellite_data data)));
        destruct (truthy (default ∅ (field_measurements data))); reflexivity.
    + unfold earned, Spec.points at 2. rewrite Hsensor. lia.
    + unfold total, Spec.weight at 2. rewrite Hsensor. lia.
Qed.

(** Two of four satellite fields, no sensor group, both field
    measurements: 4 points of 6, which is medium. *)
Lemma assess_data_quality_total_witness :
  let data :=
    {| satellite_data := Some (<["ndvi"%string := VFloat (Fin 0.6)]>
                                 {[ "evi"%string := VFloat (Fin 0.4) ]});
       sensor_data := None;
       field_measurements := Some (<["biomass_density"%string := VFloat (Fin 15)]>
                                     {[ "canopy_height"%string := VFloat (Fin 8) ]});
       project_data := None |} in
  Spec.present (sensor_data data) = false
  ∧ count_occ String.string_dec (issues (_assess_data_quality data)) no_sensor = 1%nat
  ∧ score (_assess_data_quality data) == 200 # 3
  ∧ level (_assess_data_quality data) = "medium"%string.
Proof.
  intros data.
  destruct (assess_data_quality_total data) as ((Hs & Hl & _) & Hsensor).
  assert (H : Spec.present (sensor_data data) = false) by reflexivity.
  destruct (Hsensor H) as (Hc & _ & _).
  repeat apply conj.
  - exact H.
  - exact Hc.
  - rewrite Hs. vm_compute. reflexivity.
  - rewrite Hl, Hs. vm_compute. reflexivity.
Defined.

(** C10.  When [project_data] has no key [area_hectares], the
    recommendations end with the small-area caveat, since the area is
    read with the default 0, and 0 < 1; the feature vector of the same
    input has the area 1.0. *)
Theorem absent_area_is_small_for_recommendations {Net Scaler : Type}
    (self : Model.t Net Scaler) (data : input_data) (prediction : Model.prediction) :
  has_key "area_hectares" (default ∅ (project_data data)) = false →
  dict_get (default ∅ (project_data data)) "area_hectares" (VFloat (Fin 0))
    = VFloat (Fin 0)
  ∧ F.ltb (Fin 0) (Fin 1) = true
  ∧ (∃ before,
       _generate_recommendations data prediction = Ok (before ++ [rec_small_area]))
  ∧ Model.prepare_features self data !! 12%nat = Some (VFloat (Fin 1.0)).
Proof.
  unfold has_key. intros H.
  destruct (default ∅ (project_data data) !! "area_hectares"%string) eqn:E;
    [discriminate|].
  assert (Hget : ∀ dflt, dict_get (default ∅ (project_data data))
                   "area_hectares" dflt = dflt)
    by (intros dflt; unfold dict_get; by rewrite E).
  repeat apply conj.
  - apply Hget.
  - reflexivity.
  - unfold _generate_recommendations. rewrite Hget.
    eexists. reflexivity.
  - unfold Model.prepare_features. rewrite Hget. reflexivity.
Qed.

End QualityClaims.

(** A project that only names its ecosystem. *)
Lemma absent_area_is_small_for_recommendations_witness :
  let data :=
    {| satellite_data := Some ∅; sensor_data := Some ∅;
       field_measurements := Some ∅;
       project_data := Some {[ "ecosystem_type"%string := VStr "seagrass" ]} |} in
  let prediction :=
    {| Model.carbon_estimate_tonnes_co2_per_hectare_per_year := Fin 6;
       Model.confidence := Fin 0.94;
       Model.timestamp := "2024-01-01T00:00:00";
       Model.model_version := "1.0.0" |} in
  has_key "area_hectares" (default ∅ (project_data data)) = false
  ∧ Service._generate_recommendations data prediction
    = Ok [Service.rec_more_data; Service.rec_seagrass; Service.rec_small_area]
  ∧ Model.prepare_features (Linear.constant_model 6) data !! 12%nat
    = Some (VFloat (Fin 1.0)).
Proof.
  intros data prediction.
  assert (H : has_key "area_hectares" (default ∅ (project_data data)) = false)
    by reflexivity.
  destruct (absent_area_is_small_for_recommendations
              (Linear.constant_model 6) data prediction H)
    as (_ & _ & _ & Hfeat).
  repeat apply conj.
  - exact H.
  - vm_compute. reflexivity.
  - exact Hfeat.
Defined.

(** ** EstimationService *)

Section ServiceClaims.

Context {Net Scaler : Type}.
Context (scaler_transform : Scaler → list pyval → result (list float64)).
Context (net_predict : Net → list float64 → result float64).

Lemma service_not_loaded (svc : Service.t Net Scaler)
    (sat sen fld prj : pydict) now :
  Service.model_loaded svc = false ∨ Service.carbon_model svc = None →
  Service.predict_carbon_sequestration scaler_transform net_predict
    svc sat sen fld prj now
  = Err (ValueError "Model not loaded").
Proof.
  unfold Service.predict_carbon_sequestration. intros [H|H]; rewrite H.
  - reflexivity.
  - by destruct (Service.model_loaded svc).
Qed.

(** C2.  [predict] on a model that has no network or no scaler, as it is
    before any [train] or [load_model], raises
    [ValueError("Model not trained or loaded")] and returns nothing; the
    service raises as well, when no model is loaded or when the model it
    holds is in that state. *)
Theorem predict_before_training_fails (self : Model.t Net Scaler)
    (svc : Service.t Net Scaler) (data : input_data)
    (sat sen fld prj : pydict) (now : string) :
  Model.uninitialized self →
  Service.model_loaded svc = false ∨ Service.carbon_model svc = None
  ∨ Service.carbon_model svc = Some self →
  Model.predict scaler_transform net_predict self data now
  = Err (ValueError "Model not trained or loaded")
  ∧ ∃ msg,
      Service.predict_carbon_sequestration scaler_transform net_predict
        svc sat sen fld prj now
      = Err (ValueError msg).
Proof.
  intros Hself Hsvc. split; [by apply predict_uninitialized|].
  destruct Hsvc as [H|[H|H]].
  - eexists. apply service_not_loaded. by left.
  - eexists. apply service_not_loaded. by right.
  - destruct (Service.model_loaded svc) eqn:Hl.
    + unfold Service.predict_carbon_sequestration. rewrite Hl, H.
      rewrite predict_uninitialized by done. eexists. reflexivity.
    + eexists. apply service_not_loaded. by left.
Qed.

End ServiceClaims.

(** A model fresh from [__init__], and a service that holds nothing. *)
Lemma predict_before_training_fails_witness :
  let self := Model.init (Net:=Linear.net) (Scaler:=Linear.scaler) None in
  let svc :=
    {| Service.carbon_model := None; Service.model_loaded := false;
       Service.model_path := "models/carbon_estimation";
       Service.last_update := None |} in
  Model.uninitialized self
  ∧ Linear.predict self no_data "2024-01-01T00:00:00"
    = Err (ValueError "Model not trained or loaded")
  ∧ ∃ msg,
      Service.predict_carbon_sequestration Linear.scaler_transform Linear.net_predict
        svc ∅ ∅ ∅ ∅ "2024-01-01T00:00:00"
      = Err (ValueError msg).
Proof.
  intros self svc.
  assert (H : Model.uninitialized self) by apply init_uninitialized.
  destruct (predict_before_training_fails Linear.scaler_transform Linear.net_predict
              self svc no_data ∅ ∅ ∅ ∅ "2024-01-01T00:00:00" H
              (or_introl eq_refl)) as (Hp & Hs).
  repeat apply conj; assumption.
Defined.

(** ** The same comparisons with binary64 rounding *)

Section Binary64Facts.

Import Binary64.

Lemma SFcompare_antisym (x y : spec_float) :
  SFcompare y x = CompOpp <$> SFcompare x y.
Proof.
  destruct x as [sx|sx| |sx mx ex], y as [sy|sy| |sy my ey]; try reflexivity;
    try (by destruct sx); try (by destruct sy); try (by destruct sx, sy).
  cbn [SFcompare fmap option_fmap option_map]. f_equal.
  destruct sx, sy; try reflexivity.
  all: rewrite (Z.compare_antisym ey ex);
    destruct (ey ?= ex)%Z; try reflexivity; cbn [CompOpp];
    by rewrite (Pos.compare_cont_antisym mx my Eq).
Qed.

Lemma SFltb_SFleb (x y : spec_float) : SFltb x y = true → SFleb x y = true.
Proof. unfold SFltb, SFleb. by destruct (SFcompare x y) as [[]|]. Qed.


(** In binary64 arithmetic the confidence is between 0.5 and 0.95 for
    every value of the estimate: a number of any size, an infinity, NaN. *)
Lemma binary64_confidence_within (carbon_estimate : spec_float) :
  SFleb lit_0_5 (confidence_of carbon_estimate) = true
  ∧ SFleb (confidence_of carbon_estimate) lit_0_95 = true.
Proof.
  unfold confidence_of.
  generalize (SFsub prec emax lit_1_0
                (SFmul prec emax (SFabs carbon_estimate) lit_0_01)).
  intros y. unfold py_max.
  destruct (SFltb lit_0_5 y) eqn:E1.
  - unfold py_min. destruct (SFltb y lit_0_95) eqn:E2.
    + split; by apply SFltb_SFleb.
    + split; reflexivity.
  - split; reflexivity.
Qed.


(** For every score that can occur, the level found with binary64
    rounding is the level of the exact percentage. *)
Lemma binary64_level_exact :
  Forall (λ s, level_of (quality_percentage s.1 s.2)
               = Spec.level_of (Spec.percentage s.1 s.2))
    reachable_scores.
Proof.
  let l := eval vm_compute in reachable_scores in
  change reachable_scores with l.
  repeat (constructor; [vm_compute; reflexivity|]). constructor.
Qed.

End Binary64Facts.

(** ** Rounding never makes a NaN

    The operations of [SpecFloat] round through [binary_round_aux],
    which gives a zero, a number or an infinity as long as the mantissa
    it is given is not negative. *)

Section Binary64Rounding.

Context (prec emax : Z).

Lemma shr_1_nonneg mrs : (0 <= shr_m mrs)%Z → (0 <= shr_m (shr_1 mrs))%Z.
Proof. destruct mrs as [m r s]. destruct m as [|[p|p|]|p]; cbn; lia. Qed.

Lemma iter_shr_1_nonneg p mrs :
  (0 <= shr_m mrs)%Z → (0 <= shr_m (SpecFloat.iter_pos shr_1 p mrs))%Z.
Proof.
  revert mrs. induction p as [p IH|p IH|]; intros mrs H; cbn [SpecFloat.iter_pos].
  - apply IH, IH, shr_1_nonneg, H.
  - apply IH, IH, H.
  - apply shr_1_nonneg, H.
Qed.

Lemma shr_fexp_nonneg m ex lx :
  (0 <= m)%Z → (0 <= shr_m (shr_fexp prec emax m ex lx).1)%Z.
Proof.
  intros H. unfold shr_fexp, shr.
  assert (H0 : (0 <= shr_m (shr_record_of_loc m lx))%Z)
    by (destruct lx as [|[]]; exact H).
  destruct (_ - ex)%Z; cbn [fst]; try exact H0.
  by apply iter_shr_1_nonneg.
Qed.

Lemma round_nearest_even_nonneg m l :
  (0 <= m)%Z → (0 <= round_nearest_even m l)%Z.
Proof.
  intros H. destruct l as [|[]]; cbn; try lia.
  destruct (Z.even m); lia.
Qed.

Lemma binary_round_aux_not_nan sx mx ex lx :
  (0 <= mx)%Z → binary_round_aux prec emax sx mx ex lx ≠ S754_nan.
Proof.
  intros H. unfold binary_round_aux.
  pose proof (shr_fexp_nonneg mx ex lx H) as H1.
  destruct (shr_fexp prec emax mx ex lx) as [mrs' e']. cbn [fst] in H1.
  pose proof (shr_fexp_nonneg _ e' loc_Exact
                (round_nearest_even_nonneg _ (loc_of_shr_record mrs') H1)) as H2.
  destruct (shr_fexp prec emax _ e' loc_Exact) as [mrs'' e'']. cbn [fst] in H2.
  destruct (shr_m mrs''); [done | by destruct (_ <=? _)%Z | lia].
Qed.

Lemma binary_normalize_not_nan m ex sz :
  binary_normalize prec emax m ex sz ≠ S754_nan.
Proof.
  unfold binary_normalize, binary_round.
  destruct m as [|m|m]; [done|..];
    destruct (shl_align _ _ _); by apply binary_round_aux_not_nan.
Qed.

(** The sum of two numbers is a number or an infinity. *)
Lemma SFadd_number_not_nan x y :
  Binary64Indices.is_number x = true → Binary64Indices.is_number y = true →
  Binary64.is_nan (SFadd prec emax x y) = false.
Proof.
  destruct x as [sx|sx| |sx mx ex], y as [sy|sy| |sy my ey]; try discriminate;
    intros _ _; cbn [SFadd]; try reflexivity.
  - by destruct sx, sy.
  - pose proof (binary_normalize_not_nan
      (cond_Zopp sx (Z.pos (shl_align mx ex (Z.min ex ey)).1)
       + cond_Zopp sy (Z.pos (shl_align my ey (Z.min ex ey)).1))%Z
      (Z.min ex ey) false) as H.
    by destruct (binary_normalize _ _ _ _ _).
Qed.






End Binary64Rounding.

(** ** The indices in binary64: range and zero denominators *)


Section Binary64IndexFacts.

Import Binary64 Binary64Indices.
























End Binary64IndexFacts.

(** ** C3 and C4: the range of the indices and the zero denominators *)

Section IndexClaims.

Import Binary64 Binary64Indices.




End IndexClaims.



(** The literals are the float64 values of the constants of the code. *)
Example binary64_literals :
  Binary64Indices.lit_6 = Binary64.of_int 6
  ∧ Binary64Indices.lit_10 = Binary64.of_int 10
  ∧ Binary64Indices.lit_minus_1 = Binary64.of_int (-1)
  ∧ Binary64Indices.lit_7_5 = binary_normalize 53 1024 15 (-1) false
  ∧ Binary64Indices.lit_2_5 = binary_normalize 53 1024 5 (-1) false
  ∧ Binary64Indices.lit_1e_10
    = SFdiv 53 1024 (Binary64.of_int 1) (Binary64.of_int 10000000000).
Proof. vm_compute. repeat split. Qed.

(** The zero denominators of the scenario: NDVI at nir = red = 0 is 0,
    GCI at green = 0 is clipped to 10. *)
Example binary64_zero_denominators :
  Binary64Indices.calculate_ndvi [Binary64Indices.zero] [Binary64Indices.zero]
  = Ok [Binary64Indices.zero]
  ∧ Binary64Indices.calculate_gci [Binary64.of_int 3] [Binary64Indices.zero]
    = Ok [Binary64Indices.lit_10].
Proof. vm_compute. split; reflexivity. Qed.

(** Rounding decides where the guard applies: with nir = 2^-70, red = 0
    and blue the float64 nearest to 2/15, the EVI denominator rounds to
    zero and the division is by 1e-10. *)
Example binary64_evi_rounded_denominator :
  let nir := S754_finite false 4503599627370496 (-122) in
  let blue := S754_finite false 4803839602528529 (-55) in
  SFeqb
    (Binary64Indices.add
       (Binary64Indices.sub
          (Binary64Indices.add nir
             (Binary64Indices.mul Binary64Indices.lit_6 Binary64Indices.zero))
          (Binary64Indices.mul Binary64Indices.lit_7_5 blue))
       Binary64.lit_1_0)
    Binary64Indices.zero = true.
Proof. vm_compute. reflexivity. Qed.

(** * Further properties of the service *)

(** Membership in a list that is written out. *)
Ltac member_true := apply (bool_decide_unpack _); vm_compute; exact I.
Ltac member_false H := apply (bool_decide_pack _) in H; vm_compute in H; destruct H.

Section RecommendationFacts.

Import Service.

(** [_generate_recommendations] as one selection. *)
Lemma generate_recommendations_selected (data : input_data) (p : Model.prediction) :
  _generate_recommendations data p
  = match dict_get (default ∅ (project_data data)) "area_hectares" (VFloat (Fin 0)) with
    | VFloat a =>
        Ok (Spec.selected (Qltb (score (_assess_data_quality data)) 60)
              (F.ltb (Model.confidence p) (Fin 0.7))
              (dict_get (default ∅ (project_data data)) "ecosystem_type" (VStr ""))
              (F.ltb a (Fin 1)))
    | VStr _ =>
        Err (TypeError "'<' not supported between instances of 'str' and 'int'")
    | VNone =>
        Err (TypeError "'<' not supported between instances of 'NoneType' and 'int'")
    end.
Proof.
  unfold _generate_recommendations, Spec.selected, Spec.ecosystem_note.
  destruct (dict_get _ "area_hectares" _) as [a| |]; try reflexivity.
  f_equal.
  generalize (dict_get (default ∅ (project_data data)) "ecosystem_type" (VStr "")).
  intros eco.
  destruct (Qltb (score (_assess_data_quality data)) 60),
    (F.ltb (Model.confidence p) (Fin 0.7)),
    (eq_str eco "mangrove"), (eq_str eco "seagrass"), (F.ltb a (Fin 1));
    reflexivity.
Qed.

Lemma selected_sublist incomplete unsure eco small :
  Spec.selected incomplete unsure eco small `sublist_of` Spec.precedence.
Proof.
  unfold Spec.selected, Spec.ecosystem_note, Spec.precedence.
  destruct incomplete, unsure, (eq_str eco "mangrove"), (eq_str eco "seagrass"),
    small; cbn [app];
    repeat first [ apply sublist_nil | apply sublist_skip | apply sublist_cons ].
Qed.

Lemma selected_low_confidence incomplete unsure eco small :
  rec_low_confidence ∈ Spec.selected incomplete unsure eco small ↔ unsure = true.
Proof.
  unfold Spec.selected, Spec.ecosystem_note.
  destruct incomplete, unsure, (eq_str eco "mangrove"), (eq_str eco "seagrass"),
    small; cbn [app]; split; intros H;
    first [ reflexivity | discriminate H | member_true | member_false H ].
Qed.

End RecommendationFacts.

Section ConfidenceLevels.

(** What a successful [_analyze_prediction] returns. *)
Lemma analyze_prediction_ok_inv (data : input_data) (p : Model.prediction)
    (a : Service.analysis) :
  Service._analyze_prediction data p = Ok a →
  Service.confidence_level a
  = (if F.gtb (Model.confidence p) (Fin 0.8) then "high"
     else if F.gtb (Model.confidence p) (Fin 0.6) then "medium"
     else "low")%string
  ∧ Service.data_quality a = Service._assess_data_quality data
  ∧ Service._generate_recommendations data p = Ok (Service.recommendations a).
Proof.
  unfold Service._analyze_prediction. intros H.
  destruct (Service._generate_recommendations data p) as [recs|]; [|discriminate].
  cbn [bind] in H. apply (f_equal (λ r, match r with Ok x => x | Err _ => a end)) in H.
  subst a. repeat split.
Qed.

Lemma lt_0_6_0_7 : (5404319552844595 < 6305039478318694)%positive.
Proof. reflexivity. Qed.

Lemma lt_0_7_0_8 : (6305039478318694 < 7205759403792794)%positive.
Proof. reflexivity. Qed.

Lemma mantissa_below (m : positive) :
  (m ?= 5404319552844595)%positive ≠ Gt → (m ?= 6305039478318694)%positive = Lt.
Proof.
  intros H.
  exact (Pos.le_lt_trans m 5404319552844595%positive 6305039478318694%positive
           H lt_0_6_0_7).
Qed.

Lemma mantissa_above (m : positive) :
  (m ?= 7205759403792794)%positive = Gt → (m ?= 6305039478318694)%positive = Gt.
Proof.
  intros H.
  exact (proj2 (Pos.compare_gt_iff m 6305039478318694%positive)
           (Pos.lt_trans _ _ _ lt_0_7_0_8
              (proj1 (Pos.compare_gt_iff m 7205759403792794%positive) H))).
Qed.

(** In binary64 the three thresholds are ordered as they are written:
    a confidence that is not above 0.6 is below 0.7, and one that is
    above 0.8 is not below 0.7, whatever value of float64 it is, NaN
    apart. *)
Lemma binary64_thresholds_ordered (confidence : spec_float) :
  Binary64.is_nan confidence = false →
  (SFltb Binary64Levels.lit_0_6 confidence = false →
   SFltb confidence Binary64Levels.lit_0_7 = true)
  ∧ (SFltb Binary64Levels.lit_0_8 confidence = true →
     SFltb confidence Binary64Levels.lit_0_7 = false).
Proof.
  intros Hn. unfold SFltb.
  rewrite (SFcompare_antisym confidence Binary64Levels.lit_0_6),
    (SFcompare_antisym confidence Binary64Levels.lit_0_8).
  destruct confidence as [s|s| |s m e]; try discriminate; clear Hn.
  - destruct s; split; intros H; try reflexivity; discriminate H.
  - destruct s; split; intros H; try reflexivity; discriminate H.
  - destruct s.
    + split; intros H; [reflexivity | discriminate H].
    + unfold Binary64Levels.lit_0_6, Binary64Levels.lit_0_7,
        Binary64Levels.lit_0_8.
      cbn [SFcompare fmap option_fmap option_map].
      destruct (e ?= -53)%Z; cbn [CompOpp].
      * rewrite !Pos.compare_cont_spec.
        pose proof (mantissa_below m) as H6. pose proof (mantissa_above m) as H8.
        destruct (m ?= 5404319552844595)%positive;
          destruct (m ?= 7205759403792794)%positive;
          cbn [Pos.switch_Eq CompOpp]; split; intros H;
          try discriminate H;
          first [ rewrite H6 by discriminate; reflexivity
                | rewrite H8 by reflexivity; reflexivity ].
      * split; intros H; [reflexivity | discriminate H].
      * split; intros H; [discriminate H | reflexivity].
Qed.

(** The same for the confidence of every estimate, which is never NaN. *)
Lemma binary64_level_agrees_with_advice (carbon_estimate : spec_float) :
  let confidence := Binary64.confidence_of carbon_estimate in
  (Binary64Levels.confidence_level confidence = "low"%string →
   Binary64Levels.low_confidence confidence = true)
  ∧ (Binary64Levels.confidence_level confidence = "high"%string →
     Binary64Levels.low_confidence confidence = false).
Proof.
  intros confidence.
  assert (Hn : Binary64.is_nan confidence = false).
  { destruct (binary64_confidence_within carbon_estimate) as [H _].
    fold confidence in H. by destruct confidence. }
  destruct (binary64_thresholds_ordered confidence Hn) as [Hlow Hhigh].
  unfold Binary64Levels.confidence_level, Binary64Levels.low_confidence.
  split; intros H.
  - apply Hlow. destruct (SFltb Binary64Levels.lit_0_8 confidence); [discriminate|].
    by destruct (SFltb Binary64Levels.lit_0_6 confidence).
  - apply Hhigh. destruct (SFltb Binary64Levels.lit_0_8 confidence); [done|].
    by destruct (SFltb Binary64Levels.lit_0_6 confidence).
Qed.

Context {Net Scaler : Type}.
Context (scaler_transform : Scaler → list pyval → result (list float64)).
Context (net_predict : Net → list float64 → result float64).

(** X1.  The confidence level of the analysis and the low-confidence
    recommendation agree.  For every prediction that [predict] returns,
    whatever the estimate is, a level of low comes with the
    recommendation and a level of high comes without it: the thresholds
    0.6, 0.7 and 0.8 are applied to one and the same confidence. *)
Theorem confidence_level_agrees_with_advice (self : Model.t Net Scaler)
    (data : input_data) (now : string) (p : Model.prediction)
    (a : Service.analysis) :
  Model.predict scaler_transform net_predict self data now = Ok p →
  Service._analyze_prediction data p = Ok a →
  (Service.confidence_level a = "low"%string →
   Service.rec_low_confidence ∈ Service.recommendations a)
  ∧ (Service.confidence_level a = "high"%string →
     Service.rec_low_confidence ∉ Service.recommendations a).
Proof.
  intros Hp Ha.
  destruct (predict_ok_inv _ _ _ _ _ _ Hp) as (m & s & fs & _ & _ & _ & _ & Hc & _).
  destruct (confidence_of_within
              (Model.carbon_estimate_tonnes_co2_per_hectare_per_year p))
    as (c & Hq & Hlo & Hhi).
  rewrite <- Hc in Hq.
  destruct (analyze_prediction_ok_inv _ _ _ Ha) as (Hlevel & _ & Hr).
  rewrite generate_recommendations_selected in Hr.
  destruct (dict_get (default ∅ (project_data data)) "area_hectares"
              (VFloat (Fin 0))) as [x| |]; try discriminate.
  injection Hr as Hr. rewrite <- Hr, Hlevel, Hq.
  rewrite selected_low_confidence. unfold F.gtb. cbn [F.ltb].
  split; intros H.
  - apply Qltb_lt.
    destruct (Qltb 0.8 c) eqn:E8; [discriminate|].
    destruct (Qltb 0.6 c) eqn:E6; [discriminate|].
    apply Qltb_ge in E6. lra.
  - intros Hu. apply Qltb_lt in Hu.
    destruct (Qltb 0.8 c) eqn:E8.
    + apply Qltb_lt in E8. lra.
    + by destruct (Qltb 0.6 c).
Qed.

End ConfidenceLevels.

Section RecommendationProperties.

Import Service.

Lemma selected_exclusive incomplete unsure eco small :
  ¬ (rec_mangrove ∈ Spec.selected incomplete unsure eco small
     ∧ rec_seagrass ∈ Spec.selected incomplete unsure eco small).
Proof.
  unfold Spec.selected, Spec.ecosystem_note. intros [H1 H2].
  destruct incomplete, unsure, (eq_str eco "mangrove"), (eq_str eco "seagrass"),
    small; cbn [app] in H1, H2;
    first [ solve [member_false H1] | solve [member_false H2] ].
Qed.

Lemma selected_length incomplete unsure eco small :
  (length (Spec.selected incomplete unsure eco small) ≤ 4)%nat.
Proof.
  unfold Spec.selected, Spec.ecosystem_note.
  destruct incomplete, unsure, (eq_str eco "mangrove"), (eq_str eco "seagrass"),
    small; cbn; lia.
Qed.

(** X3.  The recommendations come in the fixed order of precedence (data
    completeness, low confidence, ecosystem note, small area): the list is
    a sublist of that sequence, it never holds both ecosystem notes, and it
    has at most four entries. *)
Theorem recommendations_follow_precedence (data : input_data)
    (p : Model.prediction) (recs : list string) :
  _generate_recommendations data p = Ok recs →
  recs `sublist_of` Spec.precedence
  ∧ ¬ (rec_mangrove ∈ recs ∧ rec_seagrass ∈ recs)
  ∧ (length recs ≤ 4)%nat.
Proof.
  rewrite generate_recommendations_selected.
  destruct (dict_get (default ∅ (project_data data)) "area_hectares"
              (VFloat (Fin 0))) as [x| |]; try discriminate.
  intros H.
  assert (Hrecs : recs = Spec.selected
                    (Qltb (score (_assess_data_quality data)) 60)
                    (F.ltb (Model.confidence p) (Fin 0.7))
                    (dict_get (default ∅ (project_data data)) "ecosystem_type" (VStr ""))
                    (F.ltb x (Fin 1))) by congruence.
  rewrite Hrecs. split; [apply selected_sublist|].
  split; [apply selected_exclusive | apply selected_length].
Qed.

Context {Net Scaler : Type}.
Context (scaler_transform : Scaler → list pyval → result (list float64)).
Context (net_predict : Net → list float64 → result float64).

(** X4.  A request whose [area_hectares] is there but is no number ([None] or a
    string) makes the service raise [TypeError], after the model has
    predicted: [area_hectares < 1] is evaluated on the value as it is. *)
Theorem service_raises_on_non_numeric_area (svc : Service.t Net Scaler)
    (m : Model.t Net Scaler) (sat sen fld prj : pydict) (now : string)
    (p : Model.prediction) (v : pyval) :
  model_loaded svc = true →
  carbon_model svc = Some m →
  Model.predict scaler_transform net_predict m
    {| satellite_data := Some sat; sensor_data := Some sen;
       field_measurements := Some fld; project_data := Some prj |} now = Ok p →
  prj !! "area_hectares"%string = Some v →
  (∀ a, v ≠ VFloat a) →
  ∃ msg,
    predict_carbon_sequestration scaler_transform net_predict svc sat sen fld prj now
    = Err (TypeError msg).
Proof.
  intros Hl Hm Hp Hv Hnum.
  unfold predict_carbon_sequestration. rewrite Hl, Hm, Hp. cbn [bind].
  unfold _analyze_prediction. rewrite generate_recommendations_selected.
  cbn [project_data]. change (default ∅ (Some prj)) with prj.
  unfold dict_get. rewrite Hv. cbn [default from_option id].
  destruct v as [a| |].
  - by destruct (Hnum a).
  - eexists. reflexivity.
  - eexists. reflexivity.
Qed.

End RecommendationProperties.

Section AssessmentProperties.

Import Service.

Lemma truthy_keys {V} (d1 d2 : gmap string V) :
  dom d1 = dom d2 → truthy d1 = truthy d2.
Proof. intros H. unfold truthy. by rewrite <- !size_dom, H. Qed.

Lemma has_key_keys {V} (key : string) (d1 d2 : gmap string V) :
  dom d1 = dom d2 → has_key key d1 = has_key key d2.
Proof.
  intros H. unfold has_key.
  destruct (d1 !! key) eqn:E1, (d2 !! key) eqn:E2; try reflexivity.
  - apply not_elem_of_dom in E2. rewrite <- H in E2.
    destruct E2. apply elem_of_dom. eauto.
  - apply not_elem_of_dom in E1. rewrite H in E1.
    destruct E1. apply elem_of_dom. eauto.
Qed.

Lemma point_keys (key : string) (d1 d2 : pydict) :
  dom d1 = dom d2 → point key d1 = point key d2.
Proof. intros H. unfold point. by rewrite (has_key_keys key d1 d2 H). Qed.

(** X5.  The assessment reads which keys the three groups hold and nothing
    else: two inputs whose groups have the same keys get the same score,
    level and issues, whatever the values are ([None] included) and
    whatever the project data is. *)
Theorem assessment_depends_on_keys_only (data1 data2 : input_data) :
  Spec.keys_of (satellite_data data1) = Spec.keys_of (satellite_data data2) →
  Spec.keys_of (sensor_data data1) = Spec.keys_of (sensor_data data2) →
  Spec.keys_of (field_measurements data1) = Spec.keys_of (field_measurements data2) →
  _assess_data_quality data1 = _assess_data_quality data2.
Proof.
  unfold Spec.keys_of. intros Hsat Hsen Hfld. unfold _assess_data_quality.
  rewrite (truthy_keys _ _ Hsat), (truthy_keys _ _ Hsen), (truthy_keys _ _ Hfld).
  rewrite !(point_keys _ _ _ Hsat), !(point_keys _ _ _ Hsen),
    !(point_keys _ _ _ Hfld).
  reflexivity.
Qed.

(** X6.  One issue for each group that is absent, in the order satellite,
    sensor, field; the issues and the present groups add up to three. *)
Theorem one_issue_per_absent_group (data : input_data) :
  let present g := if Spec.present g then 1%nat else 0%nat in
  issues (_assess_data_quality data)
  = Spec.issue_of (satellite_data data) no_satellite
    ++ Spec.issue_of (sensor_data data) no_sensor
    ++ Spec.issue_of (field_measurements data) no_field
  ∧ (length (issues (_assess_data_quality data))
     + present (satellite_data data) + present (sensor_data data)
     + present (field_measurements data) = 3)%nat.
Proof.
  unfold _assess_data_quality, Spec.issue_of, Spec.present.
  destruct (truthy (default ∅ (satellite_data data))),
    (truthy (default ∅ (sensor_data data))),
    (truthy (default ∅ (field_measurements data))); split; reflexivity.
Qed.

Lemma percentage_more_weight (earned total : Z) :
  (0 <= earned <= total)%Z →
  Spec.percentage earned (total + 3) <= Spec.percentage earned total
  ∧ ((0 < earned)%Z →
     Spec.percentage earned (total + 3) < Spec.percentage earned total).
Proof.
  intros [H0 H1]. unfold Spec.percentage.
  destruct (0 <? total + 3)%Z eqn:E3; [|apply Z.ltb_ge in E3; lia].
  assert (He : 0 <= inject_Z earned) by (unfold Qle; simpl; lia).
  assert (Ht3 : inject_Z (total + 3) == inject_Z total + 3)
    by (rewrite inject_Z_plus; reflexivity).
  destruct (0 <? total)%Z eqn:E.
  - apply Z.ltb_lt in E.
    assert (Ht : 0 < inject_Z total) by (unfold Qlt; simpl; lia).
    set (x := inject_Z earned / inject_Z total).
    assert (Hx : x * inject_Z total == inject_Z earned)
      by (unfold x; field; lra).
    assert (Hx0 : 0 <= x) by (apply Qle_shift_div_l; [done | lra]).
    set (y := inject_Z earned / inject_Z (total + 3)).
    assert (Hy : y * (inject_Z total + 3) == inject_Z earned)
      by (unfold y; rewrite Ht3; field; lra).
    assert (Hy0 : 0 <= y) by (apply Qle_shift_div_l; [lra | lra]).
    assert (Hyx : y * inject_Z total <= x * inject_Z total) by nra.
    split.
    + assert (y <= x); [|lra].
      destruct (Qlt_le_dec x y) as [Hlt|]; [|done]. nra.
    + intros Hpos.
      assert (Hep : 0 < inject_Z earned) by (unfold Qlt; simpl; lia).
      assert (y < x); [|lra].
      destruct (Qlt_le_dec y x) as [|Hle]; [done|]. nra.
  - apply Z.ltb_ge in E. assert (earned = 0)%Z as -> by lia.
    split; [|lia]. unfold Qdiv. rewrite Qmult_0_l. lra.
Qed.

(** X7.  Adding a sensor block that holds none of the three scored readings
    (for instance humidity alone) to an input without sensor data never
    raises the score, and lowers it as soon as a point had been earned:
    the block makes its weight count and earns nothing. *)
Theorem unscored_sensor_block_lowers_score (data : input_data) (d : pydict) :
  Spec.present (sensor_data data) = false →
  d ≠ ∅ →
  (∀ key, key ∈ Spec.sensor_fields → d !! key = None) →
  let data' := {| satellite_data := satellite_data data;
                  sensor_data := Some d;
                  field_measurements := field_measurements data;
                  project_data := project_data data |} in
  score (_assess_data_quality data') <= score (_assess_data_quality data)
  ∧ (0 < score (_assess_data_quality data) →
     score (_assess_data_quality data') < score (_assess_data_quality data)).
Proof.
  intros Habsent Hd Hkeys data'.
  assert (Hpresent : Spec.present (Some d) = true).
  { unfold Spec.present, truthy. cbn [default from_option id].
    destruct (size d) eqn:Esize; [|reflexivity].
    apply map_size_empty_iff in Esize. contradiction. }
  assert (Hpoints : Spec.points Spec.sensor_fields (Some d) = 0%Z).
  { unfold Spec.points. rewrite Hpresent.
    cbn [Spec.sensor_fields fmap list_fmap foldr default from_option id].
    unfold point, has_key.
    rewrite (Hkeys "temperature"%string), (Hkeys "soil_moisture"%string),
      (Hkeys "salinity"%string); [reflexivity|..];
      unfold Spec.sensor_fields; set_solver. }
  assert (Hweight : Spec.weight 3 (Some d) = 3%Z)
    by (unfold Spec.weight; by rewrite Hpresent).
  assert (Hpoints0 : Spec.points Spec.sensor_fields (sensor_data data) = 0%Z)
    by (unfold Spec.points; by rewrite Habsent).
  assert (Hweight0 : Spec.weight 3 (sensor_data data) = 0%Z)
    by (unfold Spec.weight; by rewrite Habsent).
  pose proof (assess_score data) as (Hs & _ & Hb).
  pose proof (assess_score data') as (Hs' & _ & _).
  subst data'. cbn [satellite_data sensor_data field_measurements] in Hs'.
  rewrite Hpoints, Hweight in Hs'. rewrite Hpoints0, Hweight0 in Hs, Hb.
  set (E := (Spec.points Spec.satellite_fields (satellite_data data)
             + 0 + Spec.points Spec.field_fields (field_measurements data))%Z) in *.
  set (T := (Spec.weight 4 (satellite_data data) + 0
             + Spec.weight 2 (field_measurements data))%Z) in *.
  replace (Spec.weight 4 (satellite_data data) + 3
           + Spec.weight 2 (field_measurements data))%Z with (T + 3)%Z in Hs'
    by (unfold T; lia).
  rewrite Hs, Hs'.
  destruct (percentage_more_weight E T Hb) as [Hle Hlt].
  split; [exact Hle|].
  intros Hpos. apply Hlt.
  destruct (Z.eq_dec E 0%Z) as [HE|]; [|lia].
  rewrite HE in Hpos. unfold Spec.percentage in Hpos.
  destruct (0 <? T)%Z; [|lra].
  unfold Qdiv in Hpos. rewrite Qmult_0_l in Hpos. lra.
Qed.

End AssessmentProperties.

(** An estimate of 45 has the confidence 0.55: the level is low and the
    recommendation is given. *)
Lemma confidence_level_agrees_with_advice_witness :
  ∃ p a,
    Linear.predict (Linear.constant_model 45) no_data "2024-01-01T00:00:00" = Ok p
    ∧ Service._analyze_prediction no_data p = Ok a
    ∧ Service.confidence_level a = "low"%string
    ∧ Service.rec_low_confidence ∈ Service.recommendations a.
Proof.
  eexists _, _.
  split; [vm_compute; reflexivity|].
  split; [vm_compute; reflexivity|].
  split; [vm_compute; reflexivity|].
  eapply (confidence_level_agrees_with_advice Linear.scaler_transform
            Linear.net_predict (Linear.constant_model 45) no_data
            "2024-01-01T00:00:00");
    [vm_compute; reflexivity | vm_compute; reflexivity | vm_compute; reflexivity].
Defined.

(** A small seagrass project without any measurement. *)
Lemma recommendations_follow_precedence_witness :
  let data :=
    {| satellite_data := Some ∅; sensor_data := Some ∅; field_measurements := Some ∅;
       project_data := Some (<["ecosystem_type"%string := VStr "seagrass"]>
                               {[ "area_hectares"%string := VFloat (Fin 0.5) ]}) |} in
  let p :=
    {| Model.carbon_estimate_tonnes_co2_per_hectare_per_year := Fin 35;
       Model.confidence := Fin 0.65;
       Model.timestamp := "2024-01-01T00:00:00";
       Model.model_version := "1.0.0" |} in
  let recs := [Service.rec_more_data; Service.rec_low_confidence;
               Service.rec_seagrass; Service.rec_small_area] in
  Service._generate_recommendations data p = Ok recs
  ∧ recs `sublist_of` Spec.precedence.
Proof.
  intros data p recs.
  assert (H : Service._generate_recommendations data p = Ok recs)
    by (vm_compute; reflexivity).
  split; [exact H|].
  exact (proj1 (recommendations_follow_precedence data p recs H)).
Defined.

(** A project whose area is [None], on a trained model. *)
Lemma service_raises_on_non_numeric_area_witness :
  let m := Linear.constant_model 12 in
  let svc :=
    {| Service.carbon_model := Some m; Service.model_loaded := true;
       Service.model_path := "models/carbon_estimation";
       Service.last_update := None |} in
  let prj : pydict := {[ "area_hectares"%string := VNone ]} in
  (∃ p, Linear.predict m
          {| satellite_data := Some ∅; sensor_data := Some ∅;
             field_measurements := Some ∅; project_data := Some prj |}
          "2024-01-01T00:00:00" = Ok p)
  ∧ ∃ msg,
      Service.predict_carbon_sequestration Linear.scaler_transform
        Linear.net_predict svc ∅ ∅ ∅ prj "2024-01-01T00:00:00"
      = Err (TypeError msg).
Proof.
  intros m svc prj.
  split; [eexists; vm_compute; reflexivity|].
  eapply (service_raises_on_non_numeric_area Linear.scaler_transform
            Linear.net_predict svc m ∅ ∅ ∅ prj "2024-01-01T00:00:00" _ VNone);
    [reflexivity | reflexivity | vm_compute; reflexivity
    | vm_compute; reflexivity | discriminate].
Defined.

(** The same keys with other values, one of them [None]. *)
Lemma assessment_depends_on_keys_only_witness :
  let data1 :=
    {| satellite_data := Some {[ "ndvi"%string := VFloat (Fin 0.6) ]};
       sensor_data := Some {[ "temperature"%string := VFloat (Fin 25) ]};
       field_measurements := None; project_data := None |} in
  let data2 :=
    {| satellite_data := Some {[ "ndvi"%string := VFloat (Fin (-1)) ]};
       sensor_data := Some {[ "temperature"%string := VNone ]};
       field_measurements := Some ∅;
       project_data := Some {[ "area_hectares"%string := VFloat (Fin 3) ]} |} in
  Service._assess_data_quality data1 = Service._assess_data_quality data2.
Proof.
  intros data1 data2.
  apply assessment_depends_on_keys_only; unfold Spec.keys_of;
    cbn [data1 data2 satellite_data sensor_data field_measurements default
           from_option id];
    rewrite ?dom_singleton_L, ?dom_empty_L; reflexivity.
Defined.

(** All four satellite indices and no sensor data score 100; a sensor
    block with the humidity alone brings the score down to 4 of 7. *)
Lemma unscored_sensor_block_lowers_score_witness :
  let sat : pydict :=
    <["ndvi"%string := VFloat (Fin 0.6)]> (<["evi"%string := VFloat (Fin 0.4)]>
      (<["savi"%string := VFloat (Fin 0.5)]> {[ "ndwi"%string := VFloat (Fin 0.3) ]})) in
  let data := {| satellite_data := Some sat; sensor_data := None;
                 field_measurements := None; project_data := None |} in
  let d : pydict := {[ "humidity"%string := VFloat (Fin 80) ]} in
  let data' := {| satellite_data := Some sat; sensor_data := Some d;
                  field_measurements := None; project_data := None |} in
  Service.score (Service._assess_data_quality data) == 100
  ∧ Service.score (Service._assess_data_quality data')
    < Service.score (Service._assess_data_quality data).
Proof.
  intros sat data d data'.
  assert (H100 : Service.score (Service._assess_data_quality data) == 100)
    by (vm_compute; reflexivity).
  split; [exact H100|].
  assert (Hd : d ≠ ∅).
  { intros H. apply (f_equal (λ m : pydict, m !! "humidity"%string)) in H.
    vm_compute in H. discriminate H. }
  assert (Hkeys : ∀ key, key ∈ Spec.sensor_fields → d !! key = None).
  { intros key Hkey. unfold Spec.sensor_fields in Hkey.
    apply list_elem_of_In in Hkey. cbn in Hkey.
    destruct Hkey as [<-|[<-|[<-|[]]]]; vm_compute; reflexivity. }
  apply (unscored_sensor_block_lowers_score data d eq_refl Hd Hkeys).
  rewrite H100. reflexivity.
Defined.

(** * Further properties of the index engine *)

Section BandFacts.

Import Indices Bands.

(** Each index is computed on arrays of one shape, whatever they hold. *)
Lemma calculate_ndvi_ok (red nir : ndarray) :
  length red = length nir →
  ∃ o, calculate_ndvi red nir = Ok o ∧ length o = length nir.
Proof.
  intros Hl. unfold calculate_ndvi. run_array_ops.
  eexists. split; [reflexivity | lengths].
Qed.

Lemma calculate_evi_ok (nir red blue : ndarray) :
  length red = length nir → length blue = length nir →
  ∃ o, calculate_evi nir red blue = Ok o ∧ length o = length nir.
Proof.
  intros Hl Hb. unfold calculate_evi. run_array_ops.
  eexists. split; [reflexivity | lengths].
Qed.

Lemma calculate_savi_ok (nir red : ndarray) (l : Q) :
  length red = length nir →
  ∃ o, calculate_savi nir red l = Ok o ∧ length o = length nir.
Proof.
  intros Hl. unfold calculate_savi. run_array_ops.
  eexists. split; [reflexivity | lengths].
Qed.

Lemma calculate_ndwi_ok (nir swir : ndarray) :
  length swir = length nir →
  ∃ o, calculate_ndwi nir swir = Ok o ∧ length o = length nir.
Proof.
  intros Hl. unfold calculate_ndwi. run_array_ops.
  eexists. split; [reflexivity | lengths].
Qed.

Lemma calculate_gci_ok (nir green : ndarray) :
  length green = length nir →
  ∃ o, calculate_gci nir green = Ok o ∧ length o = length nir.
Proof.
  intros Hl. unfold calculate_gci. run_array_ops.
  eexists. split; [reflexivity | lengths].
Qed.

(** What [validate_bands] has checked when it answers [True]. *)
Lemma validate_bands_inv (bands : gmap string ndarray) :
  validate_bands bands = true →
  is_Some (bands !! "red"%string) ∧ is_Some (bands !! "nir"%string)
  ∧ ∀ k1 k2 a b, bands !! k1 = Some a → bands !! k2 = Some b →
                 length a = length b.
Proof.
  unfold validate_bands, has_key. intros H.
  destruct (bands !! "red"%string) as [red|] eqn:Hred; [|discriminate].
  destruct (bands !! "nir"%string) as [nir|] eqn:Hnir; [|discriminate].
  cbn [negb] in H.
  destruct (1 <? size _)%nat eqn:Hsize; [discriminate|].
  apply Nat.ltb_ge in Hsize.
  split; [eauto|]. split; [eauto|].
  intros k1 k2 a b Ha Hb.
  destruct (decide (length a = length b)) as [|Hne]; [done|]. exfalso.
  set (shapes := (λ kv : string * ndarray, length kv.2) <$> map_to_list bands) in *.
  assert (Hin : ∀ k c, bands !! k = Some c →
                       length c ∈ (list_to_set shapes : gset nat)).
  { intros k c Hc. apply elem_of_list_to_set. unfold shapes.
    apply list_elem_of_fmap. exists (k, c). split; [done|].
    by apply elem_of_map_to_list. }
  assert (Hsub : ({[ length a; length b ]} : gset nat) ⊆ list_to_set shapes).
  { apply union_subseteq. split; apply singleton_subseteq_l; eauto. }
  apply subseteq_size in Hsub.
  rewrite size_union in Hsub by set_solver.
  rewrite !size_singleton in Hsub. lia.
Qed.

End BandFacts.

Section BandProperties.

Import Indices Bands.

Ltac index_results H :=
  repeat match type of H with
    | context [bind (calculate_ndvi ?a ?b) _] =>
        destruct (calculate_ndvi a b); cbn [bind] in H; [|discriminate H]
    | context [bind (calculate_evi ?a ?b ?c) _] =>
        destruct (calculate_evi a b c); cbn [bind] in H; [|discriminate H]
    | context [bind (calculate_savi ?a ?b ?c) _] =>
        destruct (calculate_savi a b c); cbn [bind] in H; [|discriminate H]
    | context [bind (calculate_ndwi ?a ?b) _] =>
        destruct (calculate_ndwi a b); cbn [bind] in H; [|discriminate H]
    | context [bind (calculate_gci ?a ?b) _] =>
        destruct (calculate_gci a b); cbn [bind] in H; [|discriminate H]
    end.

(** X8.  When [calculate_all_indices] returns, the dictionary holds exactly
    the indices whose bands are all there: NDVI and SAVI for red and nir,
    EVI with blue in addition, NDWI for nir and swir, GCI for nir and
    green.  Without the nir band it is empty. *)
Theorem indices_computed_for_present_bands (bands indices : gmap string ndarray) :
  calculate_all_indices bands = Ok indices →
  (∀ name, has_key name indices = Spec.computed bands name)
  ∧ (bands !! "nir"%string = None → indices = ∅).
Proof.
  unfold calculate_all_indices. intros H.
  destruct (bands !! "red"%string) as [red|] eqn:Hred;
    destruct (bands !! "nir"%string) as [nir|] eqn:Hnir;
    destruct (bands !! "blue"%string) as [blue|] eqn:Hblue;
    destruct (bands !! "swir"%string) as [swir|] eqn:Hswir;
    destruct (bands !! "green"%string) as [green|] eqn:Hgreen;
    cbn [bind] in H; index_results H;
    apply (f_equal (λ r, match r with Ok x => x | Err _ => indices end)) in H;
    subst indices.
  all: split; [|intros Hno; first [discriminate Hno | reflexivity]].
  all: intros name; unfold has_key, Spec.computed;
    rewrite ?lookup_insert, ?lookup_empty;
    unfold has_key; rewrite ?Hred, ?Hnir, ?Hblue, ?Hswir, ?Hgreen;
    repeat case_decide; subst; try reflexivity; congruence.
Qed.

(** X9.  Bands that [validate_bands] accepts are computed without an
    exception: NDVI and SAVI are in the result, and every index has the
    shape of the bands. *)
Theorem validated_bands_never_raise (bands : gmap string ndarray) :
  validate_bands bands = true →
  ∃ indices,
    calculate_all_indices bands = Ok indices
    ∧ has_key "ndvi" indices = true ∧ has_key "savi" indices = true
    ∧ ∀ name a band b,
        indices !! name = Some a → bands !! band = Some b →
        length a = length b.
Proof.
  intros Hvalid.
  destruct (validate_bands_inv bands Hvalid) as ([red Hred] & [nir Hnir] & Hshape).
  assert (Hsucc : ∃ indices,
             calculate_all_indices bands = Ok indices
             ∧ ∀ name a, indices !! name = Some a → length a = length nir).
  { unfold calculate_all_indices. rewrite Hred, Hnir.
    destruct (calculate_ndvi_ok red nir (Hshape _ _ _ _ Hred Hnir))
      as (ndvi & -> & Lndvi).
    destruct (calculate_savi_ok nir red savi_default_l (Hshape _ _ _ _ Hred Hnir))
      as (savi & Esavi & Lsavi).
    cbn [bind].
    destruct (bands !! "blue"%string) as [blue|] eqn:Hblue;
      [destruct (calculate_evi_ok nir red blue (Hshape _ _ _ _ Hred Hnir)
                   (Hshape _ _ _ _ Hblue Hnir)) as (evi & -> & Levi)|];
      cbn [bind]; rewrite Esavi; cbn [bind];
      (destruct (bands !! "swir"%string) as [swir|] eqn:Hswir;
       [destruct (calculate_ndwi_ok nir swir (Hshape _ _ _ _ Hswir Hnir))
          as (ndwi & -> & Lndwi)|]);
      cbn [bind];
      (destruct (bands !! "green"%string) as [green|] eqn:Hgreen;
       [destruct (calculate_gci_ok nir green (Hshape _ _ _ _ Hgreen Hnir))
          as (gci & -> & Lgci)|]);
      cbn [bind];
      (eexists; split; [reflexivity|]);
      intros name a; rewrite ?lookup_insert, ?lookup_empty;
      repeat case_decide; intros Ha; try discriminate Ha;
      injection Ha as <-; assumption. }
  destruct Hsucc as (indices & Hcalc & Hlen).
  exists indices. split; [exact Hcalc|].
  destruct (indices_computed_for_present_bands bands indices Hcalc) as [Hkeys _].
  rewrite !Hkeys. unfold Spec.computed, has_key. rewrite Hred, Hnir.
  repeat split.
  intros name a band b Ha Hb. rewrite (Hlen name a Ha).
  exact (Hshape _ _ _ _ Hnir Hb).
Qed.

End BandProperties.


Section StatisticsProperties.

Import Indices Bands.

Context (np_mean np_std np_min np_max np_median : list Q → float64).
Context (np_percentile : list Q → Q → float64).

Abbreviation index_statistics :=
  (Bands.index_statistics np_mean np_std np_min np_max np_median np_percentile).
Abbreviation get_index_statistics :=
  (Bands.get_index_statistics np_mean np_std np_min np_max np_median np_percentile).

Lemma finite_values_length (a : ndarray) :
  (length (finite_values a) ≤ length a)%nat
  ∧ (Forall finite a ↔ length (finite_values a) = length a).
Proof.
  unfold finite_values. induction a as [|x a [IHle IHeq]]; cbn.
  - split; [lia|]. split; [reflexivity | constructor].
  - destruct x as [q| |]; cbn.
    + split; [lia|]. rewrite Forall_cons, IHeq. split.
      * intros [_ ->]. reflexivity.
      * intros H. split; [apply finite_Fin | lia].
    + split; [lia|]. split.
      * intros H. apply Forall_cons in H as [[q Hq] _]. discriminate Hq.
      * intros H. lia.
    + split; [lia|]. split.
      * intros H. apply Forall_cons in H as [[q Hq] _]. discriminate Hq.
      * intros H. lia.
Qed.

Lemma finite_values_of_numbers (g : list Q) : finite_values (of_numbers g) = g.
Proof.
  unfold finite_values, of_numbers. induction g as [|q g IH]; [reflexivity|].
  cbn. by rewrite IH.
Qed.

(** X11.  The statistics of an index are those of its pixels that are numbers:
    the pixels that are NaN or infinite count in [total_pixels] and
    nowhere else.  [valid_pixels] never exceeds [total_pixels], and the two
    are equal exactly when every pixel is a number. *)
Theorem statistics_ignore_non_finite_pixels (a : ndarray) :
  let s := index_statistics a in
  let s' := index_statistics (of_numbers (finite_values a)) in
  (st_mean s, st_std s, st_min s, st_max s, st_median s,
   st_percentile_25 s, st_percentile_75 s, valid_pixels s)
  = (st_mean s', st_std s', st_min s', st_max s', st_median s',
     st_percentile_25 s', st_percentile_75 s', valid_pixels s')
  ∧ total_pixels s = length a
  ∧ (valid_pixels s ≤ total_pixels s)%nat
  ∧ (valid_pixels s = total_pixels s ↔ Forall finite a).
Proof.
  intros s s'. unfold s, s', Bands.index_statistics.
  rewrite finite_values_of_numbers.
  destruct (finite_values_length a) as [Hle Heq].
  destruct (0 <? length (finite_values a))%nat eqn:E; cbn.
  - repeat split; try lia; apply Heq; done.
  - apply Nat.ltb_ge in E. repeat split; try lia.
    + intros H. apply Heq. lia.
    + intros H. apply Heq in H. lia.
Qed.

End StatisticsProperties.

Lemma example_bands_valid : Bands.validate_bands Example.bands = true.
Proof. vm_compute. reflexivity. Qed.

(** Red, nir and green give NDVI, SAVI and GCI, and neither EVI nor NDWI. *)
Lemma indices_computed_for_present_bands_witness :
  ∃ indices,
    Bands.calculate_all_indices Example.bands = Ok indices
    ∧ has_key "ndvi" indices = true ∧ has_key "savi" indices = true
    ∧ has_key "gci" indices = true ∧ has_key "evi" indices = false
    ∧ has_key "ndwi" indices = false.
Proof.
  eexists. split; [reflexivity|].
  pose proof (proj1 (indices_computed_for_present_bands Example.bands _ eq_refl))
    as H.
  rewrite !H. vm_compute. repeat split.
Defined.

Lemma validated_bands_never_raise_witness :
  Bands.validate_bands Example.bands = true
  ∧ ∃ indices, Bands.calculate_all_indices Example.bands = Ok indices
               ∧ has_key "ndvi" indices = true.
Proof.
  split; [exact example_bands_valid|].
  destruct (validated_bands_never_raise Example.bands example_bands_valid)
    as (indices & Hcalc & Hndvi & _).
  exists indices. split; assumption.
Defined.

(** A NaN pixel and an infinite one are counted and otherwise ignored. *)
Example statistics_with_nan :
  let s := Bands.index_statistics Example.mean Example.unknown Example.minimum
             Example.maximum Example.unknown (λ l _, Example.unknown l)
             [Fin 0.5; NaN; Fin (-0.5); Inf false] in
  Bands.valid_pixels s = 2%nat ∧ Bands.total_pixels s = 4%nat
  ∧ Bands.st_min s = Fin (-0.5) ∧ Bands.st_max s = Fin 0.5.
Proof. vm_compute. repeat split. Qed.

Section ReflectanceProperties.

Import Indices.

Lemma clamp_inside lo hi x : lo <= x → x <= hi → Spec.clamp lo hi x = x.
Proof.
  intros Hlo Hhi. unfold Spec.clamp.
  destruct (Qltb x lo) eqn:E1; [apply Qltb_lt in E1; lra|].
  destruct (Qltb hi x) eqn:E2; [apply Qltb_lt in E2; lra|]. reflexivity.
Qed.

Lemma guard_positive d : 0 < d → Spec.guard d = d.
Proof.
  intros H. unfold Spec.guard.
  destruct (Qeq_bool d 0) eqn:E; [|reflexivity].
  apply Qeq_bool_iff in E. lra.
Qed.

Lemma ratio_within (x y : Q) : 0 < y → - y <= x → x <= y → -1 <= x / y <= 1.
Proof.
  intros Hy Hlo Hhi. split.
  - apply Qle_shift_div_l; [done | lra].
  - apply Qle_shift_div_r; [done | lra].
Qed.

Lemma ndvi_reflectance (red nir : Q) :
  0 <= red → 0 <= nir → 0 < nir + red →
  Spec.ndvi red nir = (nir - red) / (nir + red).
Proof.
  intros Hr Hn Hs. unfold Spec.ndvi. rewrite guard_positive by done.
  destruct (ratio_within (nir - red) (nir + red)); [lra..|].
  by apply clamp_inside.
Qed.

Lemma savi_reflectance (nir red : Q) :
  0 <= red <= 1 → 0 <= nir <= 1 →
  Spec.savi 0.5 nir red = (nir - red) / (nir + red + 0.5) * (1 + 0.5).
Proof.
  intros Hr Hn. unfold Spec.savi. rewrite guard_positive by lra.
  set (y := nir + red + 0.5).
  assert (Hy : 0 < y) by (unfold y; lra).
  assert (Hq : (nir - red) / y * y == nir - red) by (field; lra).
  set (q := (nir - red) / y) in *.
  apply clamp_inside.
  - destruct (Qlt_le_dec (q * (1 + 0.5)) (-1)) as [Hlt|]; [|done].
    exfalso. unfold y in *. nra.
  - destruct (Qlt_le_dec 1 (q * (1 + 0.5))) as [Hlt|]; [|done].
    exfalso. unfold y in *. nra.
Qed.

(** X13.  On reflectances between 0 and 1 the clamp and the epsilon change
    nothing: where nir + red is positive NDVI is (nir - red) / (nir + red),
    and SAVI is (nir - red) / (nir + red + 0.5) * 1.5 at every pixel. *)
Theorem reflectances_are_not_clamped (red nir : list Q) :
  Forall2 (λ r n, 0 <= r <= 1 ∧ 0 <= n <= 1 ∧ 0 < n + r) red nir →
  calculate_ndvi (of_numbers red) (of_numbers nir)
  = Ok (of_numbers (zip_with (λ r n, (n - r) / (n + r)) red nir))
  ∧ calculate_savi (of_numbers nir) (of_numbers red) savi_default_l
    = Ok (of_numbers (zip_with (λ n r, (n - r) / (n + r + 0.5) * (1 + 0.5)) nir red)).
Proof.
  intros H.
  assert (Hl : length red = length nir) by (eapply Forall2_length; exact H).
  rewrite calculate_ndvi_pixels, calculate_savi_pixels by done.
  split; do 2 f_equal.
  - induction H as [|r n red nir (Hr & Hn & Hs) _ IH]; [reflexivity|].
    cbn. rewrite IH by (cbn in Hl; lia).
    by rewrite ndvi_reflectance by lra.
  - induction H as [|r n red nir (Hr & Hn & Hs) _ IH]; [reflexivity|].
    cbn. rewrite IH by (cbn in Hl; lia).
    unfold savi_default_l. by rewrite savi_reflectance by lra.
Qed.

End ReflectanceProperties.

(** The scenario red = 0.1, nir = 0.5 on a 2 x 2 grid. *)
Lemma reflectances_are_not_clamped_witness :
  let red := [0.1; 0.1; 0.1; 0.1] in
  let nir := [0.5; 0.5; 0.5; 0.5] in
  Indices.calculate_ndvi (Indices.of_numbers red) (Indices.of_numbers nir)
  = Ok (Indices.of_numbers (zip_with (λ r n, (n - r) / (n + r)) red nir)).
Proof.
  intros red nir.
  apply (reflectances_are_not_clamped red nir).
  repeat constructor; vm_compute; congruence.
Defined.

(** * The estimation route *)

Section RouteProperties.

Import Routes.

Lemma sensor_data_of_lookup (r : SensorDataRequest) :
  sensor_data_of (Some r) !! "temperature"%string = Some (optional (temperature r))
  ∧ sensor_data_of (Some r) !! "humidity"%string = Some (optional (humidity r))
  ∧ sensor_data_of (Some r) !! "soil_moisture"%string
    = Some (optional (soil_moisture r))
  ∧ sensor_data_of (Some r) !! "salinity"%string = Some (optional (salinity r))
  ∧ sensor_data_of (Some r) !! "ph"%string = Some (optional (ph r))
  ∧ sensor_data_of (Some r) !! "organic_matter"%string
    = Some (optional (organic_matter r)).
Proof.
  unfold sensor_data_of. repeat split;
    rewrite !lookup_insert; repeat case_decide; congruence.
Qed.

Lemma field_measurements_of_lookup (r : FieldMeasurementsRequest) :
  field_measurements_of (Some r) !! "biomass_density"%string
  = Some (optional (biomass_density r))
  ∧ field_measurements_of (Some r) !! "canopy_height"%string
    = Some (optional (canopy_height r)).
Proof.
  unfold field_measurements_of. repeat split;
    rewrite !lookup_insert; repeat case_decide; congruence.
Qed.

Lemma truthy_lookup {V} (d : gmap string V) key v : d !! key = Some v → truthy d = true.
Proof.
  intros H. unfold truthy. destruct (size d) eqn:E; [|reflexivity].
  apply map_size_empty_iff in E. subst d. by rewrite lookup_empty in H.
Qed.

(** X14.  A request that carries a sensor block and a field block gets every
    point of the two groups, whatever the blocks hold, even when every
    reading is left out: the route enters each reading under its key, as
    [None] if need be.  Without satellite indices the score is then 100
    and the level high. *)
Theorem route_blocks_score_in_full (sensor : SensorDataRequest)
    (field : FieldMeasurementsRequest) (satellite project : pydict) :
  let data := input_of satellite (Some sensor) (Some field) project in
  Spec.points Spec.sensor_fields (sensor_data data) = 3%Z
  ∧ Spec.points Spec.field_fields (field_measurements data) = 2%Z
  ∧ (Service.no_sensor ∉ Service.issues (Service._assess_data_quality data))
  ∧ (Service.no_field ∉ Service.issues (Service._assess_data_quality data))
  ∧ (satellite = ∅ →
     Service.score (Service._assess_data_quality data) == 100
     ∧ Service.level (Service._assess_data_quality data) = "high"%string).
Proof.
  intros data.
  destruct (sensor_data_of_lookup sensor) as (St & _ & Sm & Ss & _ & _).
  destruct (field_measurements_of_lookup field) as (Fb & Fc).
  assert (Hs : Spec.present (sensor_data data) = true)
    by exact (truthy_lookup _ _ _ St).
  assert (Hf : Spec.present (field_measurements data) = true)
    by exact (truthy_lookup _ _ _ Fb).
  assert (Ps : Spec.points Spec.sensor_fields (sensor_data data) = 3%Z).
  { unfold Spec.points. rewrite Hs. cbn [data input_of sensor_data default
      from_option id Spec.sensor_fields fmap list_fmap foldr].
    unfold Service.point, has_key. by rewrite St, Sm, Ss. }
  assert (Pf : Spec.points Spec.field_fields (field_measurements data) = 2%Z).
  { unfold Spec.points. rewrite Hf. cbn [data input_of field_measurements default
      from_option id Spec.field_fields fmap list_fmap foldr].
    unfold Service.point, has_key. by rewrite Fb, Fc. }
  destruct (one_issue_per_absent_group data) as [Hissues _].
  split; [exact Ps|]. split; [exact Pf|].
  rewrite Hissues. unfold Spec.issue_of. rewrite Hs, Hf.
  split; [|split].
  - destruct (Spec.present (satellite_data data)); cbn [app];
      intros H; member_false H.
  - destruct (Spec.present (satellite_data data)); cbn [app];
      intros H; member_false H.
  - intros ->. destruct (assess_score data) as (Hscore & Hlevel & _).
    rewrite Hlevel, Hscore, Ps, Pf.
    unfold Spec.weight. rewrite Hs, Hf.
    split; vm_compute; reflexivity.
Qed.

(** X15.  The readings of a sensor block reach the feature vector as they are:
    a reading that is left out is [None] there, and none of the sensor
    defaults (25.0, 70.0, 0.5, 35.0, 7.0, 2.0) is used. *)
Theorem route_sensor_block_bypasses_defaults {Net Scaler : Type}
    (self : Model.t Net Scaler) (sensor : SensorDataRequest)
    (field : option FieldMeasurementsRequest) (satellite project : pydict) :
  let data := input_of satellite (Some sensor) field project in
  take 6 (drop 4 (Model.prepare_features self data))
  = optional <$> [ temperature sensor; humidity sensor; soil_moisture sensor;
                   salinity sensor; ph sensor; organic_matter sensor ].
Proof.
  intros data.
  destruct (sensor_data_of_lookup sensor) as (H1 & H2 & H3 & H4 & H5 & H6).
  unfold Model.prepare_features.
  cbn [data input_of sensor_data default from_option id take drop].
  unfold dict_get. rewrite H1, H2, H3, H4, H5, H6. reflexivity.
Qed.

End RouteProperties.

(** * Further properties of persistence *)

Section PersistenceProperties.

Context {Net Scaler : Type}.
Context (scaler_transform : Scaler → list pyval → result (list float64)).
Context (net_predict : Net → list float64 → result float64).

Implicit Types (self : Model.t Net Scaler) (fs : gmap string (Model.file Net Scaler)).

(** X16.  [load_model] is not atomic: when the model file is there and the
    scaler file is missing, the call raises after it has replaced the
    network.  The object is left with the network of the directory and the
    scaler it had; an object that was trained is still trained, by a pair
    that was never fitted together. *)
Theorem failed_load_keeps_the_new_network self fs path m :
  fs !! Path.join path Model.model_file = Some (Model.H5File m) →
  fs !! Path.join path Model.scaler_file = None →
  let after := (Model.load_model self fs path).1 in
  (Model.load_model self fs path).2
  = Err (FileNotFoundError (Path.join path Model.scaler_file))
  ∧ Model.model after = Some m
  ∧ Model.scaler after = Model.scaler self
  ∧ (Model.trained self → Model.trained after).
Proof.
  intros Hm Hs after. unfold after, Model.load_model. rewrite Hm, Hs.
  cbn [fst snd Model.model Model.scaler].
  split; [reflexivity|]. split; [reflexivity|]. split; [reflexivity|].
  intros [_ Hscaler]. split; [eauto | exact Hscaler].
Qed.

(** X17.  After a load the encoding table is the one of the artifact: the last
    feature is the code that this table gives to the ecosystem type, and 0
    for a type the table does not list. *)
Theorem loaded_table_encodes self fs path m s md table (data : input_data) :
  fs !! Path.join path Model.model_file = Some (Model.H5File m) →
  fs !! Path.join path Model.scaler_file = Some (Model.PklFile s) →
  fs !! Path.join path Model.metadata_file = Some (Model.JsonFile md) →
  Model.md_ecosystem_types md = Some table →
  let loaded := (Model.load_model self fs path).1 in
  let ecosystem_type :=
    dict_get (default ∅ (project_data data)) "ecosystem_type" (VStr "mangrove") in
  Model.prepare_features loaded data !! 13%nat
  = Some (VFloat (Fin (inject_Z (Model.encode table ecosystem_type))))
  ∧ (∀ name, ecosystem_type = VStr name → table !! name = None →
             Model.prepare_features loaded data !! 13%nat = Some (VFloat (Fin 0))).
Proof.
  intros Hm Hs Hj Ht loaded eco. unfold loaded.
  rewrite (load_model_complete _ _ _ _ _ _ Hm Hs Hj). cbn [fst].
  unfold Model.prepare_features. cbn [Model.ecosystem_types].
  rewrite Ht. cbn [default from_option id]. fold eco.
  split; [reflexivity|].
  intros name -> Hname. cbn. unfold dict_get. by rewrite Hname.
Qed.

(** X18.  The feature columns of the metadata play no part in a prediction:
    two artifacts that differ in them only are loaded into models that
    predict the same on every input. *)
Theorem metadata_columns_do_not_change_predictions self fs1 fs2 path m s md1 md2 :
  fs1 !! Path.join path Model.model_file = Some (Model.H5File m) →
  fs1 !! Path.join path Model.scaler_file = Some (Model.PklFile s) →
  fs1 !! Path.join path Model.metadata_file = Some (Model.JsonFile md1) →
  fs2 !! Path.join path Model.model_file = Some (Model.H5File m) →
  fs2 !! Path.join path Model.scaler_file = Some (Model.PklFile s) →
  fs2 !! Path.join path Model.metadata_file = Some (Model.JsonFile md2) →
  Model.md_ecosystem_types md1 = Model.md_ecosystem_types md2 →
  ∀ data now,
    Model.predict scaler_transform net_predict
      (Model.load_model self fs1 path).1 data now
    = Model.predict scaler_transform net_predict
        (Model.load_model self fs2 path).1 data now.
Proof.
  intros Hm1 Hs1 Hj1 Hm2 Hs2 Hj2 Ht data now.
  rewrite (load_model_complete _ _ _ _ _ _ Hm1 Hs1 Hj1).
  rewrite (load_model_complete _ _ _ _ _ _ Hm2 Hs2 Hj2).
  apply predict_ext; cbn; [reflexivity..|]. by rewrite Ht.
Qed.

End PersistenceProperties.

Lemma failed_load_keeps_the_new_network_witness :
  let self := Linear.constant_model 12 in
  let after := (Model.load_model self Example.half_artifact "models/m").1 in
  Model.model after = Some (Linear.constant_net 7)
  ∧ Model.scaler after = Some Linear.unit_scaler
  ∧ raises (Model.load_model self Example.half_artifact "models/m").2.
Proof.
  intros self after.
  assert (H1 : Example.half_artifact !! Path.join "models/m" Model.model_file
               = Some (Model.H5File (Linear.constant_net 7)))
    by (vm_compute; reflexivity).
  assert (H2 : Example.half_artifact !! Path.join "models/m" Model.scaler_file = None)
    by (vm_compute; reflexivity).
  destruct (failed_load_keeps_the_new_network self Example.half_artifact "models/m"
              (Linear.constant_net 7) H1 H2) as (He & Hm & Hs & _).
  split; [exact Hm|]. split; [exact Hs|]. eexists. exact He.
Defined.

(** With the shifted table a mangrove project has the code 4, and a type
    that the table does not list has the code 0. *)
Lemma loaded_table_encodes_witness :
  let fs := Example.artifact_with
              (Example.metadata_with Model.default_feature_columns
                 Example.shifted_table) in
  let loaded := (Model.load_model (Model.init None) fs "models/m").1 in
  Model.prepare_features loaded no_data !! 13%nat = Some (VFloat (Fin (inject_Z 4)))
  ∧ Model.prepare_features loaded
      {| satellite_data := None; sensor_data := None; field_measurements := None;
         project_data := Some {[ "ecosystem_type"%string := VStr "seagrass" ]} |}
      !! 13%nat = Some (VFloat (Fin 0)).
Proof.
  intros fs loaded. split.
  - refine (proj1 (loaded_table_encodes (Model.init None) fs "models/m"
                     (Linear.constant_net 12) Linear.unit_scaler _
                     Example.shifted_table no_data _ _ _ _));
      vm_compute; reflexivity.
  - refine (proj2 (loaded_table_encodes (Model.init None) fs "models/m"
                     (Linear.constant_net 12) Linear.unit_scaler _
                     Example.shifted_table _ _ _ _ _) "seagrass"%string _ _);
      vm_compute; reflexivity.
Defined.

(** The artifact with the reversed columns predicts as the one with the
    columns in order. *)
Lemma metadata_columns_do_not_change_predictions_witness :
  Linear.predict
    (Model.load_model (Model.init None)
       (Example.artifact_with
          (Example.metadata_with (reverse Model.default_feature_columns)
             Model.default_ecosystem_types)) "models/m").1
    no_data "2024-01-01T00:00:00"
  = Linear.predict
      (Model.load_model (Model.init None)
         (Example.artifact_with
            (Example.metadata_with Model.default_feature_columns
               Model.default_ecosystem_types)) "models/m").1
      no_data "2024-01-01T00:00:00".
Proof.
  eapply (metadata_columns_do_not_change_predictions Linear.scaler_transform
            Linear.net_predict (Model.init None) _ _ "models/m"
            (Linear.constant_net 12) Linear.unit_scaler);
    vm_compute; reflexivity.
Defined.

(** ** The synthetic training data *)

Section SyntheticData.

Context {Rng : Type}.
Context (normal : Rng → Q → Q → float64 * Rng).
Context (uniform : Rng → Q → Q → float64 * Rng).

Lemma py_max_zero_never_negative (c : float64) :
  Spec.never_negative (F.py_max (Fin 0) c).
Proof.
  unfold Spec.never_negative, F.py_max, F.gtb.
  destruct c as [q|[]|]; cbn; try (split; [discriminate | reflexivity]).
  destruct (Qltb 0 q) eqn:E; cbn.
  - split; [discriminate|]. apply Qltb_lt in E. apply Qltb_ge. lra.
  - split; [discriminate | reflexivity].
Qed.

Ltac draws :=
  repeat match goal with
         | |- context [normal ?g ?a ?b] => destruct (normal g a b)
         | |- context [uniform ?g ?a ?b] => destruct (uniform g a b)
         end.

Lemma synthetic_sample_complete ecosystem g :
  Spec.complete_sample (Lifecycle.synthetic_sample normal uniform ecosystem g).1
  ∧ Spec.ecosystem_of (Lifecycle.synthetic_sample normal uniform ecosystem g).1
    = Some (VStr ecosystem).
Proof.
  unfold Lifecycle.synthetic_sample. draws.
  cbn [fst Lifecycle.sample_input Lifecycle.carbon_estimate].
  split; [split; [|split; [|split]]|].
  - eexists. split; [reflexivity | apply py_max_zero_never_negative].
  - vm_compute. reflexivity.
  - vm_compute. reflexivity.
  - intros table. unfold Model.prepare_features.
    cbn [satellite_data sensor_data field_measurements project_data default
         from_option id Model.ecosystem_types].
    repeat (apply Forall_cons; split;
            [first [ eexists; vm_compute; reflexivity | eexists; reflexivity ]|]).
    apply Forall_nil. done.
  - vm_compute. reflexivity.
Qed.

Lemma samples_of_complete n ecosystem g :
  Forall Spec.complete_sample (Lifecycle.samples_of normal uniform n ecosystem g).1
  ∧ Spec.ecosystem_of <$> (Lifecycle.samples_of normal uniform n ecosystem g).1
    = replicate n (Some (VStr ecosystem)).
Proof.
  revert g. induction n as [|n IH]; intros g; cbn [Lifecycle.samples_of].
  - split; [apply Forall_nil; done | reflexivity].
  - pose proof (synthetic_sample_complete ecosystem g) as [Hc He].
    destruct (Lifecycle.synthetic_sample normal uniform ecosystem g) as [s g1].
    specialize (IH g1).
    destruct (Lifecycle.samples_of normal uniform n ecosystem g1) as [rest g2].
    cbn [fst] in *. destruct IH as [IH1 IH2]. split.
    + apply Forall_cons. split; assumption.
    + cbn [fmap list_fmap replicate]. f_equal; assumption.
Qed.

Lemma for_ecosystems_complete names g :
  Forall Spec.complete_sample (Lifecycle.for_ecosystems normal uniform names g).1
  ∧ Spec.ecosystem_of <$> (Lifecycle.for_ecosystems normal uniform names g).1
    = mjoin ((λ name, replicate 250 (Some (VStr name))) <$> names).
Proof.
  revert g. induction names as [|name names IH]; intros g;
    cbn [Lifecycle.for_ecosystems].
  - split; [apply Forall_nil; done | reflexivity].
  - pose proof (samples_of_complete 250 name g) as [Hc He].
    destruct (Lifecycle.samples_of normal uniform 250 name g) as [block g1].
    specialize (IH g1).
    destruct (Lifecycle.for_ecosystems normal uniform names g1) as [rest g2].
    cbn [fst] in *. destruct IH as [IH1 IH2]. split.
    + apply Forall_app. split; assumption.
    + rewrite fmap_app, He, IH2. reflexivity.
Qed.

(** X19.  The synthetic training set holds 1000 samples: 250 of mangrove, then
    250 of saltmarsh, of seagrass and of tidal marsh, whatever the random
    generator draws.  Every sample is complete: its target is a float
    that is neither NaN nor below zero, the quality assessment of its
    input has no issue and the score 100, and all its features are
    floats. *)
Theorem synthetic_data_is_balanced_and_complete (g : Rng) :
  let data := (Lifecycle._generate_synthetic_training_data normal uniform g).1 in
  length data = 1000%nat
  ∧ Spec.ecosystem_of <$> data
    = mjoin ((λ name, replicate 250 (Some (VStr name)))
               <$> ["mangrove"; "saltmarsh"; "seagrass"; "tidal_marsh"]%string)
  ∧ Forall Spec.complete_sample data.
Proof.
  intros data.
  pose proof (for_ecosystems_complete Lifecycle.ecosystem_names g) as [Hc He].
  fold (Lifecycle._generate_synthetic_training_data normal uniform g) in Hc, He.
  fold data in Hc, He.
  split; [|split; assumption].
  rewrite <- (length_fmap Spec.ecosystem_of), He. reflexivity.
Qed.

End SyntheticData.

(** ** Training *)

Section TrainingProperties.

Context {Net Scaler History Seed : Type}.
Context (StandardScaler : Scaler).
Context (fit_transform :
  Scaler → list (list pyval) → Scaler * result (list (list float64))).
Context (transform : Scaler → list (list pyval) → result (list (list float64))).
Context (build_model : Seed → nat → Net * Seed).
Context (fit :
  Seed → Net → list (list float64) → list pyval →
  option (list (list float64) * list pyval) → Net * result History * Seed).
Context (scaler_transform : Scaler → list pyval → result (list float64)).
Context (net_predict : Net → list float64 → result float64).

Local Abbreviation train :=
  (Lifecycle.train StandardScaler fit_transform transform build_model fit).

Implicit Types (self : Model.t Net Scaler).

(** The feature rows depend on the object through its encoding table. *)
Lemma features_of_ext self1 self2 (samples : list Lifecycle.sample) :
  Model.ecosystem_types self1 = Model.ecosystem_types self2 →
  Lifecycle.features_of self1 samples = Lifecycle.features_of self2 samples.
Proof.
  intros H. unfold Lifecycle.features_of, Model.prepare_features.
  by rewrite H.
Qed.

(** [train] keeps the tables and the path, and always installs the
    scaler that [fit_transform] has worked on. *)
Lemma train_tables self training_data validation_data seed :
  let self' := (train self training_data validation_data seed).1.1 in
  Model.feature_columns self' = Model.feature_columns self
  ∧ Model.ecosystem_types self' = Model.ecosystem_types self
  ∧ Model.model_path self' = Model.model_path self
  ∧ Model.scaler self'
    = Some (fit_transform StandardScaler
              (Lifecycle.features_of self training_data)).1.
Proof.
  unfold Lifecycle.train.
  destruct (fit_transform _ _) as [s [Xs|e]]; [|by cbn].
  destruct (build_model seed _) as [net0 seed1].
  destruct (match validation_data with [] => _ | _ => _ end) as [v|e]; [|by cbn].
  destruct (fit _ _ _ _ _) as [[net h] seed2]. by cbn.
Qed.

(** Where [train] may stop. *)
Lemma train_model self training_data validation_data seed :
  let fitted :=
    fit_transform StandardScaler (Lifecycle.features_of self training_data) in
  let self' := (train self training_data validation_data seed).1.1 in
  match fitted.2 with
  | Err e =>
      (train self training_data validation_data seed).1.2 = Err e
      ∧ Model.model self' = Model.model self
  | Ok _ => is_Some (Model.model self')
  end.
Proof.
  unfold Lifecycle.train.
  destruct (fit_transform _ _) as [s [Xs|e]]; [|by cbn].
  destruct (build_model seed _) as [net0 seed1].
  destruct (match validation_data with [] => _ | _ => _ end) as [v|e];
    [|by cbn; eexists].
  destruct (fit _ _ _ _ _) as [[net h] seed2]. by cbn; eexists.
Qed.

(** X20.  Training starts from scratch.  [train] reads the object for
    its encoding table and for nothing else: two objects with the same
    table, trained on the same data from the same random state of keras,
    end with the same history or exception, the same scaler and the same
    random state, and when [train] returns, with the same network and
    the same predictions, whatever network and scaler each of them had
    before. *)
Theorem training_discards_previous_state self1 self2 training_data validation_data
    seed :
  Model.ecosystem_types self1 = Model.ecosystem_types self2 →
  let r1 := train self1 training_data validation_data seed in
  let r2 := train self2 training_data validation_data seed in
  r1.1.2 = r2.1.2
  ∧ r1.2 = r2.2
  ∧ Model.scaler r1.1.1 = Model.scaler r2.1.1
  ∧ ∀ history, r1.1.2 = Ok history →
      Model.model r1.1.1 = Model.model r2.1.1
      ∧ ∀ data now,
          Model.predict scaler_transform net_predict r1.1.1 data now
          = Model.predict scaler_transform net_predict r2.1.1 data now.
Proof.
  intros Ht. unfold Lifecycle.train.
  rewrite (features_of_ext self1 self2 training_data Ht).
  destruct (fit_transform _ _) as [s [Xs|e]]; [|by cbn].
  destruct (build_model seed _) as [net0 seed1].
  rewrite (features_of_ext
             (Lifecycle.with_model (Lifecycle.with_scaler self1 s) net0)
             (Lifecycle.with_model (Lifecycle.with_scaler self2 s) net0)
             validation_data Ht).
  destruct (match validation_data with [] => _ | _ => _ end) as [v|e]; [|by cbn].
  destruct (fit _ _ _ _ _) as [[net h] seed2]. cbn [fst snd].
  repeat split. intros. by apply predict_ext.
Qed.

(** X21.  A training that fails is not undone.  The object keeps its tables,
    but its scaler is the one [fit_transform] has worked on; when it is
    [fit_transform] that raised, the network is still the old one.  So
    an object that was trained still passes the check of [predict],
    with a scaler its network was not trained with. *)
Theorem failed_training_is_not_undone self training_data validation_data seed e :
  Model.trained self →
  (train self training_data validation_data seed).1.2 = Err e →
  let fitted :=
    fit_transform StandardScaler (Lifecycle.features_of self training_data) in
  let self' := (train self training_data validation_data seed).1.1 in
  Model.trained self'
  ∧ Model.scaler self' = Some fitted.1
  ∧ Model.ecosystem_types self' = Model.ecosystem_types self
  ∧ Model.feature_columns self' = Model.feature_columns self
  ∧ (raises fitted.2 → Model.model self' = Model.model self).
Proof.
  intros [Hm _] He fitted self'.
  pose proof (train_tables self training_data validation_data seed)
    as (Hc & Ht & _ & Hs).
  pose proof (train_model self training_data validation_data seed) as Hn.
  cbn zeta in Hn. fold fitted self' in Hn, Hs, Hc, Ht.
  repeat split; try assumption.
  - destruct fitted.2; [assumption|]. destruct Hn as [_ ->]. assumption.
  - rewrite Hs. by eexists.
  - intros [e' Hr]. rewrite Hr in Hn. by destruct Hn.
Qed.

(** X22.  When [train] returns, the object is trained: [predict] and
    [save_model] do not refuse it. *)
Theorem successful_training_gives_a_usable_model self training_data validation_data
    seed history fs path now :
  (train self training_data validation_data seed).1.2 = Ok history →
  let self' := (train self training_data validation_data seed).1.1 in
  Model.trained self'
  ∧ Model.ecosystem_types self' = Model.ecosystem_types self
  ∧ (Path.dirname path ≠ ""%string →
     ∃ fs', Model.save_model self' fs path now = Ok fs').
Proof.
  intros Hh self'.
  pose proof (train_tables self training_data validation_data seed)
    as (_ & Ht & _ & Hs).
  pose proof (train_model self training_data validation_data seed) as Hn.
  cbn zeta in Hn. fold self' in Hn, Hs, Ht.
  destruct (fit_transform StandardScaler _).2 as [Xs|e'] eqn:Hf.
  2:{ destruct Hn as [Hn _]. rewrite Hn in Hh. discriminate Hh. }
  assert (Htr : Model.trained self') by (split; [assumption | rewrite Hs; by eexists]).
  repeat split; try apply Htr; try assumption.
  intros Hd. unfold Model.save_model.
  destruct Htr as [[m ->] [s ->]].
  unfold Path.makedirs. destruct (Path.dirname path); [done|].
  cbn [bind]. by eexists.
Qed.

End TrainingProperties.

(** A trained model and a fresh one are trained into the same model. *)
Lemma training_discards_previous_state_witness :
  let r1 := Example.train (Linear.constant_model 12) [Example.measured] [] 7%N in
  let r2 := Example.train (Model.init None) [Example.measured] [] 7%N in
  r1.1.2 = r2.1.2
  ∧ Model.scaler r1.1.1 = Model.scaler r2.1.1
  ∧ Model.model r1.1.1 = Model.model r2.1.1.
Proof.
  destruct (training_discards_previous_state Example.unfitted Example.fit_transform
              Example.transform Example.build_model Example.fit
              Linear.scaler_transform Linear.net_predict
              (Linear.constant_model 12) (Model.init None) [Example.measured] []
              7%N eq_refl) as (H1 & _ & H2 & H3).
  split; [exact H1|]. split; [exact H2|].
  destruct (H3 1%nat) as [H4 _]; [vm_compute; reflexivity | exact H4].
Defined.

(** Training on a sample whose area is text fails in the scaler: the
    model keeps its network and has the new scaler. *)
Lemma failed_training_is_not_undone_witness :
  let self' :=
    (Example.train (Linear.constant_model 12) [Example.mistyped] [] 7%N).1.1 in
  raises (Example.train (Linear.constant_model 12) [Example.mistyped] [] 7%N).1.2
  ∧ Model.trained self'
  ∧ Model.scaler self' = Some Linear.unit_scaler
  ∧ Model.model self' = Some (Linear.constant_net 12).
Proof.
  intros self'.
  assert (He : ∃ e, (Example.train (Linear.constant_model 12) [Example.mistyped]
                       [] 7%N).1.2 = Err e) by (eexists; vm_compute; reflexivity).
  destruct He as [e He].
  assert (Ht : Model.trained (Linear.constant_model 12))
    by (split; eexists; reflexivity).
  destruct (failed_training_is_not_undone Example.unfitted Example.fit_transform
              Example.transform Example.build_model Example.fit
              (Linear.constant_model 12) [Example.mistyped] [] 7%N e Ht He)
    as (H1 & H2 & _ & _ & H3).
  split; [by exists e|]. split; [exact H1|]. split; [exact H2|].
  apply H3. eexists. vm_compute. reflexivity.
Defined.

(** A fresh object trained on one sample can be saved. *)
Lemma successful_training_gives_a_usable_model_witness :
  let self' := (Example.train (Model.init None) [Example.measured] [] 7%N).1.1 in
  Model.trained self'
  ∧ ∃ fs', Model.save_model self' ∅ "models/carbon_estimation" "2024-01-01T00:00:00"
           = Ok fs'.
Proof.
  intros self'.
  destruct (successful_training_gives_a_usable_model Example.unfitted
              Example.fit_transform Example.transform Example.build_model
              Example.fit (Model.init None) [Example.measured] [] 7%N 1%nat ∅
              "models/carbon_estimation" "2024-01-01T00:00:00")
    as (H1 & _ & H2); [vm_compute; reflexivity|].
  split; [exact H1|]. apply H2. vm_compute. discriminate.
Defined.

(** ** The life cycle of the service *)

Section LifecycleProperties.

Context {Net Scaler History Metrics Rng Seed : Type}.
Context (StandardScaler : Scaler).
Context (fit_transform :
  Scaler → list (list pyval) → Scaler * result (list (list float64))).
Context (transform : Scaler → list (list pyval) → result (list (list float64))).
Context (build_model : Seed → nat → Net * Seed).
Context (fit :
  Seed → Net → list (list float64) → list pyval →
  option (list (list float64) * list pyval) → Net * result History * Seed).
Context (normal : Rng → Q → Q → float64 * Rng).
Context (uniform : Rng → Q → Q → float64 * Rng).
Context (_calculate_performance_metrics : History → result Metrics).
Context (scaler_transform : Scaler → list pyval → result (list float64)).
Context (net_predict : Net → list float64 → result float64).

Local Abbreviation train :=
  (Lifecycle.train StandardScaler fit_transform transform build_model fit).
Local Abbreviation load_models :=
  (Lifecycle.load_models StandardScaler fit_transform transform build_model fit
     normal uniform).
Local Abbreviation retrain_model :=
  (Lifecycle.retrain_model StandardScaler fit_transform transform build_model fit
     _calculate_performance_metrics).
Local Abbreviation predict_carbon_sequestration :=
  (Service.predict_carbon_sequestration scaler_transform net_predict).

Implicit Types (svc : Service.t Net Scaler) (m : Model.t Net Scaler).
Implicit Types (fs : gmap string (Model.file Net Scaler)).
Implicit Types (g : Rng) (seed : Seed).

Lemma serves_predict svc1 svc2 m satellite sensor field project now :
  Spec.serves svc1 m → Spec.serves svc2 m →
  predict_carbon_sequestration svc1 satellite sensor field project now
  = predict_carbon_sequestration svc2 satellite sensor field project now.
Proof.
  intros (L1 & m1 & C1 & M1 & S1 & T1) (L2 & m2 & C2 & M2 & S2 & T2).
  unfold Service.predict_carbon_sequestration.
  rewrite L1, L2, C1, C2.
  rewrite (predict_ext scaler_transform net_predict m1 m2); [reflexivity|..];
    congruence.
Qed.

Lemma saved_path_not_empty m fs path now fs' :
  Model.save_model m fs path now = Ok fs' → Path.makedirs path = Ok tt.
Proof.
  unfold Model.save_model. destruct path; [|reflexivity].
  destruct (Model.model m); [|discriminate].
  destruct (Model.scaler m); discriminate.
Qed.

(** Starting on a directory that holds a saved artifact. *)
Lemma load_models_saved svc m fs fs' saved_at g seed now :
  Model.save_model m fs (Service.model_path svc) saved_at = Ok fs' →
  ∃ svc',
    load_models svc fs' g seed now = (svc', fs', g, seed, Ok tt)
    ∧ Service.model_path svc' = Service.model_path svc
    ∧ Service.last_update svc' = Service.last_update svc
    ∧ Spec.serves svc' m.
Proof.
  intros Hsave. unfold Lifecycle.load_models.
  rewrite (saved_path_not_empty _ _ _ _ _ Hsave).
  destruct (save_model_ok_inv _ _ _ _ _ Hsave) as (n & s & Hm & Hs & Fm & Fs & Fj).
  unfold Lifecycle.path_exists. rewrite Fm, Fs.
  rewrite !bool_decide_eq_true_2 by (by eexists). cbn [andb].
  rewrite (load_model_complete _ _ _ _ _ _ Fm Fs Fj).
  eexists. split; [reflexivity|]. split; [reflexivity|]. split; [reflexivity|].
  split; [reflexivity|]. eexists. split; [reflexivity|].
  cbn. by rewrite Hm, Hs.
Qed.

Lemma serves_itself svc m :
  Service.model_loaded svc = true → Service.carbon_model svc = Some m →
  Spec.serves svc m.
Proof. intros H1 H2. split; [exact H1|]. by exists m. Qed.


(** X24.  A directory with the model and the scaler but without the metadata
    makes the start fail: [load_models] looks for the first two files
    only, so it does not train a sample model, and [load_model] then
    raises on the third.  The store is untouched and the service is not
    marked as loaded, so a fresh service refuses every prediction. *)
Theorem startup_without_metadata_fails svc fs g seed now net s :
  Service.model_path svc ≠ ""%string →
  fs !! Path.join (Service.model_path svc) Model.model_file
    = Some (Model.H5File net) →
  fs !! Path.join (Service.model_path svc) Model.scaler_file
    = Some (Model.PklFile s) →
  fs !! Path.join (Service.model_path svc) Model.metadata_file = None →
  ∃ svc',
    load_models svc fs g seed now
    = (svc', fs, g, seed,
       Err (FileNotFoundError
              (Path.join (Service.model_path svc) Model.metadata_file)))
    ∧ Service.model_loaded svc' = Service.model_loaded svc
    ∧ (Service.model_loaded svc = false →
       ∀ satellite sensor field project t,
         predict_carbon_sequestration svc' satellite sensor field project t
         = Err (ValueError "Model not loaded")).
Proof.
  intros Hp Fm Fs Fj. unfold Lifecycle.load_models.
  unfold Path.makedirs. destruct (Service.model_path svc) eqn:Hpath; [done|].
  rewrite <- Hpath in *.
  unfold Lifecycle.path_exists. rewrite Fm, Fs.
  rewrite !bool_decide_eq_true_2 by (by eexists). cbn [andb].
  unfold Model.load_model. rewrite Fm, Fs, Fj.
  eexists. split; [reflexivity|]. split; [reflexivity|].
  intros Hl. intros. unfold Service.predict_carbon_sequestration.
  cbn [Lifecycle.with_carbon_model Service.model_loaded]. by rewrite Hl.
Qed.

(** X25.  The first start.  When the model file or the scaler file is not
    there and [load_models] returns, the service has been trained on the
    synthetic data, the generator has been used for these draws alone,
    and the artifact has been written: every later start on the store, by
    a service with the same directory, loads it without training and
    predicts what this service predicts. *)
Theorem bootstrap_then_restart svc fs g seed now svc' fs' g' seed' :
  fs !! Path.join (Service.model_path svc) Model.model_file = None
  ∨ fs !! Path.join (Service.model_path svc) Model.scaler_file = None →
  load_models svc fs g seed now = (svc', fs', g', seed', Ok tt) →
  let synthetic := Lifecycle._generate_synthetic_training_data normal uniform g in
  let trained := train (Model.init None) synthetic.1 [] seed in
  Service.model_loaded svc' = true
  ∧ g' = synthetic.2
  ∧ seed' = trained.2
  ∧ Service.carbon_model svc' = Some trained.1.1
  ∧ ∀ svc0 g0 seed0 now0,
      Service.model_path svc0 = Service.model_path svc →
      ∃ svc'',
        load_models svc0 fs' g0 seed0 now0 = (svc'', fs', g0, seed0, Ok tt)
        ∧ ∀ satellite sensor field project t,
            predict_carbon_sequestration svc'' satellite sensor field project t
            = predict_carbon_sequestration svc' satellite sensor field project t.
Proof.
  intros Hmissing. unfold Lifecycle.load_models at 1.
  destruct (Path.makedirs (Service.model_path svc)); [|discriminate].
  assert (Hex : Lifecycle.path_exists fs
                  (Path.join (Service.model_path svc) Model.model_file)
                && Lifecycle.path_exists fs
                     (Path.join (Service.model_path svc) Model.scaler_file)
                = false).
  { unfold Lifecycle.path_exists. destruct Hmissing as [-> | ->].
    - rewrite bool_decide_eq_false_2; [reflexivity|]. by intros [? ?].
    - rewrite (bool_decide_eq_false_2 (is_Some None)) by (by intros [? ?]).
      apply andb_false_r. }
  rewrite Hex. unfold Lifecycle._create_sample_model.
  destruct (Lifecycle._generate_synthetic_training_data normal uniform g)
    as [training_data g1].
  destruct (train (Model.init None) training_data [] seed) as [[m [h|e]] seed1]
    eqn:Htrain; [|discriminate].
  cbn [Lifecycle.with_carbon_model Service.model_path].
  destruct (Model.save_model m fs (Service.model_path svc) now) as [fs1|e] eqn:Hsave;
    [|discriminate].
  intros H. injection H as <- <- <- <-. cbn [fst snd].
  split; [reflexivity|]. split; [reflexivity|].
  split; [by rewrite Htrain|]. split; [by rewrite Htrain|].
  intros svc0 g0 seed0 now0 Hpath. rewrite <- Hpath in Hsave.
  destruct (load_models_saved svc0 m fs fs1 now g0 seed0 now0 Hsave)
    as (svc'' & Hl & _ & _ & Hs).
  exists svc''. split; [exact Hl|].
  intros. apply (serves_predict _ _ m); [exact Hs|].
  by apply serves_itself.
Qed.

(** X26.  A retraining that returns has saved what it serves.  The result
    counts the new samples, the service and the result carry the same
    time of update, and every later start on the store loads a model
    that predicts what the retrained service predicts. *)
Theorem retrain_persists_the_served_model svc fs seed new_data saved_at updated_at
    svc' fs' seed' result :
  retrain_model svc fs seed new_data saved_at updated_at
  = (svc', fs', seed', Ok result) →
  Lifecycle.status result = "success"%string
  ∧ Lifecycle.samples_used result = length new_data
  ∧ Lifecycle.last_update result = updated_at
  ∧ Service.last_update svc' = Some updated_at
  ∧ Service.model_loaded svc' = true
  ∧ ∀ svc0 g0 seed0 now0,
      Service.model_path svc0 = Service.model_path svc →
      ∃ svc'',
        load_models svc0 fs' g0 seed0 now0 = (svc'', fs', g0, seed0, Ok tt)
        ∧ ∀ satellite sensor field project t,
            predict_carbon_sequestration svc'' satellite sensor field project t
            = predict_carbon_sequestration svc' satellite sensor field project t.
Proof.
  unfold Lifecycle.retrain_model.
  destruct (Service.model_loaded svc) eqn:Hloaded; [|discriminate].
  destruct (Service.carbon_model svc) as [m0|]; [|discriminate].
  destruct (train m0 new_data [] seed) as [[m [h|e]] seed1]; [|discriminate].
  cbn [Lifecycle.with_carbon_model Service.model_path].
  destruct (Model.save_model m fs (Service.model_path svc) saved_at)
    as [fs1|e] eqn:Hsave; [|discriminate].
  destruct (_calculate_performance_metrics h) as [pm|e]; [|discriminate].
  intros H. injection H as <- <- <- <-.
  cbn [Lifecycle.status Lifecycle.samples_used Lifecycle.last_update
       Lifecycle.with_last_update Lifecycle.with_carbon_model
       Service.last_update Service.model_loaded].
  repeat (split; [reflexivity || exact Hloaded|]).
  intros svc0 g0 seed0 now0 Hpath. rewrite <- Hpath in Hsave.
  destruct (load_models_saved svc0 m fs fs1 saved_at g0 seed0 now0 Hsave)
    as (svc'' & Hl & _ & _ & Hs).
  exists svc''. split; [exact Hl|].
  intros. apply (serves_predict _ _ m); [exact Hs|].
  by apply serves_itself.
Qed.

(** X27.  A retraining that fails in training is served all the same.  The
    store and the time of update are as before and the service stays
    loaded, but it now holds the object as the failed training left it:
    the scaler is the one [fit_transform] has worked on, and when it is
    [fit_transform] that raised, the network is still the old one.  A
    restart would bring the stored model back. *)
Theorem failed_retrain_is_served svc m fs seed new_data saved_at updated_at e :
  Service.model_loaded svc = true →
  Service.carbon_model svc = Some m →
  (train m new_data [] seed).1.2 = Err e →
  let fitted := fit_transform StandardScaler (Lifecycle.features_of m new_data) in
  ∃ svc' m',
    retrain_model svc fs seed new_data saved_at updated_at
    = (svc', fs, (train m new_data [] seed).2, Err e)
    ∧ Service.model_loaded svc' = true
    ∧ Service.last_update svc' = Service.last_update svc
    ∧ Service.carbon_model svc' = Some m'
    ∧ Model.scaler m' = Some fitted.1
    ∧ Model.ecosystem_types m' = Model.ecosystem_types m
    ∧ (raises fitted.2 → Model.model m' = Model.model m).
Proof.
  intros Hl Hc He fitted. unfold Lifecycle.retrain_model. rewrite Hl, Hc.
  pose proof (train_tables StandardScaler fit_transform transform build_model fit
                m new_data [] seed) as (_ & Ht & _ & Hs).
  pose proof (train_model StandardScaler fit_transform transform build_model fit
                m new_data [] seed) as Hn.
  cbn zeta in Hn, Ht, Hs. fold fitted in Hn, Hs.
  destruct (train m new_data [] seed) as [[m' h] seed1]. cbn [fst snd] in *. subst h.
  eexists _, m'. split; [reflexivity|].
  cbn [Lifecycle.with_carbon_model Service.model_loaded Service.last_update
       Service.carbon_model].
  repeat (split; [reflexivity || assumption|]).
  intros [e' Hr]. rewrite Hr in Hn. by destruct Hn.
Qed.

End LifecycleProperties.


(** A fresh service on a directory without the metadata. *)
Lemma startup_without_metadata_fails_witness :
  ∃ svc',
    Example.load_models Example.service Example.headless_artifact 0%N 7%N
      "2024-01-02T00:00:00"
    = (svc', Example.headless_artifact, 0%N, 7%N,
       Err (FileNotFoundError "models/carbon_estimation/metadata.json"))
    ∧ ∀ satellite sensor field project t,
        Service.predict_carbon_sequestration Linear.scaler_transform
          Linear.net_predict svc' satellite sensor field project t
        = Err (ValueError "Model not loaded").
Proof.
  destruct (startup_without_metadata_fails Example.unfitted Example.fit_transform
              Example.transform Example.build_model Example.fit
              Example.normal Example.uniform
              Linear.scaler_transform Linear.net_predict
              Example.service Example.headless_artifact 0%N 7%N
              "2024-01-02T00:00:00" (Linear.constant_net 12) Linear.unit_scaler)
    as (svc' & Hl & _ & Hp);
    [discriminate | vm_compute; reflexivity | vm_compute; reflexivity
     | vm_compute; reflexivity |].
  exists svc'. split; [exact Hl | apply Hp; reflexivity].
Defined.

(** A fresh service on an empty store trains on the 1000 samples, for
    which the generator is asked 14000 times, and a second service then
    starts on what the first one has written. *)
Lemma bootstrap_then_restart_witness :
  ∃ svc' fs' svc'',
    Example.load_models Example.service ∅ 0%N 7%N "2024-01-01T00:00:00"
    = (svc', fs', 14000%N, 9%N, Ok tt)
    ∧ Service.model_loaded svc' = true
    ∧ Example.load_models Example.service fs' 7%N 3%N "2024-01-02T00:00:00"
      = (svc'', fs', 7%N, 3%N, Ok tt).
Proof.
  assert (Hr : (Example.load_models Example.service ∅ 0%N 7%N
                  "2024-01-01T00:00:00").2 = Ok tt) by (vm_compute; reflexivity).
  assert (Hg : (Example.load_models Example.service ∅ 0%N 7%N
                  "2024-01-01T00:00:00").1.1.2 = 14000%N)
    by (vm_compute; reflexivity).
  assert (Hs : (Example.load_models Example.service ∅ 0%N 7%N
                  "2024-01-01T00:00:00").1.2 = 9%N) by (vm_compute; reflexivity).
  destruct (Example.load_models Example.service ∅ 0%N 7%N "2024-01-01T00:00:00")
    as [[[[svc' fs'] g'] seed'] r] eqn:Hl.
  cbn [fst snd] in Hr, Hg, Hs. subst r g' seed'.
  destruct (bootstrap_then_restart Example.unfitted Example.fit_transform
              Example.transform Example.build_model Example.fit
              Example.normal Example.uniform
              Linear.scaler_transform Linear.net_predict
              Example.service ∅ 0%N 7%N "2024-01-01T00:00:00" svc' fs' 14000%N 9%N
              (or_introl (lookup_empty _)) Hl)
    as (Hm & _ & _ & _ & Hrestart).
  destruct (Hrestart Example.service 7%N 3%N "2024-01-02T00:00:00" eq_refl)
    as (svc'' & Hl' & _).
  exists svc', fs', svc''. split; [reflexivity|]. split; [exact Hm | exact Hl'].
Defined.

(** The loaded service is retrained on one sample, and a fresh service
    starts on what the retraining has written. *)
Lemma retrain_persists_the_served_model_witness :
  ∃ svc' fs' seed' result svc'',
    Example.retrain_model Example.loaded_service ∅ 7%N [Example.measured]
      "2024-01-01T00:00:00" "2024-01-01T00:00:01" = (svc', fs', seed', Ok result)
    ∧ Lifecycle.samples_used result = 1%nat
    ∧ Service.last_update svc' = Some "2024-01-01T00:00:01"%string
    ∧ Example.load_models Example.service fs' 0%N 3%N "2024-01-02T00:00:00"
      = (svc'', fs', 0%N, 3%N, Ok tt).
Proof.
  assert (Hr : ∃ result,
             (Example.retrain_model Example.loaded_service ∅ 7%N [Example.measured]
                "2024-01-01T00:00:00" "2024-01-01T00:00:01").2 = Ok result)
    by (eexists; vm_compute; reflexivity).
  destruct Hr as [result Hr].
  destruct (Example.retrain_model Example.loaded_service ∅ 7%N [Example.measured]
              "2024-01-01T00:00:00" "2024-01-01T00:00:01")
    as [[[svc' fs'] seed'] r] eqn:Hl.
  cbn [snd] in Hr. subst r.
  destruct (retrain_persists_the_served_model Example.unfitted Example.fit_transform
              Example.transform Example.build_model Example.fit
              Example.normal Example.uniform Example.metrics
              Linear.scaler_transform Linear.net_predict
              Example.loaded_service ∅ 7%N [Example.measured]
              "2024-01-01T00:00:00" "2024-01-01T00:00:01" svc' fs' seed' result Hl)
    as (_ & Hn & _ & Hu & _ & Hrestart).
  destruct (Hrestart Example.service 0%N 3%N "2024-01-02T00:00:00" eq_refl)
    as (svc'' & Hl' & _).
  exists svc', fs', seed', result, svc''.
  split; [reflexivity|]. split; [exact Hn|]. split; [exact Hu | exact Hl'].
Defined.

(** The loaded service is retrained on a sample whose area is text: the
    call fails, the store stays empty, and the service now holds the
    old network with the new scaler. *)
Lemma failed_retrain_is_served_witness :
  ∃ svc' m' seed' e,
    Example.retrain_model Example.loaded_service ∅ 7%N [Example.mistyped]
      "2024-01-01T00:00:00" "2024-01-01T00:00:01" = (svc', ∅, seed', Err e)
    ∧ Service.carbon_model svc' = Some m'
    ∧ Model.model m' = Some (Linear.constant_net 12)
    ∧ Model.scaler m' = Some Linear.unit_scaler.
Proof.
  assert (He : ∃ e, (Example.train (Linear.constant_model 12) [Example.mistyped]
                       [] 7%N).1.2 = Err e) by (eexists; vm_compute; reflexivity).
  destruct He as [e He].
  destruct (failed_retrain_is_served Example.unfitted Example.fit_transform
              Example.transform Example.build_model Example.fit Example.metrics
              Example.loaded_service (Linear.constant_model 12) ∅ 7%N
              [Example.mistyped] "2024-01-01T00:00:00" "2024-01-01T00:00:01" e
              eq_refl eq_refl He)
    as (svc' & m' & Hl & _ & _ & Hc & Hs & _ & Hm).
  exists svc', m'. eexists. exists e. split; [exact Hl|]. split; [exact Hc|].
  split; [|exact Hs].
  apply Hm. eexists. vm_compute. reflexivity.
Defined.

(** ** Validation on test data *)

Section ValidationProperties.

Context {Net Scaler : Type}.
Context (scaler_transform : Scaler → list pyval → result (list float64)).
Context (net_predict : Net → list float64 → result float64).
Context (np_sqrt : float64 → float64).

Local Abbreviation validate_model_performance :=
  (Validation.validate_model_performance scaler_transform net_predict np_sqrt).
Local Abbreviation estimate_of := (Spec.estimate_of scaler_transform net_predict).
Local Abbreviation target_of := (Spec.target_of scaler_transform net_predict).
Local Abbreviation step := (Validation.step scaler_transform net_predict).

Implicit Types (svc : Service.t Net Scaler) (s : Validation.test_sample).
Implicit Types (test_data : list Validation.test_sample).

(** One round of the loop. *)
Lemma step_spec svc now predictions actual_values s :
  step svc now (predictions, actual_values) s
  = (predictions ++ option_list (estimate_of svc now s),
     actual_values ++ option_list (target_of svc now s)).
Proof.
  unfold Validation.step, Spec.target_of, Spec.estimate_of.
  destruct (Validation.sample_input s) as [[sat|] [sen|] [fld|] [prj|]];
    cbn [satellite_data sensor_data field_measurements project_data];
    rewrite ?app_nil_r; try reflexivity.
  destruct (Service.predict_carbon_sequestration _ _ _ _ _ _ _ _) as [[p a]|e];
    cbn [option_list]; rewrite ?app_nil_r; [|reflexivity].
  destruct (Validation.carbon_estimate s); cbn [option_list];
    rewrite ?app_nil_r; reflexivity.
Qed.

Lemma not_loaded_no_estimate svc now s :
  Service.model_loaded svc = false → estimate_of svc now s = None.
Proof.
  intros Hl. unfold Spec.estimate_of.
  destruct (Validation.sample_input s) as [[sat|] [sen|] [fld|] [prj|]];
    cbn [satellite_data sensor_data field_measurements project_data];
    try reflexivity.
  unfold Service.predict_carbon_sequestration. by rewrite Hl.
Qed.

Lemma omap_cons_option_list {A B : Type} (f : A → option B) (x : A) (l : list A) :
  omap f (x :: l) = option_list (f x) ++ omap f l.
Proof. cbn. by destruct (f x). Qed.

(** The two lists at the end of the loop. *)
Lemma loop_spec svc now test_data predictions actual_values :
  foldl (step svc now) (predictions, actual_values) test_data
  = (predictions ++ omap (estimate_of svc now) test_data,
     actual_values ++ omap (target_of svc now) test_data).
Proof.
  revert predictions actual_values.
  induction test_data as [|s test_data IH]; intros predictions actual_values.
  - cbn. by rewrite !app_nil_r.
  - cbn [foldl]. rewrite step_spec, IH, !omap_cons_option_list, <- !app_assoc.
    reflexivity.
Qed.

Lemma targets_le_estimates svc now test_data :
  (length (omap (target_of svc now) test_data)
   ≤ length (omap (estimate_of svc now) test_data))%nat.
Proof.
  induction test_data as [|s test_data IH]; [reflexivity|].
  rewrite !omap_cons_option_list, !length_app.
  set (targets := omap (target_of svc now) test_data) in *.
  set (estimates := omap (estimate_of svc now) test_data) in *.
  unfold Spec.target_of.
  destruct (estimate_of svc now s); cbn; [|lia].
  destruct (Validation.carbon_estimate s); cbn; lia.
Qed.

Lemma targets_eq_estimates svc now test_data :
  Forall (λ s, is_Some (Validation.carbon_estimate s)) test_data →
  length (omap (target_of svc now) test_data)
  = length (omap (estimate_of svc now) test_data).
Proof.
  induction 1 as [|s test_data [a Ha] _ IH]; [reflexivity|].
  rewrite !omap_cons_option_list, !length_app, IH. unfold Spec.target_of at 1.
  rewrite Ha. by destruct (estimate_of svc now s).
Qed.

Lemma estimates_le_samples svc now test_data :
  (length (omap (estimate_of svc now) test_data) ≤ length test_data)%nat.
Proof.
  induction test_data as [|s test_data IH]; [reflexivity|].
  rewrite omap_cons_option_list, length_app.
  destruct (estimate_of svc now s); cbn; lia.
Qed.

(** A test sample that has an estimate and a target sits at the same
    place in the two lists, when no estimated sample before it lacks
    its target. *)
Lemma estimate_and_target_aligned svc now test_data s e a :
  Forall (λ s, is_Some (Validation.carbon_estimate s)) test_data →
  s ∈ test_data →
  estimate_of svc now s = Some e →
  Validation.carbon_estimate s = Some a →
  ∃ i, omap (estimate_of svc now) test_data !! i = Some e
       ∧ omap (target_of svc now) test_data !! i = Some a.
Proof.
  intros Hall Hin He Ha.
  induction Hall as [|s0 test_data [a0 Ha0] _ IH]; [by apply elem_of_nil in Hin|].
  apply elem_of_cons in Hin as [<- | Hin].
  - exists 0%nat. rewrite !omap_cons_option_list. unfold Spec.target_of.
    rewrite He, Ha. split; reflexivity.
  - destruct (IH Hin) as (i & H1 & H2).
    rewrite !omap_cons_option_list. unfold Spec.target_of at 1.
    destruct (estimate_of svc now s0) as [e0|].
    + rewrite Ha0. exists (S i). split; assumption.
    + exists i. split; assumption.
Qed.

Lemma broadcast_same_length f (a b : list float64) :
  length a = length b → Validation.broadcast f a b = Ok (zip_with f a b).
Proof.
  intros H. unfold Validation.broadcast.
  by rewrite (proj2 (Nat.eqb_eq _ _) H).
Qed.

(** What is not a number stays so. *)
Lemma div_by_zero_not_finite (x : float64) (z : Q) :
  z == 0 → ¬ F.finite (F.div x (Fin z)).
Proof.
  intros Hz [q Hq]. destruct x as [a|sg|]; cbn in Hq; try discriminate.
  rewrite (proj2 (Qeq_bool_iff z 0) Hz) in Hq.
  destruct (Qeq_bool a 0); discriminate.
Qed.

Lemma abs_not_finite (x : float64) : ¬ F.finite x → ¬ F.finite (F.abs x).
Proof.
  intros H [q Hq]. destruct x as [a|sg|]; cbn in Hq; try discriminate.
  apply H. by exists a.
Qed.

Lemma add_not_finite (x y : float64) :
  ¬ F.finite x ∨ ¬ F.finite y → ¬ F.finite (F.add x y).
Proof.
  intros H [q Hq].
  destruct x as [a|sa|], y as [b|sb|]; cbn in Hq; try discriminate.
  - destruct H as [H|H]; apply H; by eexists.
  - destruct (Bool.eqb sa sb); discriminate.
Qed.

Lemma sum_not_finite (l : list float64) (x : float64) :
  x ∈ l → ¬ F.finite x → ¬ F.finite (Validation.np_sum l).
Proof.
  intros Hin Hx. induction l as [|y l IH]; [by apply elem_of_nil in Hin|].
  cbn [Validation.np_sum foldr]. apply add_not_finite.
  apply elem_of_cons in Hin as [<- | Hin]; [by left | right; by apply IH].
Qed.

Lemma mean_not_finite (l : list float64) (x : float64) :
  x ∈ l → ¬ F.finite x → ¬ F.finite (Validation.np_mean l).
Proof.
  intros Hin Hx [q Hq]. pose proof (sum_not_finite l x Hin Hx) as Hs.
  unfold Validation.np_mean in Hq.
  destruct (Validation.np_sum l) as [a|sg|]; cbn in Hq; try discriminate.
  apply Hs. by eexists.
Qed.

Lemma percent_not_finite (x : float64) :
  ¬ F.finite x → ¬ F.finite (F.mul x (Fin 100)).
Proof.
  intros H [q Hq]. destruct x as [a|sg|]; cbn in Hq; try discriminate.
  apply H. by eexists.
Qed.

(** The metrics are computed when every sample carries its target. *)
Lemma validate_with_targets svc test_data now validated_at :
  Forall (λ s, is_Some (Validation.carbon_estimate s)) test_data →
  let estimates := omap (estimate_of svc now) test_data in
  let targets := omap (target_of svc now) test_data in
  validate_model_performance svc test_data now validated_at
  = match estimates with
    | [] => Ok Validation.NoValidPredictions
    | _ =>
        let residuals := zip_with F.sub targets estimates in
        Ok (Validation.Validated
              {| Validation.total_samples := length test_data;
                 Validation.valid_predictions := length estimates;
                 Validation.mae :=
                   Validation.np_mean (F.abs <$> zip_with F.sub estimates targets);
                 Validation.mse :=
                   Validation.np_mean
                     (Validation.square <$> zip_with F.sub estimates targets);
                 Validation.rmse :=
                   np_sqrt
                     (Validation.np_mean
                        (Validation.square <$> zip_with F.sub estimates targets));
                 Validation.mape :=
                   F.mul
                     (Validation.np_mean
                        (F.abs <$> zip_with F.div residuals targets))
                     (Fin 100);
                 Validation.r_squared :=
                   if F.gtb
                        (Validation.np_sum
                           (Validation.square
                              <$> ((λ a, F.sub a (Validation.np_mean targets))
                                     <$> targets)))
                        (Fin 0)
                   then F.sub (Fin 1)
                          (F.div
                             (Validation.np_sum (Validation.square <$> residuals))
                             (Validation.np_sum
                                (Validation.square
                                   <$> ((λ a, F.sub a (Validation.np_mean targets))
                                          <$> targets))))
                   else Fin 0;
                 Validation.validation_timestamp := validated_at |})
    end.
Proof.
  intros Hall estimates targets.
  pose proof (targets_eq_estimates svc now test_data Hall) as Hlen.
  fold estimates targets in Hlen.
  unfold Validation.validate_model_performance.
  rewrite loop_spec. cbn [app]. fold estimates targets.
  destruct estimates as [|e rest]; [reflexivity|].
  rewrite (broadcast_same_length F.sub (e :: rest) targets) by done.
  cbn [bind].
  rewrite (broadcast_same_length F.sub targets (e :: rest)) by done.
  cbn [bind].
  rewrite (broadcast_same_length F.div _ targets)
    by (rewrite length_zip_with; lia).
  reflexivity.
Qed.

(** X28.  Validation does not raise on samples that carry their targets.  A
    sample that lacks a group, or on which the service raises, is left
    out without a word: the report counts every sample in
    [total_samples] and the estimated ones in [valid_predictions], which
    is at least one.  When no sample is estimated, as with a service
    that is not loaded, the error report is returned instead. *)
Theorem validation_skips_failed_samples svc test_data now validated_at :
  Forall (λ s, is_Some (Validation.carbon_estimate s)) test_data →
  let estimated := omap (estimate_of svc now) test_data in
  (estimated = [] →
   validate_model_performance svc test_data now validated_at
   = Ok Validation.NoValidPredictions)
  ∧ (estimated ≠ [] →
     ∃ r, validate_model_performance svc test_data now validated_at
          = Ok (Validation.Validated r)
          ∧ Validation.total_samples r = length test_data
          ∧ Validation.valid_predictions r = length estimated
          ∧ (0 < Validation.valid_predictions r ≤ Validation.total_samples r)%nat)
  ∧ (Service.model_loaded svc = false → estimated = []).
Proof.
  intros Hall estimated.
  pose proof (validate_with_targets svc test_data now validated_at Hall) as Hv.
  cbn zeta in Hv. fold estimated in Hv.
  pose proof (estimates_le_samples svc now test_data) as Hle.
  fold estimated in Hle.
  split; [|split].
  - intros He. by rewrite He in Hv.
  - intros He. destruct estimated as [|e estimated]; [done|].
    eexists. split; [exact Hv|]. cbn in *. repeat split; lia.
  - intros Hl. subst estimated. clear Hall Hv Hle.
    induction test_data as [|s test_data IH]; [reflexivity|].
    by rewrite omap_cons_option_list, IH, (not_loaded_no_estimate _ _ _ Hl).
Qed.

(** X29.  A target of zero spoils the percentage error.  When a sample that
    is estimated has the target 0, [mape] is not a number in the report
    (it is infinite, or NaN): the error is divided by the target as it
    is. *)
Theorem zero_target_makes_mape_not_finite svc test_data now validated_at r s e z :
  Forall (λ s, is_Some (Validation.carbon_estimate s)) test_data →
  validate_model_performance svc test_data now validated_at
  = Ok (Validation.Validated r) →
  s ∈ test_data →
  estimate_of svc now s = Some e →
  Validation.carbon_estimate s = Some (Fin z) →
  z == 0 →
  ¬ F.finite (Validation.mape r).
Proof.
  intros Hall Hv Hin He Ha Hz.
  rewrite (validate_with_targets svc test_data now validated_at Hall) in Hv.
  cbn zeta in Hv.
  destruct (estimate_and_target_aligned svc now test_data s e (Fin z)
              Hall Hin He Ha) as (i & Hi & Hj).
  destruct (omap (estimate_of svc now) test_data) as [|e0 rest] eqn:Hes;
    [discriminate|].
  injection Hv as Hv. subst r. cbn [Validation.mape].
  apply percent_not_finite.
  apply (mean_not_finite _ (F.abs (F.div (F.sub (Fin z) e) (Fin z)))).
  - apply list_elem_of_fmap. eexists. split; [reflexivity|].
    apply list_elem_of_lookup. exists i.
    rewrite lookup_zip_with, lookup_zip_with, Hi, Hj. reflexivity.
  - apply abs_not_finite, div_by_zero_not_finite, Hz.
Qed.

(** X30.  A sample without its target is not left out.  Its estimate is in
    the list before the missing key is met, so the two arrays differ in
    length; with two targets or more, the call raises the [ValueError]
    of numpy outside the loop that logs the errors. *)
Theorem missing_target_breaks_the_metrics svc test_data now validated_at s e :
  s ∈ test_data →
  estimate_of svc now s = Some e →
  Validation.carbon_estimate s = None →
  (2 ≤ length (omap (target_of svc now) test_data))%nat →
  validate_model_performance svc test_data now validated_at
  = Err (ValueError "operands could not be broadcast together").
Proof.
  intros Hin He Ha Htwo.
  assert (Hlt : (length (omap (target_of svc now) test_data)
                 < length (omap (estimate_of svc now) test_data))%nat).
  { clear Htwo. induction test_data as [|s0 test_data IH];
      [by apply elem_of_nil in Hin|].
    rewrite !omap_cons_option_list, !length_app.
    pose proof (targets_le_estimates svc now test_data) as Hle.
    apply elem_of_cons in Hin as [<- | Hin].
    - unfold Spec.target_of at 1. rewrite He, Ha. cbn. lia.
    - specialize (IH Hin). unfold Spec.target_of at 1.
      destruct (estimate_of svc now s0); cbn; [|lia].
      destruct (Validation.carbon_estimate s0); cbn; lia. }
  unfold Validation.validate_model_performance.
  rewrite loop_spec. cbn [app].
  destruct (omap (estimate_of svc now) test_data) as [|e1 [|e2 [|e3 estimates]]];
    cbn [length] in Hlt; try lia.
  destruct (omap (target_of svc now) test_data) as [|a1 [|a2 targets]];
    cbn [length] in Htwo, Hlt; try lia.
  unfold Validation.broadcast at 1. cbn [length].
  destruct (S (S (S (length estimates))) =? S (S (length targets)))%nat eqn:E;
    [apply Nat.eqb_eq in E; lia | reflexivity].
Qed.

End ValidationProperties.

(** The loaded service on three samples, one without sensor data: two
    are estimated. *)
Lemma validation_skips_failed_samples_witness :
  ∃ r,
    Example.validate_model_performance Example.loaded_service
      [Example.tested (Some (Fin 12)); Example.untested;
       Example.tested (Some (Fin 10))]
      "2024-01-01T00:00:00" "2024-01-01T00:00:01"
    = Ok (Validation.Validated r)
    ∧ Validation.total_samples r = 3%nat
    ∧ Validation.valid_predictions r = 2%nat.
Proof.
  destruct (validation_skips_failed_samples Linear.scaler_transform
              Linear.net_predict Example.np_sqrt Example.loaded_service
              [Example.tested (Some (Fin 12)); Example.untested;
               Example.tested (Some (Fin 10))]
              "2024-01-01T00:00:00" "2024-01-01T00:00:01")
    as (_ & H & _).
  - repeat (apply Forall_cons; split; [by eexists|]). apply Forall_nil. done.
  - destruct H as (r & Hr & Ht & Hv & _); [vm_compute; discriminate|].
    exists r. split; [exact Hr|]. split; [exact Ht|].
    rewrite Hv. vm_compute. reflexivity.
Defined.

(** A sample with the target 0: the percentage error is infinite. *)
Lemma zero_target_makes_mape_not_finite_witness :
  ∃ r,
    Example.validate_model_performance Example.loaded_service
      [Example.tested (Some (Fin 12)); Example.tested (Some (Fin 0))]
      "2024-01-01T00:00:00" "2024-01-01T00:00:01"
    = Ok (Validation.Validated r)
    ∧ ¬ F.finite (Validation.mape r).
Proof.
  assert (Hr : ∃ r,
             Example.validate_model_performance Example.loaded_service
               [Example.tested (Some (Fin 12)); Example.tested (Some (Fin 0))]
               "2024-01-01T00:00:00" "2024-01-01T00:00:01"
             = Ok (Validation.Validated r))
    by (eexists; vm_compute; reflexivity).
  destruct Hr as [r Hr]. exists r. split; [exact Hr|].
  assert (He : ∃ e, Spec.estimate_of Linear.scaler_transform Linear.net_predict
                      Example.loaded_service "2024-01-01T00:00:00"
                      (Example.tested (Some (Fin 0))) = Some e)
    by (eexists; vm_compute; reflexivity).
  destruct He as [e He].
  apply (zero_target_makes_mape_not_finite Linear.scaler_transform
           Linear.net_predict Example.np_sqrt Example.loaded_service
           [Example.tested (Some (Fin 12)); Example.tested (Some (Fin 0))]
           "2024-01-01T00:00:00" "2024-01-01T00:00:01" r
           (Example.tested (Some (Fin 0))) e 0).
  - repeat (apply Forall_cons; split; [by eexists|]). apply Forall_nil. done.
  - exact Hr.
  - apply elem_of_cons. right. apply elem_of_cons. by left.
  - exact He.
  - reflexivity.
  - reflexivity.
Defined.

(** Three samples, the second without its target: the call raises. *)
Lemma missing_target_breaks_the_metrics_witness :
  Example.validate_model_performance Example.loaded_service
    [Example.tested (Some (Fin 12)); Example.tested None;
     Example.tested (Some (Fin 10))]
    "2024-01-01T00:00:00" "2024-01-01T00:00:01"
  = Err (ValueError "operands could not be broadcast together").
Proof.
  assert (He : ∃ e, Spec.estimate_of Linear.scaler_transform Linear.net_predict
                      Example.loaded_service "2024-01-01T00:00:00"
                      (Example.tested None) = Some e)
    by (eexists; vm_compute; reflexivity).
  destruct He as [e He].
  apply (missing_target_breaks_the_metrics Linear.scaler_transform
           Linear.net_predict Example.np_sqrt Example.loaded_service _
           "2024-01-01T00:00:00" "2024-01-01T00:00:01" (Example.tested None) e).
  - apply elem_of_cons. right. apply elem_of_cons. by left.
  - exact He.
  - reflexivity.
  - vm_compute. lia.
Defined.
